(** * Asset data layer of the RTX Remix runtime (rtx_asset_data_manager.cpp)

    A shallow embedding of the three [AssetData] variants (GLI, partial DDS
    loader, package blobs) and of [AssetDataManager], followed by the
    properties of the specification that were checked against it.

    Conventions.
    - C++ integers are integers of [Z]; every conversion the compiler inserts
      is written out with [u32], [u64] and [s32].  The unit targets the Win32
      API ([CreateFile], [HANDLE]), hence the LLP64 widths: [int] and [long]
      are 32 bits, [size_t] is 64 bits.  Signed arithmetic that leaves its
      range wraps.
    - [assert] is an evaluated check: a failed assertion ends the call with
      [AssertionFailure].
    - A C++ exception ends the call with [Raise]; the object keeps the state
      it had when the exception left.
    - Calls to collaborators (package, file system, GLI) are recorded in an
      event list, so that "this source is not consulted" is a statement
      about the events of a call.  The calls of [std::filesystem] are taken
      to return; [std::fopen] can fail. *)

From Stdlib Require Import ZArith List String Ascii Bool Lia Sorted Permutation.
From stdpp Require Import gmap strings list.

Local Open Scope Z_scope.

(** ** Machine integers *)

Module Int.

Definition u16 (z : Z) : Z := z mod 2 ^ 16.
Definition u32 (z : Z) : Z := z mod 2 ^ 32.
Definition u64 (z : Z) : Z := z mod 2 ^ 64.
(** conversion to a signed 32-bit [int] or [long] (two's complement) *)
Definition s32 (z : Z) : Z := (z + 2 ^ 31) mod 2 ^ 32 - 2 ^ 31.

(** [std::max] and [std::clamp] on values of one type *)
Definition max (a b : Z) : Z := if a <? b then b else a.
Definition clamp (v lo hi : Z) : Z :=
  if v <? lo then lo else if hi <? v then hi else v.

End Int.

(** ** Outcomes and events *)

Inductive exn : Type :=
| DxvkError (msg : string)
| out_of_range
| AssertionFailure (msg : string)
| NullDereference
| ArrayOverrun.

Inductive result (A : Type) : Type :=
| Ok (a : A)
| Raise (e : exn).
Arguments Ok {A} a.
Arguments Raise {A} e.

Inductive event : Type :=
| LogInfo (msg : string)
| LogWarn (msg : string)
| LogErr (msg : string)
| EvFopen (filename : string)
| EvDirectoryScan (path : string)
| EvPackageOpen (path : string)
| EvPackageFind (package : string) (relativePath : string)
| EvGetDataBlobDesc (blobIdx : Z)
| EvReadDataBlob (blobIdx : Z)
| EvGliLoad (filename : string).

Definition kMipLevelsToCache : Z := 5.

(** ** AssetPackage: the interface of rtx_asset_package.h used here *)

Inductive AssetDescType : Type :=
| UNKNOWN | BUFFER | IMAGE_1D | IMAGE_2D | IMAGE_3D | IMAGE_CUBE.

Definition AssetDescType_eqb (a b : AssetDescType) : bool :=
  match a, b with
  | UNKNOWN, UNKNOWN | BUFFER, BUFFER | IMAGE_1D, IMAGE_1D
  | IMAGE_2D, IMAGE_2D | IMAGE_3D, IMAGE_3D | IMAGE_CUBE, IMAGE_CUBE => true
  | _, _ => false
  end.

Module AssetDesc.
Record t : Type := mk {
  type : AssetDescType;
  format : Z;
  size : Z;
  width : Z;
  height : Z;
  depth : Z;
  numMips : Z;
  numTailMips : Z;
  arraySize : Z;
  baseBlobIdx : Z;
  tailBlobIdx : Z
}.
End AssetDesc.

Module BlobDesc.
Record t : Type := mk {
  offset : Z;
  size : Z;
  compression : Z
}.
End BlobDesc.

Module AssetPackage.
(** The package is read-only for this layer: its descriptors and blob
    contents are functions of the index.  [findAsset] answers with the
    sentinel [kNoAssetIdx] when the path is not in the package. *)
Record t : Type := mk {
  getFilename : string;
  getAssetDesc : Z -> option AssetDesc.t;
  getDataBlobDesc : Z -> option BlobDesc.t;
  readDataBlob : Z -> Z -> list Z;
  findAsset : string -> Z
}.
End AssetPackage.

(** ** AssetInfo (the fields this unit fills in; the time stamp and the
    hash come from collaborators and are not represented) *)

Inductive AssetType : Type :=
| AssetType_Unknown | AssetType_Buffer | AssetType_Image1D
| AssetType_Image2D | AssetType_Image3D.

Inductive AssetCompression : Type :=
| Compression_None | Compression_GDeflate.

Record VkExtent3D : Type := mkExtent { ext_width : Z; ext_height : Z; ext_depth : Z }.

Record AssetInfo : Type := mkInfo {
  info_type : AssetType;
  info_compression : AssetCompression;
  info_format : Z;
  info_extent : VkExtent3D;
  info_mipLevels : Z;
  info_mininumLevelsToUpload : Z;
  info_numLayers : Z;
  info_filename : string
}.

(** ** PackagedAssetData *)

Module PackagedAssetData.
Import Int.

Record t : Type := mk {
  m_package : AssetPackage.t;
  m_assetDesc : AssetDesc.t;
  m_assetIdx : Z;
  m_info : AssetInfo;
  m_data : gmap Z (list Z)
}.

Definition type (d : AssetDesc.t) : result AssetType :=
  match AssetDesc.type d with
  | BUFFER => Ok AssetType_Buffer
  | IMAGE_1D => Ok AssetType_Image1D
  | IMAGE_2D | IMAGE_CUBE => Ok AssetType_Image2D
  | IMAGE_3D => Ok AssetType_Image3D
  | UNKNOWN => Raise (AssertionFailure "Unknown asset type")
  end.

Definition compression (p : AssetPackage.t) (d : AssetDesc.t) : result AssetCompression :=
  match AssetPackage.getDataBlobDesc p (AssetDesc.baseBlobIdx d) with
  | None => Raise NullDereference
  | Some blobDesc =>
      Ok (if BlobDesc.compression blobDesc =? 0 then Compression_None
          else Compression_GDeflate)
  end.

Definition extent (d : AssetDesc.t) (level : Z) : result VkExtent3D :=
  match type d with
  | Raise e => Raise e
  | Ok AssetType_Buffer => Ok (mkExtent (AssetDesc.size d) 0 1)
  | Ok _ =>
      Ok (mkExtent (max (u32 (Z.shiftr (AssetDesc.width d) level)) 1)
                   (max (u32 (Z.shiftr (AssetDesc.height d) level)) 1)
                   (max (u32 (Z.shiftr (AssetDesc.depth d) level)) 1))
  end.

(** The constructor; it raises when the package has no descriptor for
    [assetIdx]. *)
Definition new (package : AssetPackage.t) (assetIdx : Z) : result t :=
  match AssetPackage.getAssetDesc package assetIdx with
  | None => Raise (DxvkError "Asset description was not found in the package!")
  | Some d =>
      match type d with
      | Raise e => Raise e
      | Ok ty =>
          match compression package d with
          | Raise e => Raise e
          | Ok c =>
              match extent d 0 with
              | Raise e => Raise e
              | Ok ext =>
                  Ok (mk package d assetIdx
                        (mkInfo ty c (AssetDesc.format d) ext
                           (AssetDesc.numMips d)
                           (u16 (clamp (AssetDesc.numTailMips d) 1 (AssetDesc.numMips d)))
                           (AssetDesc.arraySize d)
                           (AssetPackage.getFilename package))
                        ∅)
              end
          end
      end
  end.

(** The package calls the constructor makes: once [type()] has passed,
    [compression()] asks the package for the descriptor of the base blob. *)
Definition new_calls (package : AssetPackage.t) (assetIdx : Z) : list event :=
  match AssetPackage.getAssetDesc package assetIdx with
  | None => []
  | Some d =>
      match type d with
      | Raise _ => []
      | Ok _ => [EvGetDataBlobDesc (AssetDesc.baseBlobIdx d)]
      end
  end.

(** [layer], [face] and [level] are [int]; [numLooseMips] and the result
    are [uint32_t], and the comparison and the product are unsigned. *)
Definition getBlobIndex (d : AssetDesc.t) (layer face level : Z) : Z :=
  if AssetDescType_eqb (AssetDesc.type d) BUFFER then u32 (AssetDesc.baseBlobIdx d)
  else
    let layer :=
      if AssetDescType_eqb (AssetDesc.type d) IMAGE_CUBE
      then s32 (layer * 6 + face) else layer in
    let numLooseMips := u32 (AssetDesc.numMips d - AssetDesc.numTailMips d) in
    let baseBlobIdx :=
      u32 (if numLooseMips <=? u32 level then AssetDesc.tailBlobIdx d
           else s32 (level + AssetDesc.baseBlobIdx d)) in
    u32 (baseBlobIdx + u32 (u32 layer * numLooseMips)).

(** [data] returns the bytes its pointer designates, the object after the
    call and the package calls it made. *)
Definition data (a : t) (layer level : Z) : result (option (list Z)) * t * list event :=
  let blobIdx := getBlobIndex (m_assetDesc a) layer 0 level in
  match m_data a !! blobIdx with
  | Some bytes => (Ok (Some bytes), a, [])
  | None =>
      match AssetPackage.getDataBlobDesc (m_package a) blobIdx with
      | Some blobDesc =>
          if negb (BlobDesc.compression blobDesc =? 0) then
            (Raise (DxvkError "Compressed data blobs are not supported for CPU readback."),
             a, [EvGetDataBlobDesc blobIdx])
          else
            let bytes := AssetPackage.readDataBlob (m_package a) blobIdx (BlobDesc.size blobDesc) in
            (Ok (Some bytes),
             mk (m_package a) (m_assetDesc a) (m_assetIdx a) (m_info a)
                (<[blobIdx := bytes]> (m_data a)),
             [EvGetDataBlobDesc blobIdx; EvReadDataBlob blobIdx])
      | None => (Ok None, a, [EvGetDataBlobDesc blobIdx])
      end
  end.

Definition evictCache (a : t) (layer level : Z) : t :=
  let blobIdx := getBlobIndex (m_assetDesc a) layer 0 level in
  mk (m_package a) (m_assetDesc a) (m_assetIdx a) (m_info a)
     (delete blobIdx (m_data a)).

Definition releaseSource (a : t) : t := a.

Definition placement (a : t) (layer face level : Z) : result (Z * Z) :=
  let blobIdx := getBlobIndex (m_assetDesc a) layer face level in
  match AssetPackage.getDataBlobDesc (m_package a) blobIdx with
  | Some blobDesc => Ok (BlobDesc.offset blobDesc, BlobDesc.size blobDesc)
  | None => Raise (AssertionFailure "Data blob was not found!")
  end.

End PackagedAssetData.

(** ** GLI: the constants, tables and types of the image library that the
    DDS parser and the fallback loader use (third-party headers; every
    value is taken as given by the library) *)

Module Gli.

Record dds_header : Type := mkHeader {
  Flags : Z;
  Height : Z;
  Width : Z;
  Depth : Z;
  MipMapLevels : Z;
  Format_flags : Z;
  Format_fourCC : Z;
  CubemapFlags : Z
}.

Record dds_header10 : Type := mkHeader10 {
  Format : Z;
  ArraySize : Z
}.

Record t : Type := mk {
  FOURCC_DDS : string;
  sizeof_FOURCC_DDS : Z;
  sizeof_dds_header : Z;
  sizeof_dds_header10 : Z;
  (** what the default constructor of [dds_header10] leaves in the object *)
  dds_header10_default : dds_header10;
  DDPF_FOURCC : Z;
  D3DFMT_DX10 : Z;
  D3DFMT_GLI1 : Z;
  DDSD_MIPMAPCOUNT : Z;
  DDSCAPS2_CUBEMAP : Z;
  DDSCAPS2_CUBEMAP_ALLFACES : Z;
  DDSCAPS2_VOLUME : Z;
  get_dds_format : dds_header -> dds_header10 -> Z;
  block_size : Z -> Z;
  block_extent : Z -> Z * Z * Z
}.

Inductive target : Type :=
| TARGET_1D | TARGET_1D_ARRAY | TARGET_2D | TARGET_2D_ARRAY
| TARGET_3D | TARGET_RECT | TARGET_RECT_ARRAY | TARGET_CUBE | TARGET_CUBE_ARRAY.

(** a loaded [gli::texture]; [data layer face level] is the address of
    the image *)
Record texture : Type := mkTexture {
  empty : bool;
  tex_target : target;
  tex_format : Z;
  tex_extent : Z -> Z * Z * Z;
  levels : Z;
  layers : Z;
  data : Z -> Z -> Z -> Z
}.

End Gli.

(** [glm::bitCount] on a 32-bit value *)
Definition bitCount (z : Z) : Z :=
  Z.of_nat (length (filter (fun i => Z.testbit z (Z.of_nat i)) (seq 0 32))).

(** ** The files a parser can be pointed at *)

(** What the reads of [parse] deliver from an opened file: its size, its
    first four bytes, the primary header and the extended header. *)
Record DdsFile : Type := mkDdsFile {
  file_size : Z;
  file_fourcc : string;
  file_header : Gli.dds_header;
  file_header10 : Gli.dds_header10
}.

Inductive fopen_result : Type :=
| Opened (f : DdsFile)
| OpenFailed (errno_is_EMFILE : bool).

(** ** DdsFileParser *)

Module DdsFileParser.
Import Int.

Record t : Type := mk {
  m_filename : string;
  m_fileSize : Z;
  m_width : Z;
  m_height : Z;
  m_depth : Z;
  m_format : Z;
  m_dataOffset : Z;
  m_levels : Z;
  m_layers : Z;
  m_faces : Z;
  m_levelSizes : list Z;
  m_sizeOfAllLevels : Z;
  m_file : option DdsFile
}.

(** the member initialisers; the array has 16 zeroed slots *)
Definition new : t :=
  mk "" 0 0 0 0 0 0 0 0 0 (replicate 16 0) 0 None.

Definition levelSizes_capacity : Z := 16.

Definition set_filename (p : t) (filename : string) : t :=
  mk filename (m_fileSize p) (m_width p) (m_height p) (m_depth p) (m_format p)
     (m_dataOffset p) (m_levels p) (m_layers p) (m_faces p) (m_levelSizes p)
     (m_sizeOfAllLevels p) (m_file p).

Definition set_file (p : t) (f : option DdsFile) : t :=
  mk (m_filename p) (m_fileSize p) (m_width p) (m_height p) (m_depth p) (m_format p)
     (m_dataOffset p) (m_levels p) (m_layers p) (m_faces p) (m_levelSizes p)
     (m_sizeOfAllLevels p) f.

Definition set_fileSize (p : t) (n : Z) : t :=
  mk (m_filename p) n (m_width p) (m_height p) (m_depth p) (m_format p)
     (m_dataOffset p) (m_levels p) (m_layers p) (m_faces p) (m_levelSizes p)
     (m_sizeOfAllLevels p) (m_file p).

Definition set_geometry (p : t) (dataOffset format levels layers faces width height depth : Z) : t :=
  mk (m_filename p) (m_fileSize p) width height depth format
     dataOffset levels layers faces (m_levelSizes p)
     (m_sizeOfAllLevels p) (m_file p).

(** [m_levelSizes[level] = levelSize; m_sizeOfAllLevels += levelSize;]
    a store outside the 16 slots is an overrun *)
Definition store_levelSize (p : t) (level levelSize : Z) : result t :=
  if (0 <=? level) && (level <? levelSizes_capacity) then
    Ok (mk (m_filename p) (m_fileSize p) (m_width p) (m_height p) (m_depth p) (m_format p)
           (m_dataOffset p) (m_levels p) (m_layers p) (m_faces p)
           (<[Z.to_nat level := levelSize]> (m_levelSizes p))
           (u64 (m_sizeOfAllLevels p + levelSize)) (m_file p))
  else Raise ArrayOverrun.

(** [openHandle]: opens [m_filename] unless a handle is already held *)
Definition openHandle (fopen : string -> fopen_result) (p : t)
  : result (option DdsFile) * t * list event :=
  if String.eqb (m_filename p) "" then
    (Raise (AssertionFailure "DDS filename cannot be empty"), p, [])
  else
    match m_file p with
    | Some f => (Ok (Some f), p, [])
    | None =>
        match fopen (m_filename p) with
        | Opened f => (Ok (Some f), set_file p (Some f), [EvFopen (m_filename p)])
        | OpenFailed true =>
            (Raise (DxvkError "Unable to open a DDS file: too many open files."),
             p, [EvFopen (m_filename p)])
        | OpenFailed false => (Ok None, p, [EvFopen (m_filename p)])
        end
    end.

Definition closeHandle (p : t) : t :=
  match m_file p with
  | Some _ => set_file p None
  | None => p
  end.

Section Parse.
Variable g : Gli.t.
Variable fopen : string -> fopen_result.

(** the fourCC field signals the DX10 or GLI1 extended header *)
Definition has_header10 (header : Gli.dds_header) : bool :=
  negb (Z.land (Gli.Format_flags header) (Gli.DDPF_FOURCC g) =? 0)
  && ((Gli.Format_fourCC header =? Gli.D3DFMT_DX10 g)
      || (Gli.Format_fourCC header =? Gli.D3DFMT_GLI1 g)).

(** the body of the level loop up to the store: [uint32_t] extents and
    block counts, the product with [blockSize] in [size_t] *)
Definition levelSize (header : Gli.dds_header) (format : Z) (level : Z) : Z :=
  let '(blockExtent_x, blockExtent_y, _) := Gli.block_extent g format in
  let width := max (u32 (Z.shiftr (Gli.Width header) level)) 1 in
  let height := max (u32 (Z.shiftr (Gli.Height header) level)) 1 in
  let widthBlocks := max 1 (u32 (width + blockExtent_x - 1) / u32 blockExtent_x) in
  let heightBlocks := max 1 (u32 (height + blockExtent_y - 1) / u32 blockExtent_y) in
  u64 (u32 (widthBlocks * heightBlocks) * u64 (Gli.block_size g format)).

(** [for (int level = 0; level < m_levels; ++level)] *)
Definition level_loop (header : Gli.dds_header) (format : Z) (p : t) : result t :=
  foldl (fun acc level =>
           match acc with
           | Ok q => store_levelSize q level (levelSize header format level)
           | Raise e => Raise e
           end)
        (Ok p) (seqZ 0 (m_levels p)).

Definition parse (p0 : t) (filename : string) : result bool * t * list event :=
  let p := set_filename p0 filename in
  match openHandle fopen p with
  | (Raise e, p, evs) => (Raise e, p, evs)
  | (Ok None, p, evs) => (Ok false, p, evs)
  | (Ok (Some f), p, evs) =>
      let p := set_fileSize p (file_size f) in
      if u64 (m_fileSize p) <? u64 (Gli.sizeof_FOURCC_DDS g + Gli.sizeof_dds_header g)
      then (Ok false, p, evs)
      else if negb (String.eqb (file_fourcc f) (Gli.FOURCC_DDS g))
      then (Ok false, p, evs)
      else
        let header := file_header f in
        let extended := has_header10 header in
        if extended
           && (u64 (m_fileSize p)
               <? u64 (Gli.sizeof_FOURCC_DDS g + Gli.sizeof_dds_header g
                       + Gli.sizeof_dds_header10 g))
        then (Ok false, p, evs)
        else
          let header10 := if extended then file_header10 f else Gli.dds_header10_default g in
          let dataOffset :=
            Gli.sizeof_FOURCC_DDS g + Gli.sizeof_dds_header g
            + (if extended then Gli.sizeof_dds_header10 g else 0) in
          let format := Gli.get_dds_format g header header10 in
          let levels :=
            if negb (Z.land (Gli.Flags header) (Gli.DDSD_MIPMAPCOUNT g) =? 0)
            then s32 (Gli.MipMapLevels header) else 1 in
          let layers := s32 (max (Gli.ArraySize header10) 1) in
          let faces :=
            if negb (Z.land (Gli.CubemapFlags header) (Gli.DDSCAPS2_CUBEMAP g) =? 0)
            then s32 (bitCount (Z.land (Gli.CubemapFlags header)
                                       (Gli.DDSCAPS2_CUBEMAP_ALLFACES g)))
            else 1 in
          let depth :=
            if negb (Z.land (Gli.CubemapFlags header) (Gli.DDSCAPS2_VOLUME g) =? 0)
            then Gli.Depth header else 1 in
          let p := set_geometry p dataOffset format levels layers faces
                                (Gli.Width header) (Gli.Height header) depth in
          if negb (u64 (m_levels p) <=? levelSizes_capacity)
          then (Raise (AssertionFailure "DDS level sizes array overrun! Increase array size."),
                p, evs)
          else
            match level_loop header format p with
            | Raise e => (Raise e, p, evs)
            | Ok p =>
                if u64 (u64 (m_sizeOfAllLevels p * u64 (s32 (m_layers p * m_faces p)))
                        + u64 (m_dataOffset p))
                   >? u64 (m_fileSize p)
                then (Ok false, p, evs)
                else (Ok true, closeHandle p, evs)
            end
  end.

End Parse.

(** [m_levelSizes[i]]; a read outside the 16 slots is an overrun *)
Definition load_levelSize (p : t) (i : Z) : result Z :=
  if (0 <=? i) && (i <? levelSizes_capacity) then
    match m_levelSizes p !! Z.to_nat i with
    | Some n => Ok n
    | None => Raise ArrayOverrun
    end
  else Raise ArrayOverrun.

(** [offset] is a [long]; each sum is formed in [size_t] and converted back *)
Definition getDataPlacement (p : t) (layer face level : Z) : result (Z * Z) :=
  let linearFace := s32 (layer * m_faces p + face) in
  let offset := s32 (u64 (u64 (m_dataOffset p) + u64 (u64 linearFace * m_sizeOfAllLevels p))) in
  let offset :=
    foldl (fun acc i =>
             match acc with
             | Ok off =>
                 match load_levelSize p i with
                 | Ok n => Ok (s32 (u64 (u64 off + n)))
                 | Raise e => Raise e
                 end
             | Raise e => Raise e
             end)
          (Ok offset) (seqZ 0 level) in
  match offset with
  | Raise e => Raise e
  | Ok offset =>
      match load_levelSize p level with
      | Ok size => Ok (offset, size)
      | Raise e => Raise e
      end
  end.

End DdsFileParser.

(** ** DdsTextureData: the partial loader *)

Inductive map_result : Type :=
| Mapped
| CreateFile_failed
| CreateFileMapping_failed
| MapViewOfFile_failed.

Module DdsTextureData.
Import Int.

(** [m_hFile], [m_hMapping] and [m_lpBaseAddress] are set and cleared
    together: [m_mapped] stands for the three. *)
Record t : Type := mk {
  parser : DdsFileParser.t;
  m_mapped : bool;
  m_info : option AssetInfo
}.

Definition new : t := mk DdsFileParser.new false None.

Definition type (p : DdsFileParser.t) : AssetType :=
  if (1 <? DdsFileParser.m_width p) && (DdsFileParser.m_height p =? 1)
     && (DdsFileParser.m_depth p =? 1)
  then AssetType_Image1D
  else if 1 <? DdsFileParser.m_depth p then AssetType_Image3D
  else AssetType_Image2D.

(** [data] returns the offset of its pointer from the base of the mapping.
    The warnings under [ONCE] are not recorded, and the assertion on
    [GetFileSize] concerns the operating system alone. *)
Definition data (map_file : string -> map_result) (d : t) (layer level : Z)
  : result (option Z) * t * list event :=
  match DdsFileParser.getDataPlacement (parser d) layer 0 level with
  | Raise e => (Raise e, d, [])
  | Ok (dataOffset, dataSize) =>
      if u64 (DdsFileParser.m_fileSize (parser d)) <? u64 (u64 dataOffset + dataSize)
      then (Ok None, d,
            [LogWarn ("Corrupted DDS file discovered: "
                      ++ DdsFileParser.m_filename (parser d))])
      else if m_mapped d then (Ok (Some dataOffset), d, [])
      else
        match map_file (DdsFileParser.m_filename (parser d)) with
        | Mapped => (Ok (Some dataOffset), mk (parser d) true (m_info d), [])
        | _ => (Ok None, d, [])
        end
  end.

Definition evictCache (d : t) (layer level : Z) : t := d.

Definition releaseSource (d : t) : t :=
  mk (DdsFileParser.closeHandle (parser d)) false (m_info d).

(** [offset64 = offset]: the [long] is converted to [uint64_t] *)
Definition placement (d : t) (layer face level : Z) : result (Z * Z) :=
  match DdsFileParser.getDataPlacement (parser d) layer face level with
  | Ok (offset, size) => Ok (u64 offset, size)
  | Raise e => Raise e
  end.

Definition load (g : Gli.t) (fopen : string -> fopen_result) (d : t) (filename : string)
  : result bool * t * list event :=
  match DdsFileParser.parse g fopen (parser d) filename with
  | (Ok true, p, evs) =>
      (Ok true,
       mk p (m_mapped d)
          (Some (mkInfo (type p) Compression_None (DdsFileParser.m_format p)
                   (mkExtent (DdsFileParser.m_width p) (DdsFileParser.m_height p)
                             (DdsFileParser.m_depth p))
                   (DdsFileParser.m_levels p)
                   (Z.min kMipLevelsToCache (DdsFileParser.m_levels p))
                   (DdsFileParser.m_layers p)
                   (DdsFileParser.m_filename p))),
       evs)
  | (r, p, evs) => (r, mk p (m_mapped d) (m_info d), evs)
  end.

End DdsTextureData.

(** ** GliTextureData: the full-decode fallback *)

Module GliTextureData.
Import Int.

Record t : Type := mk {
  m_texture : Gli.texture;
  m_filename : string;
  m_info : AssetInfo
}.

Definition type (tex : Gli.texture) : result AssetType :=
  match Gli.tex_target tex with
  | Gli.TARGET_1D | Gli.TARGET_1D_ARRAY => Ok AssetType_Image1D
  | Gli.TARGET_2D | Gli.TARGET_2D_ARRAY | Gli.TARGET_CUBE | Gli.TARGET_CUBE_ARRAY =>
      Ok AssetType_Image2D
  | Gli.TARGET_3D => Ok AssetType_Image3D
  | _ => Raise (AssertionFailure "Unsupported gli image target type!")
  end.

Definition extent (tex : Gli.texture) (level : Z) : VkExtent3D :=
  let '(x, y, z) := Gli.tex_extent tex level in
  mkExtent (u32 x) (u32 y) (u32 z).

(** [gli_load filename] is the texture [gli::load] returns; [load] gives
    the loaded object, or [None] when the texture is empty *)
Definition load (gli_load : string -> Gli.texture) (filename : string)
  : result (option t) :=
  let tex := gli_load filename in
  if Gli.empty tex then Ok None
  else
    match type tex with
    | Raise e => Raise e
    | Ok ty =>
        Ok (Some (mk tex filename
                    (mkInfo ty Compression_None (Gli.tex_format tex) (extent tex 0)
                       (Gli.levels tex)
                       (Z.min kMipLevelsToCache (Gli.levels tex))
                       (Gli.layers tex) filename)))
    end.

Definition data (a : t) (layer level : Z) : Z :=
  Gli.data (m_texture a) layer 0 level.

Definition evictCache (a : t) (layer level : Z) : t := a.

Definition releaseSource (a : t) : t := a.

Definition placement (a : t) (layer face level : Z) : result (Z * Z) :=
  Raise (AssertionFailure "Data placement interface is not supported by GliTextureData").

End GliTextureData.

(** ** Strings and paths *)

Module Str.

(** C [tolower] in the "C" locale *)
Definition tolower (c : ascii) : ascii :=
  let n := nat_of_ascii c in
  if (Nat.leb 65 n && Nat.leb n 90)%bool then ascii_of_nat (n + 32) else c.

Fixpoint map (f : ascii -> ascii) (s : string) : string :=
  match s with
  | EmptyString => EmptyString
  | String c s' => String (f c) (map f s')
  end.

Definition lower (s : string) : string := map tolower s.

(** [std::filesystem::path::make_preferred] on Windows *)
Definition make_preferred (s : string) : string :=
  map (fun c => if Ascii.eqb c "/" then "\"%char else c) s.

(** [s.back()], for a non-empty string *)
Fixpoint back (s : string) : option ascii :=
  match s with
  | EmptyString => None
  | String c EmptyString => Some c
  | String _ s' => back s'
  end.

(** [s.substr(pos)]: raises [out_of_range] when [pos > s.size()] *)
Fixpoint substr (s : string) (pos : nat) : result string :=
  match pos, s with
  | O, _ => Ok s
  | S _, EmptyString => Raise out_of_range
  | S pos', String _ s' => substr s' pos'
  end.

(** [strrchr(s, c)]: the suffix of [s] that starts at the last [c] *)
Fixpoint strrchr (s : string) (c : ascii) : option string :=
  match s with
  | EmptyString => None
  | String a s' =>
      match strrchr s' c with
      | Some r => Some r
      | None => if Ascii.eqb a c then Some s else None
      end
  end.

(** [_stricmp(a, b) == 0] *)
Definition stricmp_eq (a b : string) : bool := String.eqb (lower a) (lower b).

(** the last path component, after the last separator *)
Fixpoint filename_of (s : string) : string :=
  match s with
  | EmptyString => EmptyString
  | String a s' =>
      if (Ascii.eqb a "/" || Ascii.eqb a "\")%bool then filename_of s'
      else
        match strrchr s' "/", strrchr s' "\" with
        | None, None => s
        | _, _ => filename_of s'
        end
  end.

(** [std::filesystem::path::extension] *)
Definition extension (path : string) : string :=
  let name := filename_of path in
  if (String.eqb name "." || String.eqb name "..")%bool then EmptyString
  else
    match name with
    | EmptyString => EmptyString
    | String a rest =>
        match strrchr rest "." with
        | Some ext => ext
        | None => EmptyString
        end
    end.

End Str.

(** ** std::map: an association list kept in strictly ascending key order *)

Module StdMap.
Section Ops.
Context {K V : Type}.
Variable ltb : K -> K -> bool.

Fixpoint find (k : K) (m : list (K * V)) : option V :=
  match m with
  | [] => None
  | (k', v) :: m' =>
      if ltb k k' then None
      else if ltb k' k then find k m'
      else Some v
  end.

(** [m[k] = f(m[k])], a missing key starting from [dflt] *)
Fixpoint update (k : K) (dflt : V) (f : V -> V) (m : list (K * V)) : list (K * V) :=
  match m with
  | [] => [(k, f dflt)]
  | (k', v) :: m' =>
      if ltb k k' then (k, f dflt) :: m
      else if ltb k' k then (k', v) :: update k dflt f m'
      else (k', f v) :: m'
  end.

(** [m.emplace(k, v)]: an existing key keeps its value *)
Fixpoint emplace (k : K) (v : V) (m : list (K * V)) : list (K * V) :=
  match m with
  | [] => [(k, v)]
  | (k', v') :: m' =>
      if ltb k k' then (k, v) :: m
      else if ltb k' k then (k', v') :: emplace k v m'
      else m
  end.

End Ops.
End StdMap.

(** ** AssetData: the three variants behind one interface *)

Inductive AssetData : Type :=
| AssetData_Dds (dds : DdsTextureData.t)
| AssetData_Packaged (packaged : PackagedAssetData.t)
| AssetData_Gli (gli : GliTextureData.t).

(** ** AssetDataManager *)

(** Options, constants and collaborators of the manager. *)
Record Env : Type := mkEnv {
  RtxIo_enabled : bool;
  usePartialDdsLoader : bool;
  suppressAssetLoadingErrors : bool;
  kNoAssetIdx : Z;
  gli : Gli.t;
  (** [std::filesystem::absolute(p).string()] *)
  fs_absolute : string -> string;
  fs_exists : string -> bool;
  (** the entry paths [directory_iterator(path)] yields *)
  fs_directory_iterator : string -> list string;
  fs_fopen : string -> fopen_result;
  (** [new AssetPackage(path)] followed by [initialize()] *)
  package_initialize : string -> option AssetPackage.t;
  gli_load : string -> Gli.texture
}.

Module AssetDataManager.

Definition PackageSet : Type := list (string * AssetPackage.t).
Definition PackageEntry : Type := (string * PackageSet)%type.

Record t : Type := mk {
  m_searchPaths : list (Z * list string);
  m_packageSets : list (Z * list PackageEntry)
}.

Definition new : t := mk [] [].

(** absolute, preferred separators, lowercase, trailing separator *)
Definition normalize_base (env : Env) (path : string) : string :=
  let normalized := Str.lower (Str.make_preferred (fs_absolute env path)) in
  match Str.back normalized with
  | None => normalized
  | Some c =>
      if (Ascii.eqb c "\" || Ascii.eqb c "/")%bool then normalized
      else (normalized ++ "\")%string
  end.

(** the two nested loops of the global dedupe *)
Definition already_registered (m : t) (normalized : string) : bool :=
  existsb (fun pr => existsb (fun existing => String.eqb existing normalized) (snd pr))
          (m_searchPaths m).

(** the body of the directory loop: one entry *)
Definition mount_entry (env : Env) (acc : PackageSet * list event) (entry : string)
  : PackageSet * list event :=
  let '(packageSet, evs) := acc in
  let ext := Str.extension entry in
  if (String.eqb ext ".pkg" || String.eqb ext ".rtxio")%bool then
    match package_initialize env entry with
    | Some package =>
        (StdMap.emplace String.ltb entry package packageSet,
         evs ++ [EvPackageOpen entry; LogInfo ("Mounted a package at: " ++ entry)])
    | None =>
        (packageSet,
         evs ++ [EvPackageOpen entry; LogWarn ("Corrupted package discovered at: " ++ entry)])
    end
  else (packageSet, evs).

Definition scan_directory (env : Env) (path : string) : PackageSet * list event :=
  if fs_exists env path then
    foldl (mount_entry env) ([], [EvDirectoryScan path]) (fs_directory_iterator env path)
  else ([], []).

Definition addSearchPath (env : Env) (m : t) (priority : Z) (path : string)
  : t * list event :=
  let normalized := normalize_base env path in
  if already_registered m normalized then (m, [])
  else
    let log := [LogInfo ("Adding asset search path: " ++ normalized)] in
    let searchPaths :=
      StdMap.update Z.ltb priority [] (fun v => v ++ [normalized]) (m_searchPaths m) in
    if RtxIo_enabled env then
      let '(packageSet, evs) := scan_directory env path in
      (mk searchPaths
          (StdMap.update Z.ltb priority [] (fun v => v ++ [(normalized, packageSet)])
             (m_packageSets m)),
       log ++ evs)
    else (mk searchPaths (m_packageSets m), log).

(** the innermost loop: the packages of one path, last name first; a hit
    constructs the packaged asset, with the package call its constructor
    makes *)
Fixpoint search_packages (env : Env) (relativePath : string)
  (packages : list (string * AssetPackage.t))
  : option (result PackagedAssetData.t) * list event :=
  match packages with
  | [] => (None, [])
  | (name, package) :: rest =>
      let assetIdx := AssetPackage.findAsset package relativePath in
      if assetIdx =? kNoAssetIdx env then
        let '(r, evs) := search_packages env relativePath rest in
        (r, EvPackageFind name relativePath :: evs)
      else (Some (PackagedAssetData.new package assetIdx),
            EvPackageFind name relativePath :: PackagedAssetData.new_calls package assetIdx)
  end.

(** the loop over the entries of one priority, last added first *)
Fixpoint search_entries (env : Env) (filename filenameLower : string)
  (entries : list PackageEntry)
  : option (result PackagedAssetData.t) * list event :=
  match entries with
  | [] => (None, [])
  | (basePath, packages) :: rest =>
      if (Nat.ltb (String.length basePath) (String.length filenameLower)
          && String.prefix basePath filenameLower)%bool
      then
        match Str.substr filename (String.length basePath) with
        | Raise e => (Some (Raise e), [])
        | Ok relativePath =>
            match search_packages env relativePath (rev packages) with
            | (Some r, evs) => (Some r, evs)
            | (None, evs) =>
                let '(r, evs') := search_entries env filename filenameLower rest in
                (r, evs ++ evs')
            end
        end
      else search_entries env filename filenameLower rest
  end.

(** the loop over the priorities, highest first *)
Fixpoint search_priorities (env : Env) (filename filenameLower : string)
  (sets : list (Z * list PackageEntry))
  : option (result PackagedAssetData.t) * list event :=
  match sets with
  | [] => (None, [])
  | (priority, entries) :: rest =>
      match search_entries env filename filenameLower (rev entries) with
      | (Some r, evs) => (Some r, evs)
      | (None, evs) =>
          let '(r, evs') := search_priorities env filename filenameLower rest in
          (r, evs ++ evs')
      end
  end.

Definition isDDS (filename : string) : bool :=
  match Str.strrchr filename "." with
  | Some extension => Str.stricmp_eq extension ".dds"
  | None => false
  end.

Definition unsupported_message : string :=
  "Unsupported image file format, use the RTX-Remix toolkit and ingest the following asset: ".

Definition gli_fallback (env : Env) (filename : string)
  : result (option AssetData) * list event :=
  match GliTextureData.load (gli_load env) filename with
  | Raise e => (Raise e, [EvGliLoad filename])
  | Ok (Some gli) =>
      (Ok (Some (AssetData_Gli gli)),
       [EvGliLoad filename;
        LogWarn ("The GLI library was used to load image file '" ++ filename
                 ++ "'. Image data will reside in CPU memory!")])
  | Ok None => (Ok None, [EvGliLoad filename])
  end.

(** A stage of [findAsset] either ends the call ([Some]: a [return] or an
    exception) or falls through to the next one ([None]). *)
Definition stage : Type := (option (result (option AssetData)) * list event)%type.

Definition dds_stage (env : Env) (filename : string) : stage :=
  if usePartialDdsLoader env then
    match DdsTextureData.load (gli env) (fs_fopen env) DdsTextureData.new filename with
    | (Ok true, dds, evs) => (Some (Ok (Some (AssetData_Dds dds))), evs)
    | (Ok false, _, evs) => (None, evs)
    | (Raise e, _, evs) => (Some (Raise e), evs)
    end
  else (None, []).

Definition package_stage (env : Env) (m : t) (filename : string) : stage :=
  if (RtxIo_enabled env && negb (Nat.eqb (length (m_packageSets m)) 0))%bool then
    let filenameLower := Str.lower (Str.make_preferred (fs_absolute env filename)) in
    match search_priorities env filename filenameLower (rev (m_packageSets m)) with
    | (Some (Ok packaged), evs) => (Some (Ok (Some (AssetData_Packaged packaged))), evs)
    | (Some (Raise e), evs) => (Some (Raise e), evs)
    | (None, evs) => (None, evs)
    end
  else (None, []).

Definition findAsset (env : Env) (m : t) (filename : string)
  : result (option AssetData) * list event :=
  if negb (isDDS filename) then
    (Ok None,
     [if suppressAssetLoadingErrors env
      then LogWarn (unsupported_message ++ filename)
      else LogErr (unsupported_message ++ filename)])
  else
    match dds_stage env filename with
    | (Some r, evs) => (r, evs)
    | (None, evs1) =>
        match package_stage env m filename with
        | (Some r, evs2) => (r, evs1 ++ evs2)
        | (None, evs2) =>
            let '(r, evs3) := gli_fallback env filename in
            (r, evs1 ++ evs2 ++ evs3)
        end
    end.

End AssetDataManager.

(** * Specification-side definitions *)

(** ** Requests to a PackagedAssetData *)


(** ** Call sequences on one PackagedAssetData *)

Module PackagedCalls.
Import PackagedAssetData.

Inductive call : Type :=
| Call_data (layer level : Z)
| Call_evictCache (layer level : Z).

(** the object after one call (a raising [data] leaves it as it was) *)
Definition step (a : t) (c : call) : t :=
  match c with
  | Call_data layer level => (data a layer level).1.2
  | Call_evictCache layer level => evictCache a layer level
  end.

Definition run (a : t) (cs : list call) : t := foldl step a cs.

(** "its data has been read by data() and not evicted since": some call
    of [data] for blob [b] returned bytes, and no later call evicted [b] *)
Definition read_and_not_evicted (a0 : t) (cs : list call) (b : Z) : Prop :=
  exists pre layer level post,
    cs = pre ++ Call_data layer level :: post
    /\ getBlobIndex (m_assetDesc a0) layer 0 level = b
    /\ (exists bytes, (data (run a0 pre) layer level).1.1 = Ok (Some bytes))
    /\ (forall layer' level',
          In (Call_evictCache layer' level') post ->
          getBlobIndex (m_assetDesc a0) layer' 0 level' <> b).

End PackagedCalls.

(** ** What a DDS file declares *)

Module DdsSpec.
Import Int DdsFileParser.

Section Declared.
Variable g : Gli.t.
Variable f : DdsFile.

Definition header10 : Gli.dds_header10 :=
  if has_header10 g (file_header f) then file_header10 f else Gli.dds_header10_default g.

Definition format : Z := Gli.get_dds_format g (file_header f) header10.

(** the mip-level count of the header, as the [uint32_t] it is stored in *)
Definition declared_levels : Z :=
  if negb (Z.land (Gli.Flags (file_header f)) (Gli.DDSD_MIPMAPCOUNT g) =? 0)
  then Gli.MipMapLevels (file_header f) else 1.

Definition levels : Z :=
  if negb (Z.land (Gli.Flags (file_header f)) (Gli.DDSD_MIPMAPCOUNT g) =? 0)
  then s32 (Gli.MipMapLevels (file_header f)) else 1.

Definition layers : Z := s32 (max (Gli.ArraySize header10) 1).

Definition faces : Z :=
  if negb (Z.land (Gli.CubemapFlags (file_header f)) (Gli.DDSCAPS2_CUBEMAP g) =? 0)
  then s32 (bitCount (Z.land (Gli.CubemapFlags (file_header f))
                             (Gli.DDSCAPS2_CUBEMAP_ALLFACES g)))
  else 1.

Definition depth : Z :=
  if negb (Z.land (Gli.CubemapFlags (file_header f)) (Gli.DDSCAPS2_VOLUME g) =? 0)
  then Gli.Depth (file_header f) else 1.

Definition dataOffset : Z :=
  Gli.sizeof_FOURCC_DDS g + Gli.sizeof_dds_header g
  + (if has_header10 g (file_header f) then Gli.sizeof_dds_header10 g else 0).

(** the byte sizes of the declared levels, level 0 first *)
Definition levelSizes : list Z :=
  levelSize g (file_header f) format <$> seqZ 0 levels.

Definition sum (l : list Z) : Z := foldr Z.add 0 l.

(** the four reasons of the specification for a false return *)
Definition too_short_for_header : bool :=
  u64 (file_size f) <? u64 (Gli.sizeof_FOURCC_DDS g + Gli.sizeof_dds_header g).

Definition magic_mismatch : bool :=
  negb (String.eqb (file_fourcc f) (Gli.FOURCC_DDS g)).

Definition too_short_for_header10 : bool :=
  has_header10 g (file_header f)
  && (u64 (file_size f)
      <? u64 (Gli.sizeof_FOURCC_DDS g + Gli.sizeof_dds_header g
              + Gli.sizeof_dds_header10 g)).

(** the total payload as the guard computes it, in [size_t] *)
Definition computed_payload : Z :=
  u64 (u64 (u64 (sum levelSizes) * u64 (s32 (layers * faces))) + u64 dataOffset).

Definition payload_exceeds_file : bool := computed_payload >? u64 (file_size f).

(** the header is read completely and the level guard is reached *)
Definition header_accepted : bool :=
  negb too_short_for_header && negb magic_mismatch && negb too_short_for_header10.

Definition levels_fit : bool := u64 levels <=? levelSizes_capacity.


End Declared.

(** the parser after the level loop has stored [sizes] *)
Definition with_levels (p : t) (sizes : list Z) : t :=
  mk (m_filename p) (m_fileSize p) (m_width p) (m_height p) (m_depth p) (m_format p)
     (m_dataOffset p) (m_levels p) (m_layers p) (m_faces p)
     (sizes ++ drop (length sizes) (m_levelSizes p))
     (u64 (m_sizeOfAllLevels p + sum sizes)) (m_file p).

(** the parser once [f] is open and measured, and once the header
    fields are taken over *)
Definition opened (filename : string) (f : DdsFile) : t :=
  set_fileSize (set_file (set_filename new filename) (Some f)) (file_size f).

Definition measured (g : Gli.t) (filename : string) (f : DdsFile) : t :=
  set_geometry (opened filename f) (dataOffset g f) (format g f) (levels g f)
    (layers g f) (faces g f) (Gli.Width (file_header f)) (Gli.Height (file_header f))
    (depth g f).

Definition assert_message : string :=
  "DDS level sizes array overrun! Increase array size.".

(** the parser a successful [parse] of [f] leaves *)
Definition parsed (g : Gli.t) (filename : string) (f : DdsFile) : t :=
  mk filename (file_size f) (Gli.Width (file_header f)) (Gli.Height (file_header f))
     (depth g f) (format g f) (dataOffset g f) (levels g f) (layers g f) (faces g f)
     (levelSizes g f ++ drop (length (levelSizes g f)) (replicate 16 0))
     (u64 (sum (levelSizes g f))) None.

(** the placement formula of the specification, on the declared values *)
Definition placement_formula (g : Gli.t) (f : DdsFile) (layer face level : Z) : Z * Z :=
  (dataOffset g f + (layer * faces g f + face) * sum (levelSizes g f)
   + sum (take (Z.to_nat level) (levelSizes g f)),
   default 0 (levelSizes g f !! Z.to_nat level)).


(** byte ranges [(offset, size)] *)
Definition range_within (r : Z * Z) (lo hi : Z) : Prop :=
  lo <= r.1 /\ r.1 + r.2 <= hi.

Definition ranges_disjoint (r1 r2 : Z * Z) : Prop :=
  r1.1 + r1.2 <= r2.1 \/ r2.1 + r2.2 <= r1.1.

End DdsSpec.

(** ** The face a request of data() addresses *)

(** the linear face index of (layer, face) in a resource with [faces]
    faces a layer: the index both [getDataPlacement] and the cube branch
    of [getBlobIndex] form *)
Definition linear_face (faces layer face : Z) : Z := layer * faces + face.

(** ** The package search, as the specification words it *)

Module SearchSpec.
Import AssetDataManager.

(** the normalized filename is a strict extension of the base path *)
Definition matches (filenameLower basePath : string) : bool :=
  (Nat.ltb (String.length basePath) (String.length filenameLower)
   && String.prefix basePath filenameLower)%bool.

(** the elements of a vector with their positions, i.e. in the order of
    their addition *)
Fixpoint numbered {A : Type} (k : nat) (l : list A) : list (nat * A) :=
  match l with
  | [] => []
  | x :: l' => (k, x) :: numbered (S k) l'
  end.

Record path_entry : Type := mkPathEntry {
  p_priority : Z;
  p_position : nat;
  p_basePath : string;
  p_packages : PackageSet
}.

(** the mounted paths from the highest priority to the lowest, and within
    a priority from the most recently added to the least recently added *)
Definition paths_of_priority (pe : Z * list PackageEntry) : list path_entry :=
  rev (map (fun ie => mkPathEntry pe.1 ie.1 ie.2.1 ie.2.2) (numbered 0 pe.2)).

Definition paths_in_order (sets : list (Z * list PackageEntry)) : list path_entry :=
  flat_map paths_of_priority (rev sets).

Record candidate : Type := mkCandidate {
  c_path : path_entry;
  c_name : string;
  c_package : AssetPackage.t
}.

(** the packages of one path, in reverse order of their names *)
Definition packages_in_order (p : path_entry) : list candidate :=
  map (fun np => mkCandidate p np.1 np.2) (rev (p_packages p)).

(** every package of every matching path, in search order *)
Definition candidates (filenameLower : string) (sets : list (Z * list PackageEntry))
  : list candidate :=
  flat_map packages_in_order
    (List.filter (fun p => matches filenameLower (p_basePath p)) (paths_in_order sets)).

(** [p1] is visited before [p2] *)
Definition path_before (p1 p2 : path_entry) : Prop :=
  p_priority p2 < p_priority p1
  \/ (p_priority p1 = p_priority p2 /\ (p_position p2 < p_position p1)%nat).

(** [c1] is searched before [c2] *)
Definition searched_before (c1 c2 : candidate) : Prop :=
  path_before (c_path c1) (c_path c2)
  \/ (c_path c1 = c_path c2 /\ String.ltb (c_name c2) (c_name c1) = true).

(** the suffix of [s] from position [n] on *)
Fixpoint string_drop (n : nat) (s : string) : string :=
  match n, s with
  | O, _ => s
  | S n', String _ s' => string_drop n' s'
  | S _, EmptyString => EmptyString
  end.

(** the key handed to the package: the original filename without its
    first [length basePath] characters *)
Definition relative_path (filename : string) (c : candidate) : string :=
  string_drop (String.length (p_basePath (c_path c))) filename.

Definition contains (env : Env) (filename : string) (c : candidate) : bool :=
  negb (AssetPackage.findAsset (c_package c) (relative_path filename c) =? kNoAssetIdx env).

(** the package calls of a search: every candidate up to the first hit,
    and the call of the constructor for the hit *)
Fixpoint probes (env : Env) (filename : string) (cs : list candidate) : list event :=
  match cs with
  | [] => []
  | c :: cs' =>
      EvPackageFind (c_name c) (relative_path filename c)
      :: (if contains env filename c
          then PackagedAssetData.new_calls (c_package c)
                 (AssetPackage.findAsset (c_package c) (relative_path filename c))
          else probes env filename cs')
  end.

(** the outcome the specification gives the search *)
Definition first_hit (env : Env) (filename : string) (cs : list candidate)
  : option (result PackagedAssetData.t) :=
  match List.find (contains env filename) cs with
  | Some c =>
      Some (PackagedAssetData.new (c_package c)
              (AssetPackage.findAsset (c_package c) (relative_path filename c)))
  | None => None
  end.

(** the original filename is long enough for every matching base path *)
Definition substr_in_range (filename filenameLower : string)
    (sets : list (Z * list PackageEntry)) : Prop :=
  forall p, In p (paths_in_order sets) ->
    matches filenameLower (p_basePath p) = true ->
    (String.length (p_basePath p) <= String.length filename)%nat.

(** the partial loader is disabled, or its [load] returned false after
    the events [evs] *)
Definition dds_falls_through (env : Env) (filename : string) (evs : list event) : Prop :=
  (usePartialDdsLoader env = false /\ evs = [])
  \/ (usePartialDdsLoader env = true
      /\ exists dds,
           DdsTextureData.load (gli env) (fs_fopen env) DdsTextureData.new filename
           = (Ok false, dds, evs)).

(** what [findAsset] makes of the constructor of the packaged variant *)
Definition packaged_result (r : result PackagedAssetData.t) : result (option AssetData) :=
  match r with
  | Ok packaged => Ok (Some (AssetData_Packaged packaged))
  | Raise e => Raise e
  end.

(** the keys of the two kinds of std::map are strictly ascending *)
Definition sets_sorted (sets : list (Z * list PackageEntry)) : Prop :=
  StronglySorted (fun a b => a.1 < b.1) sets
  /\ (forall pe e, In pe sets -> In e pe.2 ->
        StronglySorted (fun a b => String.ltb a.1 b.1 = true) e.2).

End SearchSpec.

(** ** Example values *)

Module Examples.

(** a non-cube image with 8 mips of which 3 are in the tail *)
Definition image_8_3 : AssetDesc.t :=
  AssetDesc.mk IMAGE_2D 0 0 128 128 1 8 3 4 100 200.


(** a package with one image asset (index 0) whose blobs 100..104 and 200
    are stored raw, and one compressed blob 300 *)
Definition package_one : AssetPackage.t :=
  AssetPackage.mk "c:\mods\a.pkg"
    (fun idx => if idx =? 0 then Some image_8_3 else None)
    (fun b => if ((100 <=? b) && (b <=? 104)) || (b =? 200)
              then Some (BlobDesc.mk (b * 16) 4 0)
              else if b =? 300 then Some (BlobDesc.mk 9000 4 1)
              else None)
    (fun b n => replicate (Z.to_nat n) (b mod 256))
    (fun rel => if String.eqb rel "tex\a.dds" then 0 else 4294967295).

(** the constants of the DDS container as GLI declares them; formats are
    keyed by their DXGI number: 2 is RGBA32F (16 bytes a texel), 71 is BC1
    (8 bytes a 4x4 block), everything else counts 4 bytes a texel *)
Definition gli_dds : Gli.t :=
  Gli.mk "DDS " 4 124 20 (Gli.mkHeader10 0 0)
    4 808540228 826887239 131072 512 64512 2097152
    (fun _ h10 => Gli.Format h10)
    (fun format => if format =? 2 then 16 else if format =? 71 then 8 else 4)
    (fun format => if format =? 71 then (4, 4, 1) else (1, 1, 1)).

(** a 256x256 BC1 image with 9 mip levels: 43704 bytes of payload after
    the 148 bytes of headers *)
Definition bc1_header : Gli.dds_header :=
  Gli.mkHeader 135175 256 256 0 9 4 808540228 0.

Definition bc1_file : DdsFile :=
  mkDdsFile 43852 "DDS " bc1_header (Gli.mkHeader10 71 1).

(** the same headers in a file that does not start with the magic *)
Definition bad_magic_file : DdsFile :=
  mkDdsFile 43852 "XXXX" bc1_header (Gli.mkHeader10 71 1).

(** a header that declares 17 mip levels *)
Definition levels17_file : DdsFile :=
  mkDdsFile 43852 "DDS " (Gli.mkHeader 135175 256 256 0 17 4 808540228 0)
    (Gli.mkHeader10 71 1).

(** 148 bytes of headers and no payload, declaring 2^30 layers of a
    32768x32768 RGBA32F image: 2^34 bytes a layer *)
Definition wrapping_file : DdsFile :=
  mkDdsFile 148 "DDS " (Gli.mkHeader 4103 32768 32768 0 0 4 808540228 0)
    (Gli.mkHeader10 2 1073741824).

(** a process whose working directory is [c:\mods]: relative paths are
    completed with it, the directory holds one package and one other file,
    no loose DDS file can be opened and GLI decodes nothing *)
Definition empty_texture : Gli.texture :=
  Gli.mkTexture true Gli.TARGET_2D 0 (fun _ => (0, 0, 0)) 0 0 (fun _ _ _ => 0).

Definition env_mods : Env :=
  mkEnv true false false 4294967295 gli_dds
    (fun p => if String.prefix "c:" (Str.lower p) then p else ("c:\mods\" ++ p)%string)
    (fun _ => true)
    (fun _ => ["c:\mods\a.pkg"; "c:\mods\readme.txt"])
    (fun _ => OpenFailed false)
    (fun _ => Some package_one)
    (fun _ => empty_texture).

End Examples.

(** ** The registry of the manager *)

Module ManagerSpec.
Import AssetDataManager.

(** the manager after a sequence of [addSearchPath (priority, path)] calls *)
Definition run_adds (env : Env) (calls : list (Z * string)) : t :=
  foldl (fun m c => (addSearchPath env m c.1 c.2).1) new calls.

(** "exists under any priority" *)
Definition registered (m : t) (normalized : string) : Prop :=
  exists priority paths,
    In (priority, paths) (m_searchPaths m) /\ In normalized paths.

(** every search path of the registry, over all priorities *)
Definition all_paths (m : t) : list string := concat (map snd (m_searchPaths m)).

Definition registry_count (m : t) (normalized : string) : nat :=
  count_occ string_dec (all_paths m) normalized.

(** every base path of the package sets, over all priorities *)
Definition mounted_paths (m : t) : list string :=
  map fst (concat (map snd (m_packageSets m))).

Definition is_scan (e : event) : bool :=
  match e with EvDirectoryScan _ => true | _ => false end.

Definition count_scans (evs : list event) : nat := length (List.filter is_scan evs).

End ManagerSpec.

(** * Further definitions *)

(** ** AssetData::info of the three variants *)

Definition AssetData_info (a : AssetData) : option AssetInfo :=
  match a with
  | AssetData_Dds dds => DdsTextureData.m_info dds
  | AssetData_Packaged packaged => Some (PackagedAssetData.m_info packaged)
  | AssetData_Gli gli => Some (GliTextureData.m_info gli)
  end.

(** ** Shapes of strings *)

(** every character of [s] satisfies [f] *)
Fixpoint chars_all (f : ascii -> bool) (s : string) : bool :=
  match s with
  | EmptyString => true
  | String c s' => f c && chars_all f s'
  end.

(** an upper-case letter of the "C" locale *)
Definition is_upper (c : ascii) : bool :=
  (Nat.leb 65 (nat_of_ascii c) && Nat.leb (nat_of_ascii c) 90)%bool.

(** a character a normalized path can hold: no upper-case letter, no
    forward slash *)
Definition normalized_char (c : ascii) : bool :=
  (negb (is_upper c) && negb (Ascii.eqb c "/"))%bool.

(** ** The directory scan *)

(** the extensions [addSearchPath] mounts *)
Definition is_package_ext (entry : string) : bool :=
  (String.eqb (Str.extension entry) ".pkg"
   || String.eqb (Str.extension entry) ".rtxio")%bool.

(** the paths the scan handed to [AssetPackage], in order *)
Definition opened_packages (evs : list event) : list string :=
  flat_map (fun e => match e with EvPackageOpen p => [p] | _ => [] end) evs.

(** ** The two registries of the manager side by side *)

(** the base paths of the package sets, priority by priority *)
Definition packageSet_paths (m : AssetDataManager.t) : list (Z * list string) :=
  List.map (fun pe : Z * list AssetDataManager.PackageEntry => (pe.1, List.map fst pe.2))
           (AssetDataManager.m_packageSets m).

(** ** A cube whose mips are all in the tail *)

Module TailCube.

(** a 4x4 cube with 3 mips, all of them tail mips, stored in blob 200 *)
Definition cube_all_tail : AssetDesc.t :=
  AssetDesc.mk IMAGE_CUBE 0 0 4 4 1 3 3 1 200 200.

(** a package that holds this cube as asset 0, its blob stored raw *)
Definition package : AssetPackage.t :=
  AssetPackage.mk "c:\mods\cube.pkg"
    (fun idx => if idx =? 0 then Some cube_all_tail else None)
    (fun b => if b =? 200 then Some (BlobDesc.mk 3200 504 0) else None)
    (fun b n => replicate (Z.to_nat n) (b mod 256))
    (fun rel => if String.eqb rel "sky.dds" then 0 else 4294967295).

End TailCube.

(** ** A header whose level offset leaves the 32-bit [long] *)

Module NegativeOffset.

(** 148 bytes of headers and no payload, declaring a 65532x13108 image
    of 4 bytes a texel with 2 mip levels, 4 cube faces and 2^30 layers:
    the product of layers and faces is 2^32, which is 0 as an [int] *)
Definition header : Gli.dds_header :=
  Gli.mkHeader 135175 13108 65532 0 2 4 808540228 15872.

Definition file : DdsFile :=
  mkDdsFile 148 "DDS " header (Gli.mkHeader10 28 1073741824).

End NegativeOffset.

(** * Properties *)

(** ** Machine integers *)

Section IntFacts.
Import Int.


Lemma u64_small z : 0 <= z < 2 ^ 64 -> u64 z = z.
Proof. intros H. unfold u64. apply Z.mod_small. exact H. Qed.

Lemma s32_small z : - 2 ^ 31 <= z < 2 ^ 31 -> s32 z = z.
Proof. intros H. unfold s32. rewrite Z.mod_small; lia. Qed.

Lemma u32_range z : 0 <= u32 z < 2 ^ 32.
Proof. unfold u32. apply Z.mod_pos_bound. lia. Qed.



End IntFacts.

(** ** PackagedAssetData: blob indices *)

Section BlobIndex.
Import Int PackagedAssetData.



End BlobIndex.




(** ** PackagedAssetData: the blob cache *)

Section Cache.
Import PackagedAssetData PackagedCalls.

(** the cases of [data]: cache entry, blob descriptor, compression *)
Lemma data_cases (a : t) (layer level : Z) :
  let blobIdx := getBlobIndex (m_assetDesc a) layer 0 level in
  match m_data a !! blobIdx with
  | Some bytes => data a layer level = (Ok (Some bytes), a, [])
  | None =>
      match AssetPackage.getDataBlobDesc (m_package a) blobIdx with
      | None => data a layer level = (Ok None, a, [EvGetDataBlobDesc blobIdx])
      | Some blobDesc =>
          if BlobDesc.compression blobDesc =? 0 then
            let bytes :=
              AssetPackage.readDataBlob (m_package a) blobIdx (BlobDesc.size blobDesc) in
            (data a layer level).1.1 = Ok (Some bytes)
            /\ (data a layer level).2 = [EvGetDataBlobDesc blobIdx; EvReadDataBlob blobIdx]
            /\ m_data (data a layer level).1.2 = <[blobIdx := bytes]> (m_data a)
            /\ m_data (data a layer level).1.2 !! blobIdx = Some bytes
          else
            (exists msg, (data a layer level).1.1 = Raise (DxvkError msg))
            /\ (data a layer level).1.2 = a
            /\ (data a layer level).2 = [EvGetDataBlobDesc blobIdx]
      end
  end.
Proof.
  intros blobIdx. unfold data. fold blobIdx.
  destruct (m_data a !! blobIdx) as [bytes|] eqn:Hc; [reflexivity|].
  destruct (AssetPackage.getDataBlobDesc (m_package a) blobIdx) as [blobDesc|];
    [|reflexivity].
  destruct (BlobDesc.compression blobDesc =? 0); simpl.
  - repeat split. apply lookup_insert_eq.
  - repeat split. eexists. reflexivity.
Qed.

(** C7: a cached blob is returned without a package call; on a miss a
    compressed blob makes [data] fail before any read, a raw blob is read,
    inserted into the cache and returned, and a missing descriptor gives
    null. *)
Theorem data_cache_then_package (a : t) (layer level : Z) :
  let blobIdx := getBlobIndex (m_assetDesc a) layer 0 level in
  match m_data a !! blobIdx with
  | Some bytes => data a layer level = (Ok (Some bytes), a, [])
  | None =>
      match AssetPackage.getDataBlobDesc (m_package a) blobIdx with
      | None => data a layer level = (Ok None, a, [EvGetDataBlobDesc blobIdx])
      | Some blobDesc =>
          if BlobDesc.compression blobDesc =? 0 then
            let bytes :=
              AssetPackage.readDataBlob (m_package a) blobIdx (BlobDesc.size blobDesc) in
            (data a layer level).1.1 = Ok (Some bytes)
            /\ (data a layer level).2 = [EvGetDataBlobDesc blobIdx; EvReadDataBlob blobIdx]
            /\ m_data (data a layer level).1.2 = <[blobIdx := bytes]> (m_data a)
            /\ m_data (data a layer level).1.2 !! blobIdx = Some bytes
          else
            (exists msg, (data a layer level).1.1 = Raise (DxvkError msg))
            /\ (data a layer level).1.2 = a
            /\ (data a layer level).2 = [EvGetDataBlobDesc blobIdx]
      end
  end.
Proof. exact (data_cases a layer level). Qed.

Lemma step_frame a c :
  m_package (step a c) = m_package a /\ m_assetDesc (step a c) = m_assetDesc a.
Proof.
  destruct c as [layer level|layer level]; simpl; [|split; reflexivity].
  unfold data.
  destruct (m_data a !! _); [split; reflexivity|].
  destruct (AssetPackage.getDataBlobDesc _ _) as [bd|]; [|split; reflexivity].
  destruct (negb _); split; reflexivity.
Qed.

Lemma run_frame a cs :
  m_package (run a cs) = m_package a /\ m_assetDesc (run a cs) = m_assetDesc a.
Proof.
  revert a. induction cs as [|c cs IH]; intros a; [split; reflexivity|].
  simpl. destruct (IH (step a c)) as [-> ->]. apply step_frame.
Qed.

Lemma run_snoc a cs c : run a (cs ++ [c]) = step (run a cs) c.
Proof. unfold run. rewrite foldl_app. reflexivity. Qed.

(** what one [data] call does to the presence of a blob index *)
Lemma data_presence a layer level b :
  is_Some (m_data (data a layer level).1.2 !! b)
  <-> is_Some (m_data a !! b)
      \/ (getBlobIndex (m_assetDesc a) layer 0 level = b
          /\ exists bytes, (data a layer level).1.1 = Ok (Some bytes)).
Proof.
  unfold data.
  set (i := getBlobIndex (m_assetDesc a) layer 0 level).
  destruct (m_data a !! i) as [bytes|] eqn:Hc; simpl.
  - split; [tauto|]. intros [H|[<- _]]; [exact H|]. rewrite Hc. eauto.
  - destruct (AssetPackage.getDataBlobDesc (m_package a) i) as [bd|]; simpl.
    + destruct (BlobDesc.compression bd =? 0); simpl.
      * destruct (decide (i = b)) as [->|Hne].
        -- rewrite lookup_insert_eq. split; [|eauto]. intros _. right. eauto.
        -- rewrite lookup_insert_ne by exact Hne. split; [tauto|].
           intros [H|[E _]]; [exact H|contradiction].
      * split; [tauto|]. intros [H|[_ [x Hx]]]; [exact H|discriminate].
    + split; [tauto|]. intros [H|[_ [x Hx]]]; [exact H|discriminate].
Qed.

Lemma split_snoc {A} (cs pre post : list A) (c x : A) :
  cs ++ [c] = pre ++ x :: post ->
  (post = [] /\ pre = cs /\ x = c)
  \/ (exists post', post = post' ++ [c] /\ cs = pre ++ x :: post').
Proof.
  destruct post as [|y post' _] using rev_ind; intros H.
  - left. apply app_inj_tail in H as [-> ->]. auto.
  - right.
    change (pre ++ x :: post' ++ [y]) with (pre ++ (x :: post') ++ [y]) in H.
    rewrite app_assoc in H. apply app_inj_tail in H as [-> <-].
    exists post'. auto.
Qed.

(** the cache invariant over every call sequence on a new object *)
Lemma cache_presence_invariant (a0 : t) (cs : list call) (b : Z) :
  m_data a0 = ∅ ->
  is_Some (m_data (run a0 cs) !! b) <-> read_and_not_evicted a0 cs b.
Proof.
  intros Hempty. induction cs as [|c cs IH] using rev_ind.
  - simpl. rewrite Hempty, lookup_empty. split.
    + intros [x Hx]. discriminate.
    + intros (pre & l & v & post & E & _). destruct pre; discriminate.
  - rewrite run_snoc. destruct (run_frame a0 cs) as [_ Hd].
    destruct c as [layer level|layer level]; simpl.
    + rewrite data_presence, Hd, IH. split.
      * intros [(pre & l & v & post & -> & Hb & Hr & Hne)|[Hb Hr]].
        -- exists pre, l, v, (post ++ [Call_data layer level]).
           split; [by rewrite <- app_assoc|]. split; [exact Hb|]. split; [exact Hr|].
           intros l' v' Hin. apply in_app_or in Hin as [Hin|[Hin|[]]];
             [eauto|discriminate].
        -- exists cs, layer, level, []. repeat split; try assumption.
           intros ? ? [].
      * intros (pre & l & v & post & E & Hb & Hr & Hne).
        apply split_snoc in E as [(-> & -> & Ex)|(post' & -> & ->)].
        -- injection Ex as -> ->. right. split; assumption.
        -- left. exists pre, l, v, post'. repeat split; try assumption.
           intros l' v' Hin. apply (Hne l' v'). apply in_or_app. by left.
    + unfold evictCache; simpl. rewrite Hd.
      set (i := getBlobIndex (m_assetDesc a0) layer 0 level).
      split.
      * intros Hs. destruct (decide (i = b)) as [->|Hne].
        { rewrite lookup_delete_eq in Hs. destruct Hs; discriminate. }
        rewrite lookup_delete_ne in Hs by exact Hne.
        apply IH in Hs as (pre & l & v & post & -> & Hb & Hr & Hne').
        exists pre, l, v, (post ++ [Call_evictCache layer level]).
        split; [by rewrite <- app_assoc|]. split; [exact Hb|]. split; [exact Hr|].
        intros l' v' Hin. apply in_app_or in Hin as [Hin|[Hin|[]]]; [eauto|].
        injection Hin as <- <-. exact Hne.
      * intros (pre & l & v & post & E & Hb & Hr & Hne).
        apply split_snoc in E as [(-> & -> & Ex)|(post' & -> & ->)];
          [discriminate|].
        assert (Hi : i <> b).
        { apply (Hne layer level). apply in_or_app. right. by left. }
        rewrite lookup_delete_ne by exact Hi. apply IH.
        exists pre, l, v, post'. repeat split; try assumption.
        intros l' v' Hin. apply (Hne l' v'). apply in_or_app. by left.
Qed.

Lemma new_cache_empty package assetIdx a :
  PackagedAssetData.new package assetIdx = Ok a -> m_data a = ∅.
Proof.
  unfold PackagedAssetData.new.
  destruct (AssetPackage.getAssetDesc package assetIdx); [|discriminate].
  destruct (type _); [|discriminate].
  destruct (compression _ _); [|discriminate].
  destruct (extent _ _); [|discriminate].
  intros [= <-]. reflexivity.
Qed.

(** a cached blob holds the raw bytes of a descriptor of the package *)
Lemma cache_coherent (a0 : t) (cs : list call) (b : Z) (bytes : list Z) :
  m_data a0 = ∅ ->
  m_data (run a0 cs) !! b = Some bytes ->
  exists blobDesc,
    AssetPackage.getDataBlobDesc (m_package a0) b = Some blobDesc
    /\ BlobDesc.compression blobDesc = 0
    /\ bytes = AssetPackage.readDataBlob (m_package a0) b (BlobDesc.size blobDesc).
Proof.
  intros Hempty. revert b bytes.
  induction cs as [|c cs IH] using rev_ind; intros b bytes.
  - simpl. rewrite Hempty, lookup_empty. discriminate.
  - rewrite run_snoc. destruct (run_frame a0 cs) as [Hp Hd].
    destruct c as [layer level|layer level]; simpl.
    + unfold data. rewrite Hp.
      set (i := getBlobIndex (m_assetDesc (run a0 cs)) layer 0 level).
      destruct (m_data (run a0 cs) !! i) eqn:Hc; simpl; [apply IH|].
      destruct (AssetPackage.getDataBlobDesc (m_package a0) i) as [bd|] eqn:Hbd;
        simpl; [|apply IH].
      destruct (Z.eqb_spec (BlobDesc.compression bd) 0) as [Hz|Hz]; simpl; [|apply IH].
      destruct (decide (i = b)) as [<-|Hne].
      * rewrite lookup_insert_eq. intros [= <-]. exists bd. auto.
      * rewrite lookup_insert_ne by exact Hne. apply IH.
    + destruct (decide (getBlobIndex (m_assetDesc (run a0 cs)) layer 0 level = b))
        as [<-|Hne].
      * rewrite lookup_delete_eq. discriminate.
      * rewrite lookup_delete_ne by exact Hne. apply IH.
Qed.

(** C5: on every object reached from its construction by calls of
    [data] and [evictCache]: evicting twice equals evicting once; after
    the eviction the cache has no entry for the blob index; the next
    [data] goes to the package, reads the blob and inserts it again (the
    same bytes the cache held before); and a blob index is in the cache
    exactly when a [data] call returned its bytes and no later call
    evicted it. *)
Theorem evictCache_idempotent_cache_exact (package : AssetPackage.t) (assetIdx : Z)
    (a0 : t) (cs : list call) (layer level : Z) :
  PackagedAssetData.new package assetIdx = Ok a0 ->
  let a := run a0 cs in
  let blobIdx := getBlobIndex (m_assetDesc a) layer 0 level in
  evictCache (evictCache a layer level) layer level = evictCache a layer level
  /\ m_data (evictCache a layer level) !! blobIdx = None
  /\ (forall blobDesc,
        AssetPackage.getDataBlobDesc (m_package a) blobIdx = Some blobDesc ->
        BlobDesc.compression blobDesc = 0 ->
        let bytes :=
          AssetPackage.readDataBlob (m_package a) blobIdx (BlobDesc.size blobDesc) in
        let r := data (evictCache a layer level) layer level in
        r.1.1 = Ok (Some bytes)
        /\ r.2 = [EvGetDataBlobDesc blobIdx; EvReadDataBlob blobIdx]
        /\ m_data r.1.2 !! blobIdx = Some bytes)
  /\ (forall old,
        m_data a !! blobIdx = Some old ->
        (data (evictCache a layer level) layer level).1.1 = Ok (Some old))
  /\ (forall b, is_Some (m_data a !! b) <-> read_and_not_evicted a0 cs b).
Proof.
  intros Hnew a blobIdx.
  pose proof (new_cache_empty _ _ _ Hnew) as Hempty.
  assert (Hevict : m_data (evictCache a layer level) !! blobIdx = None)
    by (unfold evictCache; simpl; apply lookup_delete_eq).
  assert (Hreread : forall blobDesc,
        AssetPackage.getDataBlobDesc (m_package a) blobIdx = Some blobDesc ->
        BlobDesc.compression blobDesc = 0 ->
        let bytes :=
          AssetPackage.readDataBlob (m_package a) blobIdx (BlobDesc.size blobDesc) in
        let r := data (evictCache a layer level) layer level in
        r.1.1 = Ok (Some bytes)
        /\ r.2 = [EvGetDataBlobDesc blobIdx; EvReadDataBlob blobIdx]
        /\ m_data r.1.2 !! blobIdx = Some bytes).
  { intros bd Hbd Hz bytes r.
    pose proof (data_cases (evictCache a layer level) layer level) as H.
    cbv zeta in H.
    change (m_assetDesc (evictCache a layer level)) with (m_assetDesc a) in H.
    change (m_package (evictCache a layer level)) with (m_package a) in H.
    fold blobIdx in H. rewrite Hevict, Hbd, Hz in H. simpl in H.
    destruct H as (H1 & H2 & _ & H4). auto. }
  split; [|split; [exact Hevict | split; [exact Hreread | split]]].
  - unfold evictCache. simpl. f_equal. apply delete_delete_eq.
  - intros old Hold.
    destruct (run_frame a0 cs) as [Hp _].
    destruct (cache_coherent a0 cs blobIdx old Hempty Hold) as (bd & Hbd & Hz & ->).
    fold a in Hp. rewrite <- Hp in Hbd.
    destruct (Hreread bd Hbd Hz) as (H1 & _). rewrite Hp in H1. exact H1.
  - intros b. apply cache_presence_invariant. exact Hempty.
Qed.

Lemma evictCache_idempotent_cache_exact_witness :
  exists a0,
    PackagedAssetData.new Examples.package_one 0 = Ok a0
    /\ m_data (run a0 [Call_data 0 0]) !! 100 = Some [100; 100; 100; 100]
    /\ m_data (evictCache (run a0 [Call_data 0 0]) 0 0) !! 100 = None
    /\ (data (evictCache (run a0 [Call_data 0 0]) 0 0) 0 0).1.1
       = Ok (Some [100; 100; 100; 100]).
Proof.
  eexists. split; [reflexivity|]. split; [reflexivity|].
  match goal with
  | |- m_data (evictCache (run ?a0 _) _ _) !! _ = _ /\ _ =>
      destruct (evictCache_idempotent_cache_exact Examples.package_one 0 a0
                  [Call_data 0 0] 0 0 eq_refl) as (_ & H2 & _ & H4 & _)
  end.
  split; [exact H2|]. apply H4. reflexivity.
Defined.

End Cache.

(** ** DdsFileParser: the level loop and the outcomes of parse *)

Section ParseFacts.
Import Int DdsFileParser DdsSpec.

Lemma s32_range z : - 2 ^ 31 <= s32 z < 2 ^ 31.
Proof.
  unfold s32. pose proof (Z.mod_pos_bound (z + 2 ^ 31) (2 ^ 32)). lia.
Qed.

Lemma u64_le_capacity z :
  - 2 ^ 31 <= z < 2 ^ 31 -> u64 z <= 16 -> 0 <= z <= 16.
Proof.
  intros Hr H. destruct (Z.neg_nonneg_cases z) as [Hn|Hp].
  - exfalso. unfold u64 in H.
    replace z with (z + 2 ^ 64 + (-1) * 2 ^ 64) in H by lia.
    rewrite Z_mod_plus_full in H. rewrite Z.mod_small in H; lia.
  - rewrite u64_small in H; lia.
Qed.

Lemma u64_add_l a b : u64 (u64 a + b) = u64 (a + b).
Proof. unfold u64. apply Zplus_mod_idemp_l. Qed.

Lemma sum_app l1 l2 : sum (l1 ++ l2) = sum l1 + sum l2.
Proof. unfold sum. induction l1 as [|x l1 IH]; simpl; [reflexivity | lia]. Qed.


Lemma with_levels_nil p :
  0 <= m_sizeOfAllLevels p < 2 ^ 64 -> with_levels p [] = p.
Proof.
  intros H. destruct p. unfold with_levels. simpl in *.
  rewrite Z.add_0_r, u64_small by lia. reflexivity.
Qed.

(** the loop after [n] rounds: the first [n] slots hold the level sizes
    and the running total has grown by their sum *)
Lemma level_loop_prefix g header format p (n : nat) :
  (n <= 16)%nat ->
  length (m_levelSizes p) = 16%nat ->
  0 <= m_sizeOfAllLevels p < 2 ^ 64 ->
  foldl (fun acc level =>
           match acc with
           | Ok q => store_levelSize q level (levelSize g header format level)
           | Raise e => Raise e
           end)
        (Ok p) (seqZ 0 (Z.of_nat n))
  = Ok (with_levels p (levelSize g header format <$> seqZ 0 (Z.of_nat n))).
Proof.
  intros Hn Hlen Hs. induction n as [|n IH].
  - simpl. rewrite with_levels_nil by exact Hs. reflexivity.
  - rewrite seqZ_S, foldl_app, IH by lia. rewrite Z.add_0_l. simpl.
    unfold store_levelSize, levelSizes_capacity.
    destruct (Z.leb_spec 0 (Z.of_nat n)); [|lia].
    destruct (Z.ltb_spec (Z.of_nat n) 16); [|lia]. simpl.
    rewrite fmap_app. simpl.
    set (sizes := levelSize g header format <$> seqZ 0 (Z.of_nat n)).
    assert (Hsz : length sizes = n).
    { unfold sizes. rewrite length_fmap, length_seqZ. lia. }
    unfold with_levels. simpl. f_equal. f_equal.
    + rewrite Nat2Z.id, Hsz.
      rewrite insert_app_r_alt by lia. rewrite Hsz, Nat.sub_diag.
      destruct (lookup_lt_is_Some_2 (m_levelSizes p) n) as [y Hy]; [lia|].
      rewrite (drop_S _ _ _ Hy). simpl.
      rewrite length_app. simpl. rewrite Hsz.
      replace (n + 1)%nat with (S n) by lia.
      rewrite <- app_assoc. reflexivity.
    + rewrite u64_add_l, sum_app. f_equal. unfold sum. simpl. lia.
Qed.

Lemma level_loop_spec g header format p :
  0 <= m_levels p <= 16 ->
  length (m_levelSizes p) = 16%nat ->
  0 <= m_sizeOfAllLevels p < 2 ^ 64 ->
  level_loop g header format p
  = Ok (with_levels p (levelSize g header format <$> seqZ 0 (m_levels p))).
Proof.
  intros Hl Hlen Hs. unfold level_loop.
  rewrite <- (Z2Nat.id (m_levels p)) by lia.
  apply level_loop_prefix; [lia | exact Hlen | exact Hs].
Qed.

Lemma levels_range g f : - 2 ^ 31 <= levels g f < 2 ^ 31.
Proof. unfold levels. destruct (negb _); [apply s32_range | lia]. Qed.

Lemma levels_declared g f : levels g f = s32 (declared_levels g f).
Proof. unfold levels, declared_levels. destruct (negb _); reflexivity. Qed.

Lemma levels_fit_range g f : levels_fit g f = true -> 0 <= levels g f <= 16.
Proof.
  unfold levels_fit, levelSizes_capacity. intros H.
  apply u64_le_capacity; [apply levels_range | lia].
Qed.

(** every outcome of [parse] on a new parser, for a file that opens *)
Lemma eqb_empty_false (s : string) : s <> ""%string -> String.eqb s "" = false.
Proof. intros H. apply String.eqb_neq. exact H. Qed.

Lemma parse_empty_filename g fopen :
  (parse g fopen new "").1.1 = Raise (AssertionFailure "DDS filename cannot be empty").
Proof. reflexivity. Qed.

Lemma parse_opened g fopen filename f :
  filename <> ""%string ->
  fopen filename = Opened f ->
  parse g fopen new filename =
    if too_short_for_header g f then (Ok false, opened filename f, [EvFopen filename])
    else if magic_mismatch g f then (Ok false, opened filename f, [EvFopen filename])
    else if too_short_for_header10 g f
    then (Ok false, opened filename f, [EvFopen filename])
    else if negb (levels_fit g f)
    then (Raise (AssertionFailure assert_message), measured g filename f,
          [EvFopen filename])
    else if payload_exceeds_file g f
    then (Ok false, with_levels (measured g filename f) (levelSizes g f),
          [EvFopen filename])
    else (Ok true, parsed g filename f, [EvFopen filename]).
Proof.
  intros Hname Hopen. unfold parse, openHandle. simpl.
  rewrite (eqb_empty_false _ Hname), Hopen. simpl.
  fold (too_short_for_header g f). fold (opened filename f).
  destruct (too_short_for_header g f); [reflexivity|].
  fold (magic_mismatch g f).
  destruct (magic_mismatch g f); [reflexivity|]. simpl.
  fold (too_short_for_header10 g f).
  destruct (too_short_for_header10 g f); [reflexivity|].
  fold (header10 g f). fold (format g f).
  fold (levels g f). fold (layers g f). fold (faces g f). fold (depth g f).
  fold (dataOffset g f). fold (measured g filename f).
  change (m_levels (measured g filename f)) with (levels g f).
  fold (levels_fit g f).
  destruct (levels_fit g f) eqn:Hfit; [|reflexivity]. simpl.
  rewrite level_loop_spec;
    [| apply levels_fit_range; exact Hfit | reflexivity | simpl; lia].
  change (m_levels (measured g filename f)) with (levels g f).
  fold (levelSizes g f).
  change (u64 (u64 (m_sizeOfAllLevels (with_levels (measured g filename f) (levelSizes g f))
                    * u64 (s32 (m_layers (with_levels (measured g filename f) (levelSizes g f))
                                 * m_faces (with_levels (measured g filename f) (levelSizes g f)))))
               + u64 (m_dataOffset (with_levels (measured g filename f) (levelSizes g f))))
          >? u64 (m_fileSize (with_levels (measured g filename f) (levelSizes g f))))
    with (payload_exceeds_file g f).
  destruct (payload_exceeds_file g f); reflexivity.
Qed.

Lemma parse_not_opened g fopen filename emfile :
  filename <> ""%string ->
  fopen filename = OpenFailed emfile ->
  (parse g fopen new filename).1.1
  = if emfile then Raise (DxvkError "Unable to open a DDS file: too many open files.")
    else Ok false.
Proof.
  intros Hname Hopen. unfold parse, openHandle. simpl.
  rewrite (eqb_empty_false _ Hname), Hopen.
  destruct emfile; reflexivity.
Qed.

End ParseFacts.

(** ** DdsFileParser: the level ceiling, false returns, the payload guard *)

Section ParseClaims.
Import Int DdsFileParser DdsSpec.

Lemma seqZ_bounds (n level : Z) : In level (seqZ 0 n) -> 0 <= level < n.
Proof.
  intros H. apply list_elem_of_In, list_elem_of_lookup in H as [i Hi].
  apply lookup_seqZ in Hi. lia.
Qed.

Lemma store_in_bounds p level x :
  0 <= level < levelSizes_capacity ->
  exists q, store_levelSize p level x = Ok q
            /\ length (m_levelSizes q) = length (m_levelSizes p).
Proof.
  intros H. unfold store_levelSize.
  destruct (Z.leb_spec 0 level); [|lia].
  destruct (Z.ltb_spec level levelSizes_capacity); [|lia].
  simpl. eexists. split; [reflexivity|]. simpl. apply length_insert.
Qed.

Lemma declared_above_capacity g f :
  16 < declared_levels g f < 2 ^ 32 -> levels_fit g f = false.
Proof.
  intros H. unfold levels_fit, levelSizes_capacity.
  rewrite levels_declared. apply Z.leb_gt.
  destruct (Z.lt_ge_cases (declared_levels g f) (2 ^ 31)) as [Hlt|Hge].
  - rewrite s32_small by lia. rewrite u64_small; lia.
  - assert (E : s32 (declared_levels g f) = declared_levels g f - 2 ^ 32).
    { unfold s32.
      replace (declared_levels g f + 2 ^ 31)
        with (declared_levels g f - 2 ^ 31 + 1 * 2 ^ 32) by lia.
      rewrite Z_mod_plus_full, Z.mod_small; lia. }
    rewrite E. unfold u64.
    replace (declared_levels g f - 2 ^ 32)
      with (declared_levels g f - 2 ^ 32 + 2 ^ 64 + (-1) * 2 ^ 64) by lia.
    rewrite Z_mod_plus_full, Z.mod_small; lia.
Qed.

Lemma header_accepted_true g f :
  header_accepted g f = true ->
  too_short_for_header g f = false /\ magic_mismatch g f = false
  /\ too_short_for_header10 g f = false.
Proof.
  unfold header_accepted. intros H.
  apply andb_prop in H as [H H3]. apply andb_prop in H as [H1 H2].
  repeat split; apply negb_true_iff; assumption.
Qed.

Lemma parse_returns_nonempty g fopen filename b :
  (parse g fopen new filename).1.1 = Ok b -> filename <> ""%string.
Proof. intros H ->. rewrite parse_empty_filename in H. discriminate. Qed.

(** C8: the array has 16 slots; no call of [parse] ends in an overrun of
    it; a header that declares more than 16 levels stops at the assertion
    with the array untouched; and with at most 16 levels every store of
    the level loop is inside the array. *)
Theorem parse_level_ceiling (g : Gli.t) (fopen : string -> fopen_result)
    (filename : string) :
  length (m_levelSizes new) = Z.to_nat levelSizes_capacity
  /\ levelSizes_capacity = 16
  /\ (parse g fopen new filename).1.1 <> Raise ArrayOverrun
  /\ (forall f, filename <> ""%string -> fopen filename = Opened f ->
        header_accepted g f = true ->
        16 < declared_levels g f < 2 ^ 32 ->
        (parse g fopen new filename).1.1 = Raise (AssertionFailure assert_message)
        /\ m_levelSizes (parse g fopen new filename).1.2 = m_levelSizes new)
  /\ (forall p level x,
        m_levels p <= 16 -> In level (seqZ 0 (m_levels p)) ->
        exists q, store_levelSize p level x = Ok q).
Proof.
  split; [reflexivity|]. split; [reflexivity|]. split; [|split].
  - destruct (String.eqb_spec filename "") as [->|Hname].
    { rewrite parse_empty_filename. discriminate. }
    destruct (fopen filename) as [f|emfile] eqn:Hopen.
    + rewrite (parse_opened g fopen filename f Hname Hopen).
      destruct (too_short_for_header g f); [discriminate|].
      destruct (magic_mismatch g f); [discriminate|].
      destruct (too_short_for_header10 g f); [discriminate|].
      destruct (negb (levels_fit g f)); [discriminate|].
      destruct (payload_exceeds_file g f); discriminate.
    + rewrite (parse_not_opened g fopen filename emfile Hname Hopen).
      destruct emfile; discriminate.
  - intros f Hname Hopen Hacc Hdecl.
    rewrite (parse_opened g fopen filename f Hname Hopen).
    destruct (header_accepted_true g f Hacc) as (-> & -> & ->).
    rewrite (declared_above_capacity g f Hdecl). simpl. split; reflexivity.
  - intros p level x Hle Hin. apply seqZ_bounds in Hin.
    destruct (store_in_bounds p level x) as (q & Hq & _);
      [unfold levelSizes_capacity; lia | eauto].
Qed.

Lemma parse_level_ceiling_witness :
  header_accepted Examples.gli_dds Examples.levels17_file = true
  /\ declared_levels Examples.gli_dds Examples.levels17_file = 17
  /\ (parse Examples.gli_dds (fun _ => Opened Examples.levels17_file) new "t.dds").1.1
     = Raise (AssertionFailure assert_message).
Proof.
  split; [reflexivity|]. split; [reflexivity|].
  destruct (parse_level_ceiling Examples.gli_dds
              (fun _ => Opened Examples.levels17_file) "t.dds")
    as (_ & _ & _ & H & _).
  apply (H Examples.levels17_file); [discriminate | reflexivity | reflexivity |].
  change (declared_levels Examples.gli_dds Examples.levels17_file) with 17. lia.
Defined.

Lemma parse_true_state g fopen filename f :
  fopen filename = Opened f ->
  (parse g fopen new filename).1.1 = Ok true ->
  (parse g fopen new filename).1.2 = parsed g filename f
  /\ levels_fit g f = true /\ payload_exceeds_file g f = false.
Proof.
  intros Hopen Htrue. pose proof (parse_returns_nonempty _ _ _ _ Htrue) as Hname.
  revert Htrue. rewrite (parse_opened g fopen filename f Hname Hopen).
  destruct (too_short_for_header g f); [discriminate|].
  destruct (magic_mismatch g f); [discriminate|].
  destruct (too_short_for_header10 g f); [discriminate|].
  destruct (levels_fit g f); [|discriminate]. simpl.
  destruct (payload_exceeds_file g f); [discriminate|]. auto.
Qed.

(** C4 as the code has it: [parse] returns false exactly when the file
    cannot be opened (handle exhaustion raises instead), when it is too
    short for the magic and the primary header, when the magic differs,
    when it is too short for the extended header that its fourCC
    announces, or when, the at most 16 levels being measured, the computed
    payload exceeds the file size.  No handle is held after a failed open
    or after a true return. *)
Theorem parse_false_iff (g : Gli.t) (fopen : string -> fopen_result)
    (filename : string) :
  ((parse g fopen new filename).1.1 = Ok false
   <-> filename <> ""%string
       /\ (fopen filename = OpenFailed false
           \/ exists f, fopen filename = Opened f
                /\ (too_short_for_header g f = true
                    \/ magic_mismatch g f = true
                    \/ too_short_for_header10 g f = true
                    \/ (header_accepted g f = true /\ levels_fit g f = true
                        /\ payload_exceeds_file g f = true))))
  /\ (fopen filename = OpenFailed false ->
      m_file (parse g fopen new filename).1.2 = None)
  /\ ((parse g fopen new filename).1.1 = Ok true ->
      m_file (parse g fopen new filename).1.2 = None).
Proof.
  split; [|split].
  - destruct (String.eqb_spec filename "") as [->|Hname].
    { rewrite parse_empty_filename. split; [discriminate|]. intros [H _]. congruence. }
    destruct (fopen filename) as [f|emfile] eqn:Hopen.
    + rewrite (parse_opened g fopen filename f Hname Hopen). unfold header_accepted.
      split.
      * intros H. split; [exact Hname|]. right. exists f. split; [reflexivity|].
        destruct (too_short_for_header g f); [auto|].
        destruct (magic_mismatch g f); [auto|].
        destruct (too_short_for_header10 g f); [auto|].
        destruct (levels_fit g f); [|discriminate].
        destruct (payload_exceeds_file g f); [|discriminate].
        right; right; right. auto.
      * intros [_ [H|(f' & [= <-] & H)]]; [discriminate|].
        destruct (too_short_for_header g f); [reflexivity|].
        destruct (magic_mismatch g f); [reflexivity|].
        destruct (too_short_for_header10 g f); [reflexivity|].
        destruct H as [H|[H|[H|(_ & -> & ->)]]]; try discriminate. reflexivity.
    + rewrite (parse_not_opened g fopen filename emfile Hname Hopen). split.
      * destruct emfile; [discriminate|]. auto.
      * intros [_ [[= ->]|(f & H & _)]]; [reflexivity | discriminate].
  - intros Hopen. unfold parse, openHandle. simpl.
    destruct (String.eqb filename ""); [reflexivity|]. rewrite Hopen. reflexivity.
  - intros Htrue. pose proof (parse_returns_nonempty _ _ _ _ Htrue) as Hname.
    destruct (fopen filename) as [f|emfile] eqn:Hopen.
    + destruct (parse_true_state g fopen filename f Hopen Htrue) as (-> & _).
      reflexivity.
    + rewrite (parse_not_opened g fopen filename emfile Hname Hopen) in Htrue.
      destruct emfile; discriminate.
Qed.

Lemma parse_false_iff_witness :
  (parse Examples.gli_dds (fun _ => Opened Examples.bad_magic_file) new "t.dds").1.1
  = Ok false.
Proof.
  apply (proj1 (parse_false_iff Examples.gli_dds
                  (fun _ => Opened Examples.bad_magic_file) "t.dds")).
  split; [discriminate|].
  right. exists Examples.bad_magic_file. split; [reflexivity|].
  right. left. reflexivity.
Defined.

(** After a false return that followed a successful open the parser still
    holds the handle: [closeHandle] runs on the true return only. *)
Lemma parse_false_keeps_handle g fopen filename f :
  fopen filename = Opened f ->
  (parse g fopen new filename).1.1 = Ok false ->
  m_file (parse g fopen new filename).1.2 = Some f.
Proof.
  intros Hopen Hfalse. pose proof (parse_returns_nonempty _ _ _ _ Hfalse) as Hname.
  revert Hfalse. rewrite (parse_opened g fopen filename f Hname Hopen).
  destruct (too_short_for_header g f); [reflexivity|].
  destruct (magic_mismatch g f); [reflexivity|].
  destruct (too_short_for_header10 g f); [reflexivity|].
  destruct (negb (levels_fit g f)); [discriminate|].
  destruct (payload_exceeds_file g f); [reflexivity | discriminate].
Qed.

(** C4 as stated fails twice: a file with a wrong magic makes [parse]
    return false with the handle still open, and a file that cannot be
    opened makes it return false although none of the four listed
    conditions is met. *)
Lemma parse_false_not_as_stated :
  ~ (forall g fopen filename,
       (parse g fopen new filename).1.1 = Ok false ->
       m_file (parse g fopen new filename).1.2 = None)
  /\ ~ (forall g fopen filename,
          (parse g fopen new filename).1.1 = Ok false ->
          exists f, fopen filename = Opened f
            /\ (too_short_for_header g f = true \/ magic_mismatch g f = true
                \/ too_short_for_header10 g f = true
                \/ payload_exceeds_file g f = true)).
Proof.
  split.
  - intros H.
    specialize (H Examples.gli_dds (fun _ => Opened Examples.bad_magic_file) "t.dds").
    assert (E : m_file (parse Examples.gli_dds (fun _ => Opened Examples.bad_magic_file)
                          new "t.dds").1.2 = Some Examples.bad_magic_file)
      by reflexivity.
    rewrite E in H. discriminate H. reflexivity.
  - intros H.
    destruct (H Examples.gli_dds (fun _ => OpenFailed false) "t.dds") as (f & Hf & _);
      [reflexivity | discriminate].
Qed.

End ParseClaims.

(** ** DdsFileParser: placement *)

Section PlacementFacts.
Import Int DdsFileParser DdsSpec.

(** the example files behave as described *)
Example parse_bc1_file :
  parse Examples.gli_dds (fun _ => Opened Examples.bc1_file) new "t.dds"
  = (Ok true, parsed Examples.gli_dds "t.dds" Examples.bc1_file, [EvFopen "t.dds"])
  /\ m_levelSizes (parsed Examples.gli_dds "t.dds" Examples.bc1_file)
     = [32768; 8192; 2048; 512; 128; 32; 8; 8; 8; 0; 0; 0; 0; 0; 0; 0]
  /\ m_sizeOfAllLevels (parsed Examples.gli_dds "t.dds" Examples.bc1_file) = 43704
  /\ getDataPlacement (parsed Examples.gli_dds "t.dds" Examples.bc1_file) 0 0 2
     = Ok (148 + 32768 + 8192, 2048).
Proof. repeat split; vm_compute; reflexivity. Qed.

(** C2 fails on the code: the guard of [parse] forms
    [sizeOfAllLevels * (layers * faces)] in 64 bits.  For the example file
    (148 bytes, 2^30 layers of 2^34 bytes each) the product wraps to 0,
    [parse] returns true, and the placement of (0, 0, 0) is 2^34 bytes at
    offset 148, outside the file; layer 1 is placed on the same bytes. *)
Theorem placement_outside_file_after_wrapped_guard :
  let r := parse Examples.gli_dds (fun _ => Opened Examples.wrapping_file) new "w.dds" in
  let p := r.1.2 in
  r.1.1 = Ok true
  /\ m_fileSize p = 148 /\ m_dataOffset p = 148
  /\ m_levels p = 1 /\ m_layers p = 2 ^ 30 /\ m_faces p = 1
  /\ m_sizeOfAllLevels p = 2 ^ 34
  /\ getDataPlacement p 0 0 0 = Ok (148, 2 ^ 34)
  /\ ~ range_within (148, 2 ^ 34) (m_dataOffset p) (m_fileSize p)
  /\ getDataPlacement p 1 0 0 = Ok (148, 2 ^ 34)
  /\ ~ ranges_disjoint (148, 2 ^ 34) (148, 2 ^ 34).
Proof.
  cbv zeta.
  assert (E : parse Examples.gli_dds (fun _ => Opened Examples.wrapping_file) new "w.dds"
              = (Ok true, parsed Examples.gli_dds "w.dds" Examples.wrapping_file,
                 [EvFopen "w.dds"]))
    by (vm_compute; reflexivity).
  rewrite E. simpl fst. simpl snd.
  repeat split; try (vm_compute; reflexivity).
  - unfold range_within. simpl. vm_compute. intros [_ H]. apply H. reflexivity.
  - unfold ranges_disjoint. simpl. intros [H|H]; vm_compute in H; apply H; reflexivity.
Qed.

(** *** Placement when the guard did not wrap *)



Lemma levelSizes_length g f :
  0 <= levels g f -> length (levelSizes g f) = Z.to_nat (levels g f).
Proof. intros H. unfold levelSizes. rewrite length_fmap, length_seqZ. reflexivity. Qed.


Lemma sum_take_S (l : list Z) (k : nat) x :
  l !! k = Some x -> sum (take (S k) l) = sum (take k l) + x.
Proof.
  intros H. rewrite (take_S_r _ _ _ H), sum_app. unfold sum. simpl. lia.
Qed.






Lemma formula_end g f layer face level :
  0 <= level < levels g f ->
  (placement_formula g f layer face level).1 + (placement_formula g f layer face level).2
  = dataOffset g f + (layer * faces g f + face) * sum (levelSizes g f)
    + sum (take (Datatypes.S (Z.to_nat level)) (levelSizes g f)).
Proof.
  intros Hv.
  assert (Hlen : length (levelSizes g f) = Z.to_nat (levels g f))
    by (apply levelSizes_length; lia).
  destruct (lookup_lt_is_Some_2 (levelSizes g f) (Z.to_nat level)) as [x Hx]; [lia|].
  unfold placement_formula. simpl. rewrite Hx, (sum_take_S _ _ _ Hx). simpl. lia.
Qed.

(** the ranges of one (layer, face) tile [sizeOfAllLevels] bytes: the
    first starts at the base of the face, each ends where the next
    starts, and the last ends [sum levelSizes] bytes after the base *)
Lemma placement_tiles g f layer face :
  0 < levels g f ->
  let base := dataOffset g f + (layer * faces g f + face) * sum (levelSizes g f) in
  (placement_formula g f layer face 0).1 = base
  /\ (forall level, 0 <= level -> level + 1 < levels g f ->
        (placement_formula g f layer face level).1
        + (placement_formula g f layer face level).2
        = (placement_formula g f layer face (level + 1)).1)
  /\ (placement_formula g f layer face (levels g f - 1)).1
     + (placement_formula g f layer face (levels g f - 1)).2
     = base + sum (levelSizes g f).
Proof.
  intros Hpos base. split; [|split].
  - unfold placement_formula, base. simpl. unfold sum. simpl. lia.
  - intros level H0 H1. rewrite formula_end by lia.
    unfold placement_formula. simpl.
    replace (Z.to_nat (level + 1)) with (Datatypes.S (Z.to_nat level)) by lia.
    reflexivity.
  - rewrite formula_end by lia.
    replace (Datatypes.S (Z.to_nat (levels g f - 1))) with (Z.to_nat (levels g f)) by lia.
    rewrite <- levelSizes_length by lia. rewrite firstn_all. reflexivity.
Qed.




End PlacementFacts.
(** ** data() addresses face 0 *)

Section FaceZero.
Import Int.






End FaceZero.

(** ** AssetDataManager: the registry *)

Section Registry.
Import AssetDataManager ManagerSpec.

(** appending to the vector of a key adds one element to the map as a
    whole, wherever the key sits *)
Lemma update_append_perm {K V : Type} (ltb : K -> K -> bool) (k : K) (e : V)
    (m : list (K * list V)) :
  Permutation (concat (map snd (StdMap.update ltb k [] (fun v => v ++ [e]) m)))
              (e :: concat (map snd m)).
Proof.
  induction m as [|[k' v] m IH]; simpl.
  - reflexivity.
  - destruct (ltb k k'); simpl; [reflexivity|].
    destruct (ltb k' k); simpl.
    + rewrite IH. apply Permutation_sym, Permutation_middle.
    + rewrite <- app_assoc. simpl. apply Permutation_sym, Permutation_middle.
Qed.

Lemma already_registered_iff m normalized :
  already_registered m normalized = true <-> registered m normalized.
Proof.
  unfold already_registered, registered. rewrite existsb_exists. split.
  - intros ([priority paths] & Hin & Hex). simpl in Hex.
    apply existsb_exists in Hex as (existing & Hin' & Heq).
    apply String.eqb_eq in Heq. subst existing. eauto.
  - intros (priority & paths & Hin & Hin').
    exists (priority, paths). split; [exact Hin|]. simpl.
    apply existsb_exists. exists normalized. split; [exact Hin'|].
    apply String.eqb_refl.
Qed.

Lemma registered_all_paths m normalized :
  registered m normalized <-> In normalized (all_paths m).
Proof.
  unfold registered, all_paths. rewrite in_concat. split.
  - intros (priority & paths & Hin & Hin'). exists paths. split; [|exact Hin'].
    apply in_map_iff. exists (priority, paths). auto.
  - intros (paths & Hin & Hin'). apply in_map_iff in Hin as ([priority p] & <- & Hin).
    eauto.
Qed.

Lemma count_scans_app evs1 evs2 :
  count_scans (evs1 ++ evs2) = (count_scans evs1 + count_scans evs2)%nat.
Proof. unfold count_scans. rewrite List.filter_app, length_app. reflexivity. Qed.

Lemma mount_entry_scans env acc entry :
  count_scans (mount_entry env acc entry).2 = count_scans acc.2.
Proof.
  destruct acc as [packageSet evs]. unfold mount_entry. simpl.
  destruct (_ || _)%bool; [|reflexivity].
  destruct (package_initialize env entry); simpl;
    unfold count_scans; rewrite List.filter_app, length_app; simpl; lia.
Qed.

Lemma mount_entries_scans env entries acc :
  count_scans (foldl (mount_entry env) acc entries).2 = count_scans acc.2.
Proof.
  revert acc. induction entries as [|entry entries IH]; intros acc; [reflexivity|].
  simpl. rewrite IH. apply mount_entry_scans.
Qed.

Lemma scan_directory_scans env path :
  count_scans (scan_directory env path).2 = if fs_exists env path then 1%nat else 0%nat.
Proof.
  unfold scan_directory. destruct (fs_exists env path); [|reflexivity].
  rewrite mount_entries_scans. reflexivity.
Qed.

(** an effective call: one more search path, at most one more mounted
    path, and the scan the directory allows *)
Lemma addSearchPath_fresh env m priority path :
  already_registered m (normalize_base env path) = false ->
  let r := addSearchPath env m priority path in
  Permutation (all_paths r.1) (normalize_base env path :: all_paths m)
  /\ (if RtxIo_enabled env
      then Permutation (mounted_paths r.1) (normalize_base env path :: mounted_paths m)
      else mounted_paths r.1 = mounted_paths m)
  /\ count_scans r.2
     = if (RtxIo_enabled env && fs_exists env path)%bool then 1%nat else 0%nat.
Proof.
  intros Hfresh. unfold addSearchPath. rewrite Hfresh.
  destruct (RtxIo_enabled env); simpl.
  - pose proof (scan_directory_scans env path) as Hs.
    destruct (scan_directory env path) as [packageSet evs]. simpl in *.
    split; [apply update_append_perm|]. split; [|exact Hs].
    unfold mounted_paths. simpl.
    apply (Permutation_map fst
             (update_append_perm Z.ltb priority (normalize_base env path, packageSet)
                (m_packageSets m))).
  - split; [apply update_append_perm|]. split; reflexivity.
Qed.

Lemma addSearchPath_duplicate env m priority path :
  already_registered m (normalize_base env path) = true ->
  addSearchPath env m priority path = (m, []).
Proof. intros H. unfold addSearchPath. rewrite H. reflexivity. Qed.

Lemma addSearchPath_registers env m priority path :
  registered (addSearchPath env m priority path).1 (normalize_base env path).
Proof.
  destruct (already_registered m (normalize_base env path)) eqn:E.
  - rewrite addSearchPath_duplicate by exact E. apply already_registered_iff, E.
  - destruct (addSearchPath_fresh env m priority path E) as (Hp & _).
    apply registered_all_paths. apply (Permutation_in _ (Permutation_sym Hp)).
    left. reflexivity.
Qed.

Lemma run_adds_snoc env calls c :
  run_adds env (calls ++ [c]) = (addSearchPath env (run_adds env calls) c.1 c.2).1.
Proof. unfold run_adds. rewrite foldl_app. reflexivity. Qed.

(** no path is registered twice, and a path is mounted at most as often
    as it is registered *)
Lemma registry_no_duplicates env calls x :
  (registry_count (run_adds env calls) x <= 1)%nat
  /\ (count_occ string_dec (mounted_paths (run_adds env calls)) x
      <= registry_count (run_adds env calls) x)%nat.
Proof.
  induction calls as [|[priority path] calls IH] using rev_ind.
  - unfold registry_count. simpl. split; lia.
  - rewrite run_adds_snoc. simpl. set (m := run_adds env calls) in *.
    destruct (already_registered m (normalize_base env path)) eqn:E.
    + rewrite addSearchPath_duplicate by exact E. exact IH.
    + destruct (addSearchPath_fresh env m priority path E) as (Hp & Hm & _).
      unfold registry_count in *.
      rewrite (proj1 (Permutation_count_occ string_dec _ _) Hp x).
      assert (Hmount : (count_occ string_dec (mounted_paths (addSearchPath env m priority path).1) x
                        <= count_occ string_dec (normalize_base env path :: mounted_paths m) x)%nat).
      { destruct (RtxIo_enabled env).
        - rewrite (proj1 (Permutation_count_occ string_dec _ _) Hm x). reflexivity.
        - rewrite Hm. simpl. destruct (string_dec _ _); lia. }
      simpl in *. destruct (string_dec (normalize_base env path) x) as [<-|Hne].
      * assert (Hz : count_occ string_dec (all_paths m) (normalize_base env path) = 0%nat).
        { apply count_occ_not_In. rewrite <- registered_all_paths,
            <- already_registered_iff, E. discriminate. }
        rewrite Hz in *. lia.
      * lia.
Qed.

(** C6: a call whose normalized path is already registered under any
    priority changes nothing and does nothing; so adding one directory
    twice, under equal or different priorities, leaves one registry entry,
    at most one mounted path and at most one directory scan, and exactly
    one of each when the path was new, archive mounting is enabled and the
    directory exists. *)
Theorem addSearchPath_global_dedupe (env : Env) (calls : list (Z * string))
    (priority priority' : Z) (path : string) :
  let m := run_adds env calls in
  let normalized := normalize_base env path in
  let r1 := addSearchPath env m priority path in
  let r2 := addSearchPath env r1.1 priority' path in
  (registered m normalized -> r1 = (m, []))
  /\ r2 = (r1.1, [])
  /\ registry_count r2.1 normalized = 1%nat
  /\ (count_occ string_dec (mounted_paths r2.1) normalized <= 1)%nat
  /\ (count_scans (r1.2 ++ r2.2) <= 1)%nat
  /\ (~ registered m normalized -> RtxIo_enabled env = true -> fs_exists env path = true ->
      count_scans (r1.2 ++ r2.2) = 1%nat
      /\ count_occ string_dec (mounted_paths r2.1) normalized = 1%nat).
Proof.
  intros m normalized r1 r2.
  assert (H2 : r2 = (r1.1, [])).
  { apply addSearchPath_duplicate, already_registered_iff, addSearchPath_registers. }
  rewrite H2. simpl. rewrite app_nil_r.
  pose proof (registry_no_duplicates env (calls ++ [(priority, path)]) normalized) as Hinv.
  rewrite run_adds_snoc in Hinv. simpl in Hinv. fold m r1 in Hinv.
  destruct Hinv as [Hle Hmount].
  assert (Hge : (registry_count r1.1 normalized > 0)%nat).
  { apply count_occ_In, registered_all_paths, addSearchPath_registers. }
  split; [|split; [reflexivity | split; [lia | split; [lia | split]]]].
  - intros Hreg. apply addSearchPath_duplicate, already_registered_iff, Hreg.
  - destruct (already_registered m normalized) eqn:E.
    + subst r1. unfold normalized in E. rewrite addSearchPath_duplicate by exact E.
      simpl. unfold count_scans. simpl. lia.
    + destruct (addSearchPath_fresh env m priority path E) as (_ & _ & Hs).
      fold r1 in Hs. rewrite Hs. destruct (_ && _)%bool; lia.
  - intros Hnew Hio Hex.
    assert (E : already_registered m normalized = false).
    { destruct (already_registered m normalized) eqn:E; [|reflexivity].
      exfalso. apply Hnew, already_registered_iff, E. }
    destruct (addSearchPath_fresh env m priority path E) as (_ & Hm & Hs).
    fold r1 in Hm, Hs. rewrite Hio, Hex in Hs. rewrite Hio in Hm. simpl in Hs.
    split; [exact Hs|].
    assert (count_occ string_dec (mounted_paths r1.1) normalized > 0)%nat; [|lia].
    apply count_occ_In. apply (Permutation_in _ (Permutation_sym Hm)).
    left. reflexivity.
Qed.

Lemma addSearchPath_global_dedupe_witness :
  let m1 := (addSearchPath Examples.env_mods new 0 "C:\Mods").1 in
  ~ registered (run_adds Examples.env_mods []) "c:\mods\"
  /\ addSearchPath Examples.env_mods m1 7 "c:/mods/" = (m1, [])
  /\ count_scans ((addSearchPath Examples.env_mods new 0 "C:\Mods").2
                  ++ (addSearchPath Examples.env_mods m1 0 "C:\Mods").2) = 1%nat.
Proof.
  cbv zeta.
  assert (Hnew : ~ registered (run_adds Examples.env_mods []) "c:\mods\").
  { intros (priority & paths & [] & _). }
  split; [exact Hnew|]. split.
  - pose proof (addSearchPath_global_dedupe Examples.env_mods [(0, "C:\Mods")] 7 7
                  "c:/mods/") as (H & _).
    apply H. exists 0, ["c:\mods\"%string]. split; left; reflexivity.
  - pose proof (addSearchPath_global_dedupe Examples.env_mods [] 0 0 "C:\Mods")
      as (_ & _ & _ & _ & _ & H).
    apply H; [exact Hnew | reflexivity | reflexivity].
Defined.

End Registry.

(** ** AssetDataManager: the package search *)

Section Search.
Import AssetDataManager SearchSpec.

Lemma substr_in_range_ok (s : string) (n : nat) :
  (n <= String.length s)%nat -> Str.substr s n = Ok (string_drop n s).
Proof.
  revert s. induction n as [|n IH]; intros s H; [destruct s; reflexivity|].
  destruct s as [|a s]; simpl in *; [lia|]. apply IH. lia.
Qed.

Lemma substr_out_of_range (s : string) (n : nat) :
  (String.length s < n)%nat -> Str.substr s n = Raise out_of_range.
Proof.
  revert s. induction n as [|n IH]; intros s H; [lia|].
  destruct s as [|a s]; simpl in *; [reflexivity|]. apply IH. lia.
Qed.

(** what [substr] returns is a literal suffix of its argument *)
Lemma substr_suffix (s r : string) (n : nat) :
  Str.substr s n = Ok r ->
  exists pre, s = (pre ++ r)%string /\ String.length pre = n.
Proof.
  revert s. induction n as [|n IH]; intros s H.
  - assert (E : Str.substr s 0 = Ok s) by (destruct s; reflexivity).
    rewrite E in H. injection H as <-. exists EmptyString. split; reflexivity.
  - destruct s as [|a s]; simpl in H; [discriminate|].
    destruct (IH s H) as (pre & -> & Hlen).
    exists (String a pre). split; [reflexivity | simpl; lia].
Qed.

Lemma find_app {A} (f : A -> bool) (l1 l2 : list A) :
  List.find f (l1 ++ l2)
  = match List.find f l1 with Some x => Some x | None => List.find f l2 end.
Proof.
  induction l1 as [|x l1 IH]; simpl; [reflexivity|].
  destruct (f x); [reflexivity | exact IH].
Qed.

Lemma first_hit_app env filename cs1 cs2 :
  first_hit env filename (cs1 ++ cs2)
  = match first_hit env filename cs1 with
    | Some r => Some r
    | None => first_hit env filename cs2
    end.
Proof.
  unfold first_hit. rewrite find_app.
  destruct (List.find (contains env filename) cs1); reflexivity.
Qed.

Lemma probes_app env filename cs1 cs2 :
  probes env filename (cs1 ++ cs2)
  = match first_hit env filename cs1 with
    | Some _ => probes env filename cs1
    | None => probes env filename cs1 ++ probes env filename cs2
    end.
Proof.
  unfold first_hit. induction cs1 as [|c cs1 IH]; simpl; [reflexivity|].
  destruct (contains env filename c); [reflexivity|].
  rewrite IH. destruct (List.find (contains env filename) cs1); reflexivity.
Qed.

(** the innermost loop is the first hit among the packages of the path *)
Lemma search_packages_spec env filename (p : path_entry) pkgs :
  let cs := map (fun np => mkCandidate p np.1 np.2) pkgs in
  search_packages env (string_drop (String.length (p_basePath p)) filename) pkgs
  = (first_hit env filename cs, probes env filename cs).
Proof.
  induction pkgs as [|[name package] pkgs IH]; simpl; [reflexivity|].
  unfold first_hit, contains, relative_path in *. simpl in *.
  destruct (_ =? kNoAssetIdx env); simpl; [|reflexivity].
  rewrite IH. reflexivity.
Qed.

(** the loop over the paths of a visit order *)
Lemma search_entries_spec env filename filenameLower (ps : list path_entry) :
  (forall p, In p ps -> matches filenameLower (p_basePath p) = true ->
             (String.length (p_basePath p) <= String.length filename)%nat) ->
  let cs := flat_map packages_in_order
              (List.filter (fun p => matches filenameLower (p_basePath p)) ps) in
  search_entries env filename filenameLower
    (map (fun p => (p_basePath p, p_packages p)) ps)
  = (first_hit env filename cs, probes env filename cs).
Proof.
  induction ps as [|p ps IH]; intros Hr; [reflexivity|].
  simpl. fold (matches filenameLower (p_basePath p)).
  destruct (matches filenameLower (p_basePath p)) eqn:Hm.
  - rewrite substr_in_range_ok by (apply Hr; [left; reflexivity | exact Hm]).
    rewrite search_packages_spec. simpl.
    fold (packages_in_order p).
    rewrite first_hit_app, probes_app.
    destruct (first_hit env filename (packages_in_order p)); [reflexivity|].
    rewrite IH by (intros q Hq; apply Hr; right; exact Hq). reflexivity.
  - apply IH. intros q Hq. apply Hr. right. exact Hq.
Qed.

Lemma numbered_entries {A} (k : nat) (l : list A) : map snd (numbered k l) = l.
Proof. revert k. induction l as [|x l IH]; intros k; simpl; [|rewrite IH]; reflexivity. Qed.

Lemma paths_of_priority_entries (pe : Z * list PackageEntry) :
  map (fun p => (p_basePath p, p_packages p)) (paths_of_priority pe) = rev pe.2.
Proof.
  unfold paths_of_priority. rewrite map_rev, map_map. f_equal.
  rewrite <- (numbered_entries 0 pe.2) at 2.
  apply map_ext. intros [i [base pkgs]]. reflexivity.
Qed.

(** the loop over the priorities of a visit order *)
Lemma search_priorities_spec env filename filenameLower
    (l : list (Z * list PackageEntry)) :
  (forall p, In p (flat_map paths_of_priority l) ->
             matches filenameLower (p_basePath p) = true ->
             (String.length (p_basePath p) <= String.length filename)%nat) ->
  let cs := flat_map packages_in_order
              (List.filter (fun p => matches filenameLower (p_basePath p))
                 (flat_map paths_of_priority l)) in
  search_priorities env filename filenameLower l
  = (first_hit env filename cs, probes env filename cs).
Proof.
  induction l as [|[priority entries] l IH]; intros Hr; [reflexivity|].
  change (flat_map paths_of_priority ((priority, entries) :: l))
    with (paths_of_priority (priority, entries) ++ flat_map paths_of_priority l) in *.
  cbv zeta. rewrite List.filter_app, flat_map_app, first_hit_app, probes_app.
  change (search_priorities env filename filenameLower ((priority, entries) :: l))
    with (match search_entries env filename filenameLower (rev (priority, entries).2) with
          | (Some r, evs) => (Some r, evs)
          | (None, evs) =>
              let '(r, evs') := search_priorities env filename filenameLower l in
              (r, evs ++ evs')
          end).
  rewrite <- (paths_of_priority_entries (priority, entries)).
  rewrite search_entries_spec
    by (intros p Hp; apply Hr, in_or_app; left; exact Hp).
  cbv zeta.
  destruct (first_hit env filename _); [reflexivity|].
  rewrite IH by (intros p Hp; apply Hr, in_or_app; right; exact Hp).
  reflexivity.
Qed.

(** the search of [findAsset] is the first hit among the candidates *)
Lemma search_refines env filename filenameLower sets :
  substr_in_range filename filenameLower sets ->
  search_priorities env filename filenameLower (rev sets)
  = (first_hit env filename (candidates filenameLower sets),
     probes env filename (candidates filenameLower sets)).
Proof.
  intros Hr. unfold candidates, paths_in_order.
  apply search_priorities_spec. exact Hr.
Qed.

End Search.

(** ** AssetDataManager: the order of the search *)

Section Order.
Import AssetDataManager SearchSpec ManagerSpec.

Lemma SS_app {A} (R : A -> A -> Prop) (l1 l2 : list A) :
  StronglySorted R l1 -> StronglySorted R l2 ->
  (forall a b, In a l1 -> In b l2 -> R a b) ->
  StronglySorted R (l1 ++ l2).
Proof.
  intros H1 H2 H. induction H1 as [|x l1 Hs IH Hf]; simpl; [exact H2|].
  constructor.
  - apply IH. intros a b Ha Hb. apply H; [right; exact Ha | exact Hb].
  - apply Forall_app. split; [exact Hf|].
    apply Forall_forall. intros b Hb. apply H; [left; reflexivity|].
    apply list_elem_of_In. exact Hb.
Qed.

Lemma SS_impl {A} (R1 R2 : A -> A -> Prop) (l : list A) :
  (forall a b, R1 a b -> R2 a b) -> StronglySorted R1 l -> StronglySorted R2 l.
Proof.
  intros H. induction 1 as [|x l Hs IH Hf]; constructor; [exact IH|].
  eapply Forall_impl; [exact Hf | apply H].
Qed.

Lemma SS_rev {A} (R : A -> A -> Prop) (l : list A) :
  StronglySorted R l -> StronglySorted (fun a b => R b a) (rev l).
Proof.
  induction 1 as [|x l Hs IH Hf]; simpl; [constructor|].
  apply SS_app; [exact IH | repeat constructor |].
  intros a b Ha [<-|[]]. rewrite Forall_forall in Hf. apply Hf.
  apply list_elem_of_In, in_rev. exact Ha.
Qed.

Lemma SS_filter {A} (R : A -> A -> Prop) (f : A -> bool) (l : list A) :
  StronglySorted R l -> StronglySorted R (List.filter f l).
Proof.
  induction 1 as [|x l Hs IH Hf]; simpl; [constructor|].
  destruct (f x); [|exact IH]. constructor; [exact IH|].
  apply Forall_forall. intros y Hy. apply list_elem_of_In, filter_In in Hy as [Hy _].
  rewrite Forall_forall in Hf. apply Hf, list_elem_of_In, Hy.
Qed.

Lemma SS_map {A B} (R : B -> B -> Prop) (f : A -> B) (l : list A) :
  StronglySorted (fun a b => R (f a) (f b)) l -> StronglySorted R (map f l).
Proof.
  induction 1 as [|x l Hs IH Hf]; simpl; constructor; [exact IH|].
  apply Forall_forall. intros y Hy. apply list_elem_of_In, in_map_iff in Hy as (a & <- & Ha).
  rewrite Forall_forall in Hf. apply Hf, list_elem_of_In, Ha.
Qed.

Lemma SS_flat_map {A B} (R' : A -> A -> Prop) (R : B -> B -> Prop)
    (f : A -> list B) (l : list A) :
  StronglySorted R' l ->
  (forall x, In x l -> StronglySorted R (f x)) ->
  (forall x y a b, R' x y -> In a (f x) -> In b (f y) -> R a b) ->
  StronglySorted R (flat_map f l).
Proof.
  intros Hl Hin Hcross. induction Hl as [|x l Hs IH Hf]; simpl; [constructor|].
  apply SS_app.
  - apply Hin. left. reflexivity.
  - apply IH. intros y Hy. apply Hin. right. exact Hy.
  - intros a b Ha Hb. apply in_flat_map in Hb as (y & Hy & Hb).
    rewrite Forall_forall in Hf.
    apply (Hcross x y); [apply Hf, list_elem_of_In, Hy | exact Ha | exact Hb].
Qed.

Lemma numbered_positions {A} (k : nat) (l : list A) (ie : nat * A) :
  In ie (numbered k l) -> (k <= ie.1)%nat.
Proof.
  revert k. induction l as [|x l IH]; intros k; simpl; [tauto|].
  intros [<-|H]; [simpl; lia|]. apply IH in H. lia.
Qed.

Lemma numbered_sorted {A} (k : nat) (l : list A) :
  StronglySorted (fun a b => (a.1 < b.1)%nat) (numbered k l).
Proof.
  revert k. induction l as [|x l IH]; intros k; simpl; constructor; [apply IH|].
  apply Forall_forall. intros ie Hie. apply list_elem_of_In, numbered_positions in Hie.
  simpl. lia.
Qed.

Lemma in_paths_of_priority pe p :
  In p (paths_of_priority pe) ->
  p_priority p = pe.1 /\ In (p_basePath p, p_packages p) pe.2.
Proof.
  unfold paths_of_priority. rewrite <- in_rev, in_map_iff.
  intros ([i [base pkgs]] & <- & Hin). simpl. split; [reflexivity|].
  rewrite <- (numbered_entries 0 pe.2). apply in_map_iff.
  exists (i, (base, pkgs)). split; [reflexivity | exact Hin].
Qed.

Lemma paths_of_priority_sorted pe :
  StronglySorted path_before (paths_of_priority pe).
Proof.
  unfold paths_of_priority.
  apply (SS_rev (fun p1 p2 => path_before p2 p1)), SS_map.
  eapply SS_impl; [|apply (numbered_sorted 0 pe.2)].
  intros a b Hab. right. simpl. split; [reflexivity | exact Hab].
Qed.

Lemma paths_in_order_sorted sets :
  StronglySorted (fun a b => a.1 < b.1) sets ->
  StronglySorted path_before (paths_in_order sets).
Proof.
  intros Hs. unfold paths_in_order.
  apply (SS_flat_map (fun a b => b.1 < a.1)).
  - apply (SS_rev (fun a b => a.1 < b.1)). exact Hs.
  - intros pe _. apply paths_of_priority_sorted.
  - intros pe1 pe2 p1 p2 Hlt H1 H2.
    apply in_paths_of_priority in H1 as [E1 _].
    apply in_paths_of_priority in H2 as [E2 _].
    left. rewrite E1, E2. exact Hlt.
Qed.

Lemma in_paths_in_order sets p :
  In p (paths_in_order sets) ->
  exists pe, In pe sets /\ p_priority p = pe.1
             /\ In (p_basePath p, p_packages p) pe.2.
Proof.
  unfold paths_in_order. rewrite in_flat_map. intros (pe & Hpe & Hp).
  apply in_rev in Hpe. apply in_paths_of_priority in Hp as [E Hin]. eauto.
Qed.

Lemma packages_in_order_sorted p :
  StronglySorted (fun a b => String.ltb a.1 b.1 = true) (p_packages p) ->
  StronglySorted searched_before (packages_in_order p).
Proof.
  intros Hs. unfold packages_in_order. apply SS_map.
  eapply SS_impl; [|apply (SS_rev _ _ Hs)].
  intros a b Hab. right. simpl. split; [reflexivity | exact Hab].
Qed.

(** the candidates are met in the order of the specification: priority
    descending, then position in the vector descending, then package
    name descending *)
Lemma candidates_sorted filenameLower sets :
  sets_sorted sets ->
  StronglySorted searched_before (candidates filenameLower sets).
Proof.
  intros [Hkeys Hpkgs]. unfold candidates.
  apply (SS_flat_map path_before).
  - apply SS_filter, paths_in_order_sorted, Hkeys.
  - intros p Hp. apply filter_In in Hp as [Hp _].
    apply in_paths_in_order in Hp as (pe & Hpe & _ & Hin).
    apply packages_in_order_sorted. apply (Hpkgs pe _ Hpe Hin).
  - intros p1 p2 c1 c2 Hb H1 H2. unfold packages_in_order in *.
    apply in_map_iff in H1 as (np1 & <- & _).
    apply in_map_iff in H2 as (np2 & <- & _).
    left. exact Hb.
Qed.

(** *** The two maps stay sorted *)

Lemma ascii_compare_lt a b : Ascii.compare a b = Lt <-> (N_of_ascii a < N_of_ascii b)%N.
Proof. unfold Ascii.compare. apply N.compare_lt_iff. Qed.

Lemma ascii_compare_refl a : Ascii.compare a a = Eq.
Proof. unfold Ascii.compare. apply N.compare_refl. Qed.

Lemma string_compare_lt_trans (s1 s2 s3 : string) :
  String.compare s1 s2 = Lt -> String.compare s2 s3 = Lt -> String.compare s1 s3 = Lt.
Proof.
  revert s2 s3. induction s1 as [|c1 s1 IH]; intros [|c2 s2] [|c3 s3]; simpl;
    try discriminate; try reflexivity.
  destruct (Ascii.compare c1 c2) eqn:E12; try discriminate;
    destruct (Ascii.compare c2 c3) eqn:E23; try discriminate.
  - apply Ascii.compare_eq_iff in E12, E23. subst c2 c3.
    rewrite ascii_compare_refl. apply IH.
  - apply Ascii.compare_eq_iff in E12. subst c2. rewrite E23. reflexivity.
  - apply Ascii.compare_eq_iff in E23. subst c3. rewrite E12. reflexivity.
  - apply ascii_compare_lt in E12. apply ascii_compare_lt in E23.
    assert (E13 : Ascii.compare c1 c3 = Lt)
      by (apply ascii_compare_lt; eapply N.lt_trans; eassumption).
    rewrite E13. reflexivity.
Qed.

Lemma string_lt_trans (s1 s2 s3 : string) :
  String.ltb s1 s2 = true -> String.ltb s2 s3 = true -> String.ltb s1 s3 = true.
Proof.
  unfold String.ltb. intros H1 H2.
  destruct (String.compare s1 s2) eqn:E12; try discriminate.
  destruct (String.compare s2 s3) eqn:E23; try discriminate.
  rewrite (string_compare_lt_trans _ _ _ E12 E23). reflexivity.
Qed.

(** keys of [emplace] and [update]: the new key or an old one *)
Lemma in_emplace {K V} (ltb : K -> K -> bool) k (v : V) m x :
  In x (StdMap.emplace ltb k v m) -> x = (k, v) \/ In x m.
Proof.
  induction m as [|[k' v'] m IH]; simpl.
  - intros [<-|[]]. left. reflexivity.
  - destruct (ltb k k'); simpl; [intros [<-|H]; auto|].
    destruct (ltb k' k); simpl; [|auto].
    intros [<-|H]; [auto|]. destruct (IH H); auto.
Qed.

Lemma emplace_sorted (k : string) (v : AssetPackage.t) (m : PackageSet) :
  StronglySorted (fun a b => String.ltb a.1 b.1 = true) m ->
  StronglySorted (fun a b => String.ltb a.1 b.1 = true) (StdMap.emplace String.ltb k v m).
Proof.
  induction 1 as [|[k' v'] m Hs IH Hf]; simpl; [repeat constructor|].
  destruct (String.ltb k k') eqn:E1.
  - constructor; [constructor; assumption|].
    constructor; [exact E1|].
    eapply Forall_impl; [exact Hf|]. intros y Hy. simpl in *.
    eapply string_lt_trans; eassumption.
  - destruct (String.ltb k' k) eqn:E2; [|constructor; assumption].
    constructor; [exact IH|].
    apply Forall_forall. intros y Hy. apply list_elem_of_In, in_emplace in Hy as [->|Hy].
    + exact E2.
    + rewrite Forall_forall in Hf. apply Hf, list_elem_of_In, Hy.
Qed.

Lemma mount_entries_sorted env entries acc :
  StronglySorted (fun a b => String.ltb a.1 b.1 = true) acc.1 ->
  StronglySorted (fun a b => String.ltb a.1 b.1 = true)
                 (foldl (mount_entry env) acc entries).1.
Proof.
  revert acc. induction entries as [|entry entries IH]; intros acc H; [exact H|].
  simpl. apply IH. destruct acc as [packageSet evs]. unfold mount_entry. simpl in *.
  destruct (_ || _)%bool; [|exact H].
  destruct (package_initialize env entry); simpl; [apply emplace_sorted|]; exact H.
Qed.

Lemma scan_directory_sorted env path :
  StronglySorted (fun a b => String.ltb a.1 b.1 = true) (scan_directory env path).1.
Proof.
  unfold scan_directory. destruct (fs_exists env path); [|constructor].
  apply mount_entries_sorted. constructor.
Qed.

Lemma in_update {V} (k : Z) (dflt : V) (f : V -> V) m x :
  In x (StdMap.update Z.ltb k dflt f m) ->
  x.1 = k \/ In x m.
Proof.
  induction m as [|[k' v'] m IH]; simpl.
  - intros [<-|[]]. left. reflexivity.
  - destruct (Z.ltb_spec k k') as [Hlt|Hge]; simpl; [intros [<-|Hin]; auto|].
    destruct (Z.ltb_spec k' k) as [Hlt'|Hge']; simpl.
    + intros [<-|Hin]; [auto|]. destruct (IH Hin); auto.
    + intros [<-|Hin]; [left; simpl; lia | auto].
Qed.

Lemma update_sorted {V} (k : Z) (dflt : V) (f : V -> V) (m : list (Z * V)) :
  StronglySorted (fun a b => a.1 < b.1) m ->
  StronglySorted (fun a b => a.1 < b.1) (StdMap.update Z.ltb k dflt f m).
Proof.
  induction 1 as [|[k' v'] m Hs IH Hf]; simpl; [repeat constructor|].
  destruct (Z.ltb_spec k k') as [Hlt|Hge].
  - constructor; [constructor; assumption|].
    constructor; [exact Hlt|].
    eapply Forall_impl; [exact Hf|]. intros y Hy. simpl in *. lia.
  - destruct (Z.ltb_spec k' k) as [Hlt'|Hge'].
    + constructor; [exact IH|].
      apply Forall_forall. intros y Hy. apply list_elem_of_In, in_update in Hy as [->|Hy].
      * exact Hlt'.
      * rewrite Forall_forall in Hf. apply Hf, list_elem_of_In, Hy.
    + constructor; assumption.
Qed.

(** the vectors of the map after an append: old vectors, one of them
    possibly with the new element at its end *)
Lemma in_update_append {V} (k : Z) (e : V) (m : list (Z * list V)) pe x :
  In pe (StdMap.update Z.ltb k [] (fun v => v ++ [e]) m) ->
  In x pe.2 -> x = e \/ exists pe', In pe' m /\ In x pe'.2.
Proof.
  induction m as [|[k' v'] m IH]; simpl.
  - intros [<-|[]] [<-|[]]. left. reflexivity.
  - destruct (Z.ltb k k'); simpl.
    + intros [<-|H] Hx; [destruct Hx as [<-|[]]; auto|]. right. eauto.
    + destruct (Z.ltb k' k); simpl.
      * intros [<-|H] Hx; [right; eauto|].
        destruct (IH H Hx) as [->|(pe' & Hpe' & Hx')]; [auto|]. right. eauto.
      * intros [<-|H] Hx; [|right; eauto]. simpl in Hx.
        apply in_app_or in Hx as [Hx|[<-|[]]]; [|auto]. right.
        exists (k', v'). auto.
Qed.

Lemma addSearchPath_sorted env m priority path :
  sets_sorted (m_packageSets m) ->
  sets_sorted (m_packageSets (addSearchPath env m priority path).1).
Proof.
  intros [Hkeys Hpkgs]. unfold addSearchPath.
  destruct (already_registered m _); [split; assumption|].
  destruct (RtxIo_enabled env); [|split; assumption].
  pose proof (scan_directory_sorted env path) as Hscan.
  destruct (scan_directory env path) as [packageSet evs]. simpl in *.
  split; [apply update_sorted, Hkeys|].
  intros pe e Hpe He.
  destruct (in_update_append _ _ _ _ _ Hpe He) as [->|(pe' & Hpe' & He')].
  - exact Hscan.
  - apply (Hpkgs pe' e Hpe' He').
Qed.

Lemma run_adds_sorted env calls : sets_sorted (m_packageSets (run_adds env calls)).
Proof.
  induction calls as [|c calls IH] using rev_ind.
  - split; [constructor | intros pe e []].
  - rewrite run_adds_snoc. apply addSearchPath_sorted, IH.
Qed.

(** *** Position in the vector is order of addition *)

Lemma find_update {V} (k : Z) (dflt : V) (f : V -> V) (m : list (Z * V)) :
  StdMap.find Z.ltb k (StdMap.update Z.ltb k dflt f m)
  = Some (f (default dflt (StdMap.find Z.ltb k m))).
Proof.
  induction m as [|[k' v'] m IH]; simpl.
  - rewrite Z.ltb_irrefl. reflexivity.
  - destruct (Z.ltb_spec k k') as [Hlt|Hge]; simpl.
    + rewrite Z.ltb_irrefl. reflexivity.
    + destruct (Z.ltb_spec k' k) as [Hlt'|Hge']; simpl.
      * destruct (Z.ltb_spec k k'); [lia|].
        destruct (Z.ltb_spec k' k); [exact IH | lia].
      * destruct (Z.ltb_spec k k'); [lia|].
        destruct (Z.ltb_spec k' k); [lia | reflexivity].
Qed.

Lemma find_update_ne {V} (k k0 : Z) (dflt : V) (f : V -> V) (m : list (Z * V)) :
  k0 <> k ->
  StdMap.find Z.ltb k0 (StdMap.update Z.ltb k dflt f m) = StdMap.find Z.ltb k0 m.
Proof.
  intros Hne. induction m as [|[k' v'] m IH]; simpl.
  - destruct (Z.ltb_spec k0 k); [reflexivity|].
    destruct (Z.ltb_spec k k0); [reflexivity | lia].
  - destruct (Z.ltb_spec k k') as [Hlt|Hge]; simpl.
    + destruct (Z.ltb_spec k0 k).
      * destruct (Z.ltb_spec k0 k'); [reflexivity | lia].
      * destruct (Z.ltb_spec k k0); [reflexivity | lia].
    + destruct (Z.ltb_spec k' k) as [Hlt'|Hge']; simpl.
      * destruct (Z.ltb_spec k0 k'); [reflexivity|].
        destruct (Z.ltb_spec k' k0); [exact IH | reflexivity].
      * destruct (Z.ltb_spec k0 k'); [reflexivity|].
        destruct (Z.ltb_spec k' k0); [reflexivity | lia].
Qed.

Lemma numbered_snoc {A} (k : nat) (l : list A) (x : A) :
  numbered k (l ++ [x]) = numbered k l ++ [((k + length l)%nat, x)].
Proof.
  revert k. induction l as [|y l IH]; intros k; simpl.
  - rewrite Nat.add_0_r. reflexivity.
  - rewrite IH, Nat.add_succ_r. reflexivity.
Qed.

(** an effective call with package I/O puts its path at the end of the
    vector of its priority, that is first in the visit order of that
    priority, and leaves every other vector as it was *)
Lemma addSearchPath_most_recent_first env m priority path :
  already_registered m (normalize_base env path) = false ->
  RtxIo_enabled env = true ->
  let m' := (addSearchPath env m priority path).1 in
  let old := default [] (StdMap.find Z.ltb priority (m_packageSets m)) in
  let entry := (normalize_base env path, (scan_directory env path).1) in
  StdMap.find Z.ltb priority (m_packageSets m') = Some (old ++ [entry])
  /\ paths_of_priority (priority, old ++ [entry])
     = mkPathEntry priority (length old) entry.1 entry.2
       :: paths_of_priority (priority, old)
  /\ (forall priority', priority' <> priority ->
        StdMap.find Z.ltb priority' (m_packageSets m')
        = StdMap.find Z.ltb priority' (m_packageSets m)).
Proof.
  intros Hfresh Hio m' old entry. subst m'. unfold addSearchPath.
  rewrite Hfresh, Hio. subst entry.
  destruct (scan_directory env path) as [packageSet evs]. simpl.
  split; [subst old; exact (find_update priority [] _ (m_packageSets m))|]. split.
  - unfold paths_of_priority. simpl. rewrite numbered_snoc, map_app, rev_app_distr.
    reflexivity.
  - intros priority' Hne. apply find_update_ne. exact Hne.
Qed.

End Order.

(** ** AssetDataManager: the relative path of the package lookup *)

Section RelativePath.
Import AssetDataManager SearchSpec.

Lemma map_length (f : ascii -> ascii) (s : string) :
  String.length (Str.map f s) = String.length s.
Proof. induction s as [|c s IH]; simpl; [|rewrite IH]; reflexivity. Qed.

Lemma filenameLower_length env filename :
  String.length (Str.lower (Str.make_preferred (fs_absolute env filename)))
  = String.length (fs_absolute env filename).
Proof. unfold Str.lower, Str.make_preferred. rewrite !map_length. reflexivity. Qed.

Lemma search_packages_events env rel pkgs name rel' :
  In (EvPackageFind name rel') (search_packages env rel pkgs).2 -> rel' = rel.
Proof.
  induction pkgs as [|[n package] pkgs IH]; simpl; [tauto|].
  destruct (_ =? kNoAssetIdx env).
  - destruct (search_packages env rel pkgs) as [r evs]. simpl in *.
    intros [[= _ <-]|H]; [reflexivity | exact (IH H)].
  - simpl. intros [[= _ <-]|H]; [reflexivity|]. exfalso. revert H.
    unfold PackagedAssetData.new_calls.
    destruct (AssetPackage.getAssetDesc package _) as [d|]; [|intros []].
    destruct (PackagedAssetData.type d); [intros [H|[]]; discriminate H | intros []].
Qed.

Lemma search_entries_events env filename filenameLower entries name rel :
  In (EvPackageFind name rel) (search_entries env filename filenameLower entries).2 ->
  exists base pkgs,
    In (base, pkgs) entries /\ matches filenameLower base = true
    /\ Str.substr filename (String.length base) = Ok rel.
Proof.
  induction entries as [|[base pkgs] entries IH]; simpl; [tauto|].
  fold (matches filenameLower base).
  assert (Hrest : In (EvPackageFind name rel)
                     (search_entries env filename filenameLower entries).2 ->
                  exists base0 pkgs0,
                    ((base, pkgs) = (base0, pkgs0) \/ In (base0, pkgs0) entries)
                    /\ matches filenameLower base0 = true
                    /\ Str.substr filename (String.length base0) = Ok rel).
  { intros H. destruct (IH H) as (b & p & Hin & Hb). exists b, p.
    split; [right; exact Hin | exact Hb]. }
  destruct (matches filenameLower base) eqn:Hm; [|exact Hrest].
  destruct (Str.substr filename (String.length base)) as [relativePath|e] eqn:Hs;
    [|simpl; tauto].
  pose proof (search_packages_events env relativePath (rev pkgs) name rel) as Hp.
  assert (Hhere : In (EvPackageFind name rel)
                     (search_packages env relativePath (rev pkgs)).2 ->
                  exists base0 pkgs0,
                    ((base, pkgs) = (base0, pkgs0) \/ In (base0, pkgs0) entries)
                    /\ matches filenameLower base0 = true
                    /\ Str.substr filename (String.length base0) = Ok rel).
  { intros H. exists base, pkgs. rewrite (Hp H).
    split; [left; reflexivity|]. split; [exact Hm | exact Hs]. }
  destruct (search_packages env relativePath (rev pkgs)) as [[r|] evs]; simpl in *;
    [exact Hhere|].
  destruct (search_entries env filename filenameLower entries) as [r' evs'].
  simpl in *. intros H. apply in_app_or in H as [H|H]; auto.
Qed.

Lemma search_priorities_events env filename filenameLower sets name rel :
  In (EvPackageFind name rel) (search_priorities env filename filenameLower sets).2 ->
  exists priority entries base pkgs,
    In (priority, entries) sets /\ In (base, pkgs) entries
    /\ matches filenameLower base = true
    /\ Str.substr filename (String.length base) = Ok rel.
Proof.
  induction sets as [|[priority entries] sets IH]; simpl; [tauto|].
  assert (Hrest : In (EvPackageFind name rel)
                     (search_priorities env filename filenameLower sets).2 ->
                  exists priority0 entries0 base pkgs,
                    ((priority, entries) = (priority0, entries0)
                     \/ In (priority0, entries0) sets)
                    /\ In (base, pkgs) entries0
                    /\ matches filenameLower base = true
                    /\ Str.substr filename (String.length base) = Ok rel).
  { intros H. destruct (IH H) as (pr & es & b & p & Hin & Hb). exists pr, es, b, p.
    split; [right; exact Hin | exact Hb]. }
  assert (Hhere : In (EvPackageFind name rel)
                     (search_entries env filename filenameLower (rev entries)).2 ->
                  exists priority0 entries0 base pkgs,
                    ((priority, entries) = (priority0, entries0)
                     \/ In (priority0, entries0) sets)
                    /\ In (base, pkgs) entries0
                    /\ matches filenameLower base = true
                    /\ Str.substr filename (String.length base) = Ok rel).
  { intros H. apply search_entries_events in H as (b & p & Hin & Hb).
    exists priority, entries, b, p. apply in_rev in Hin.
    split; [left; reflexivity|]. split; [exact Hin | exact Hb]. }
  destruct (search_entries env filename filenameLower (rev entries)) as [[r|] evs];
    simpl in *; [exact Hhere|].
  destruct (search_priorities env filename filenameLower sets) as [r' evs'].
  simpl in *. intros H. apply in_app_or in H as [H|H]; auto.
Qed.

(** a filename whose absolute form has its own length is long enough for
    every base path it matches *)
Lemma same_length_in_range env filename sets :
  String.length (fs_absolute env filename) = String.length filename ->
  substr_in_range filename (Str.lower (Str.make_preferred (fs_absolute env filename)))
                  sets.
Proof.
  intros Hlen p _ Hm. unfold matches in Hm.
  apply andb_prop in Hm as [Hm _]. apply Nat.ltb_lt in Hm.
  rewrite filenameLower_length, Hlen in Hm. lia.
Qed.

End RelativePath.

(** ** AssetDataManager: findAsset *)

Section FindAsset.
Import AssetDataManager SearchSpec ManagerSpec.

Lemma dds_stage_falls env filename evs :
  dds_falls_through env filename evs -> dds_stage env filename = (None, evs).
Proof.
  unfold dds_stage. intros [[-> ->]|[-> [dds ->]]]; reflexivity.
Qed.

Lemma gli_fallback_null env filename :
  ((gli_fallback env filename).1 = Ok None <-> Gli.empty (gli_load env filename) = true)
  /\ In (EvGliLoad filename) (gli_fallback env filename).2.
Proof.
  unfold gli_fallback, GliTextureData.load.
  destruct (Gli.empty (gli_load env filename)); simpl.
  - split; [tauto | left; reflexivity].
  - destruct (GliTextureData.type (gli_load env filename)); simpl;
      (split; [split; discriminate | left; reflexivity]).
Qed.

Lemma package_stage_spec env m filename :
  RtxIo_enabled env = true -> m_packageSets m <> [] ->
  let filenameLower := Str.lower (Str.make_preferred (fs_absolute env filename)) in
  substr_in_range filename filenameLower (m_packageSets m) ->
  let cands := candidates filenameLower (m_packageSets m) in
  package_stage env m filename
  = (match first_hit env filename cands with
     | Some r => Some (packaged_result r)
     | None => None
     end, probes env filename cands).
Proof.
  intros Hio Hne filenameLower Hr cands. unfold package_stage. rewrite Hio.
  assert (E : negb (length (m_packageSets m) =? 0)%nat = true)
    by (destruct (m_packageSets m); [contradiction | reflexivity]).
  rewrite E. simpl andb. cbv iota. fold filenameLower.
  rewrite (search_refines env filename filenameLower (m_packageSets m) Hr).
  fold cands. destruct (first_hit env filename cands) as [[p|e]|]; reflexivity.
Qed.

(** The resolution order of the code.  A filename whose extension is not
    .dds gives null after one log entry.  Otherwise a successful partial
    load is returned after its file access alone.  Otherwise (the loader
    disabled or its load false), with package I/O enabled, a package set
    present and the caller's string long enough for the base paths its
    normalized form matches, the candidates are searched by priority
    descending, then by position in the vector descending (the most
    recently added first), then by name descending, and the first package
    that contains the key cut from the caller's string gives the result of
    the PackagedAssetData constructor; with no hit, or no package search
    at all, the GLI fallback is run, and it gives null only when GLI
    decodes nothing. *)
Lemma findAsset_resolution_order (env : Env) (calls : list (Z * string))
    (filename : string) :
  let m := run_adds env calls in
  let filenameLower := Str.lower (Str.make_preferred (fs_absolute env filename)) in
  let cands := candidates filenameLower (m_packageSets m) in
  (isDDS filename = false ->
     findAsset env m filename
     = (Ok None, [if suppressAssetLoadingErrors env
                  then LogWarn (unsupported_message ++ filename)
                  else LogErr (unsupported_message ++ filename)]))
  /\ (isDDS filename = true -> usePartialDdsLoader env = true ->
      forall dds evs,
        DdsTextureData.load (gli env) (fs_fopen env) DdsTextureData.new filename
        = (Ok true, dds, evs) ->
        findAsset env m filename = (Ok (Some (AssetData_Dds dds)), evs)
        /\ evs = [EvFopen filename])
  /\ (isDDS filename = true ->
      forall evs1, dds_falls_through env filename evs1 ->
        RtxIo_enabled env = true -> m_packageSets m <> [] ->
        substr_in_range filename filenameLower (m_packageSets m) ->
        StronglySorted searched_before cands
        /\ match List.find (contains env filename) cands with
           | Some c =>
               findAsset env m filename
               = (packaged_result
                    (PackagedAssetData.new (c_package c)
                       (AssetPackage.findAsset (c_package c) (relative_path filename c))),
                  evs1 ++ probes env filename cands)
           | None =>
               findAsset env m filename
               = ((gli_fallback env filename).1,
                  evs1 ++ probes env filename cands ++ (gli_fallback env filename).2)
           end)
  /\ (isDDS filename = true ->
      forall evs1, dds_falls_through env filename evs1 ->
        RtxIo_enabled env = false \/ m_packageSets m = [] ->
        findAsset env m filename
        = ((gli_fallback env filename).1, evs1 ++ (gli_fallback env filename).2))
  /\ ((gli_fallback env filename).1 = Ok None
      <-> Gli.empty (gli_load env filename) = true)
  /\ In (EvGliLoad filename) (gli_fallback env filename).2.
Proof.
  intros m filenameLower cands.
  split; [|split; [|split; [|split]]].
  - intros H. unfold findAsset. rewrite H. reflexivity.
  - intros H Hp dds evs Hload. unfold findAsset, dds_stage.
    rewrite H, Hp, Hload. simpl. split; [reflexivity|].
    unfold DdsTextureData.load in Hload.
    destruct (fs_fopen env filename) as [f|emfile] eqn:Hopen.
    + assert (Hname : filename <> ""%string) by (intros ->; discriminate).
      rewrite (parse_opened _ _ _ f Hname Hopen) in Hload.
      destruct (DdsSpec.too_short_for_header _ f); [discriminate|].
      destruct (DdsSpec.magic_mismatch _ f); [discriminate|].
      destruct (DdsSpec.too_short_for_header10 _ f); [discriminate|].
      destruct (negb (DdsSpec.levels_fit _ f)); [discriminate|].
      destruct (DdsSpec.payload_exceeds_file _ f); [discriminate|].
      injection Hload as _ <-. reflexivity.
    + exfalso. revert Hload. unfold DdsFileParser.parse, DdsFileParser.openHandle.
      simpl. destruct (String.eqb filename ""); [discriminate|].
      rewrite Hopen. destruct emfile; discriminate.
  - intros H evs1 Hfall Hio Hne Hr.
    split; [apply candidates_sorted, run_adds_sorted|].
    unfold findAsset. rewrite H, (dds_stage_falls _ _ _ Hfall). simpl negb. cbv iota.
    rewrite (package_stage_spec env m filename Hio Hne Hr).
    fold filenameLower cands. unfold first_hit.
    destruct (List.find (contains env filename) cands) as [c|]; [reflexivity|].
    destruct (gli_fallback env filename). reflexivity.
  - intros H evs1 Hfall Hno. unfold findAsset.
    rewrite H, (dds_stage_falls _ _ _ Hfall). simpl negb. cbv iota.
    assert (E : package_stage env m filename = (None, [])).
    { unfold package_stage. destruct Hno as [->| ->]; [reflexivity|].
      rewrite andb_false_r. reflexivity. }
    rewrite E. destruct (gli_fallback env filename). reflexivity.
  - apply gli_fallback_null.
Qed.

(** the order at work on an absolute filename under a mounted path *)
Example findAsset_mounted_absolute :
  let m := run_adds Examples.env_mods [(0, "C:\Mods"%string)] in
  dds_falls_through Examples.env_mods "c:\mods\tex\a.dds" []
  /\ substr_in_range "c:\mods\tex\a.dds" "c:\mods\tex\a.dds" (m_packageSets m)
  /\ exists packaged,
       PackagedAssetData.new Examples.package_one 0 = Ok packaged
       /\ findAsset Examples.env_mods m "c:\mods\tex\a.dds"
          = (Ok (Some (AssetData_Packaged packaged)),
             [EvPackageFind "c:\mods\a.pkg" "tex\a.dds"; EvGetDataBlobDesc 100]).
Proof.
  cbv zeta.
  assert (Hfall : dds_falls_through Examples.env_mods "c:\mods\tex\a.dds" [])
    by (left; split; reflexivity).
  assert (Hr : substr_in_range "c:\mods\tex\a.dds" "c:\mods\tex\a.dds"
                 (m_packageSets (run_adds Examples.env_mods [(0, "C:\Mods"%string)]))).
  { apply (same_length_in_range Examples.env_mods "c:\mods\tex\a.dds"). reflexivity. }
  split; [exact Hfall|]. split; [exact Hr|].
  eexists. split; [reflexivity|].
  destruct (findAsset_resolution_order Examples.env_mods [(0, "C:\Mods"%string)]
              "c:\mods\tex\a.dds") as (_ & _ & H3 & _).
  destruct (H3 eq_refl [] Hfall eq_refl ltac:(discriminate) Hr) as [_ H].
  exact H.
Qed.

(** C1 fails on the code.  The package search matches a base path on the
    normalized absolute form of the filename, but cuts the relative path
    out of the caller's string, at the length of the base path.  With the
    working directory [c:\mods] mounted as a search path and the partial
    loader disabled: the filename [a.dds] is, in its normalized form
    [c:\mods\a.dds], a strict extension of the base path [c:\mods\]; the
    cut at position 8 is outside its 5 characters and [findAsset] leaves
    with [out_of_range], so that no package is asked and the GLI fallback
    is not attempted.  The filename [xxxxxxxxtex\a.dds] is long enough;
    the package does not contain its path relative to the base, but it is
    asked for [tex\a.dds], the caller's string without its first 8
    characters, and the asset stored under that name is returned. *)
Theorem findAsset_relative_path_from_raw_string :
  let env := Examples.env_mods in
  let m := run_adds env [(0, "C:\Mods"%string)] in
  usePartialDdsLoader env = false /\ RtxIo_enabled env = true
  /\ m_packageSets m
     = [(0, [("c:\mods\"%string, [("c:\mods\a.pkg"%string, Examples.package_one)])])]
  /\ isDDS "a.dds" = true
  /\ Str.lower (Str.make_preferred (fs_absolute env "a.dds")) = "c:\mods\a.dds"%string
  /\ matches "c:\mods\a.dds" "c:\mods\" = true
  /\ AssetPackage.findAsset Examples.package_one "a.dds" = kNoAssetIdx env
  /\ findAsset env m "a.dds" = (Raise out_of_range, [])
  /\ isDDS "xxxxxxxxtex\a.dds" = true
  /\ Str.lower (Str.make_preferred (fs_absolute env "xxxxxxxxtex\a.dds"))
     = "c:\mods\xxxxxxxxtex\a.dds"%string
  /\ AssetPackage.findAsset Examples.package_one "xxxxxxxxtex\a.dds" = kNoAssetIdx env
  /\ exists packaged,
       PackagedAssetData.new Examples.package_one 0 = Ok packaged
       /\ findAsset env m "xxxxxxxxtex\a.dds"
          = (Ok (Some (AssetData_Packaged packaged)),
             [EvPackageFind "c:\mods\a.pkg" "tex\a.dds"; EvGetDataBlobDesc 100]).
Proof.
  cbv zeta. repeat (split; [reflexivity|]).
  eexists. split; reflexivity.
Qed.

(** the search order at work: [c:\mods\sub\] is mounted at priority 5
    and [c:\mods\] at priority 9; the package of the higher priority is
    asked first, with the longer relative path *)
Example findAsset_priority_first :
  let m := run_adds Examples.env_mods [(5, "c:\mods\sub"%string); (9, "c:\mods"%string)] in
  (findAsset Examples.env_mods m "c:\mods\sub\tex\a.dds").2
  = [EvPackageFind "c:\mods\a.pkg" "sub\tex\a.dds";
     EvPackageFind "c:\mods\a.pkg" "tex\a.dds"; EvGetDataBlobDesc 100].
Proof. reflexivity. Qed.

End FindAsset.

(** ** findAsset: the key of the package lookup *)

Section RelativeKey.
Import AssetDataManager SearchSpec.

(** the partial loader touches the file system only *)
Lemma load_events g fopen filename e :
  In e (DdsTextureData.load g fopen DdsTextureData.new filename).2 ->
  e = EvFopen filename.
Proof.
  assert (Hp : (DdsTextureData.load g fopen DdsTextureData.new filename).2
               = (DdsFileParser.parse g fopen DdsFileParser.new filename).2).
  { unfold DdsTextureData.load. simpl.
    destruct (DdsFileParser.parse g fopen DdsFileParser.new filename)
      as [[[[|]|e0] p] evs]; reflexivity. }
  rewrite Hp. clear Hp.
  destruct (String.eqb_spec filename "") as [->|Hname].
  { intros []. }
  destruct (fopen filename) as [f|em] eqn:Hopen.
  - rewrite (parse_opened g fopen filename f Hname Hopen).
    repeat match goal with |- context [if ?b then _ else _] => destruct b end;
      intros [<-|[]]; reflexivity.
  - unfold DdsFileParser.parse, DdsFileParser.openHandle. simpl.
    rewrite (eqb_empty_false _ Hname), Hopen.
    destruct em; intros [<-|[]]; reflexivity.
Qed.

Lemma dds_stage_events env filename name rel :
  ~ In (EvPackageFind name rel) (dds_stage env filename).2.
Proof.
  unfold dds_stage. destruct (usePartialDdsLoader env); [|intros []].
  pose proof (load_events (gli env) (fs_fopen env) filename (EvPackageFind name rel))
    as H.
  destruct (DdsTextureData.load (gli env) (fs_fopen env) DdsTextureData.new filename)
    as [[[[|]|e] dds] evs]; simpl in *; intros Hin; specialize (H Hin); discriminate.
Qed.

Lemma gli_fallback_events env filename name rel :
  ~ In (EvPackageFind name rel) (gli_fallback env filename).2.
Proof.
  unfold gli_fallback.
  destruct (GliTextureData.load (gli_load env) filename) as [[g|]|e]; simpl;
    intros H; repeat (destruct H as [H|H]; [discriminate H|]); exact H.
Qed.

(** every package lookup of [findAsset] is one of its package search *)
Lemma findAsset_lookups env m filename name rel :
  In (EvPackageFind name rel) (findAsset env m filename).2 ->
  RtxIo_enabled env = true
  /\ In (EvPackageFind name rel)
        (search_priorities env filename
           (Str.lower (Str.make_preferred (fs_absolute env filename)))
           (rev (m_packageSets m))).2.
Proof.
  unfold findAsset. destruct (isDDS filename); cbn [negb].
  2:{ destruct (suppressAssetLoadingErrors env); intros [H|[]]; discriminate H. }
  pose proof (dds_stage_events env filename name rel) as Hd.
  pose proof (gli_fallback_events env filename name rel) as Hg.
  destruct (dds_stage env filename) as [[r1|] evs1]; cbn [fst snd] in *;
    [intros H; contradiction|].
  assert (Hpkg : In (EvPackageFind name rel) (package_stage env m filename).2 ->
                 RtxIo_enabled env = true
                 /\ In (EvPackageFind name rel)
                      (search_priorities env filename
                         (Str.lower (Str.make_preferred (fs_absolute env filename)))
                         (rev (m_packageSets m))).2).
  { unfold package_stage. destruct (RtxIo_enabled env); [|intros []]. cbn [andb].
    destruct (negb _); [|intros []].
    destruct (search_priorities _ _ _ _) as [[[p|e]|] evs]; cbn [snd]; auto. }
  destruct (package_stage env m filename) as [[r2|] evs2]; cbn [fst snd] in *.
  - intros H. apply in_app_or in H as [H|H]; [contradiction | auto].
  - destruct (gli_fallback env filename) as [r3 evs3]. cbn [fst snd] in *.
    intros H. apply in_app_or in H as [H|H]; [contradiction|].
    apply in_app_or in H as [H|H]; [auto | contradiction].
Qed.

(** a search in which every matching base path is longer than the
    caller's string *)
Lemma search_entries_short env filename filenameLower entries :
  (forall base pkgs, In (base, pkgs) entries -> matches filenameLower base = true ->
                     (String.length filename < String.length base)%nat) ->
  search_entries env filename filenameLower entries
  = (if existsb (fun e : PackageEntry => matches filenameLower e.1) entries
     then Some (Raise out_of_range) else None, []).
Proof.
  induction entries as [|[base pkgs] entries IH]; intros Hshort; [reflexivity|].
  simpl. fold (matches filenameLower base).
  destruct (matches filenameLower base) eqn:Hm; simpl.
  - rewrite substr_out_of_range; [reflexivity|].
    apply (Hshort base pkgs); [left; reflexivity | exact Hm].
  - apply IH. intros b p Hin. apply (Hshort b p). right. exact Hin.
Qed.

Lemma search_priorities_short env filename filenameLower sets :
  (forall priority entries base pkgs,
     In (priority, entries) sets -> In (base, pkgs) entries ->
     matches filenameLower base = true ->
     (String.length filename < String.length base)%nat) ->
  search_priorities env filename filenameLower sets
  = (if existsb (fun pe : Z * list PackageEntry =>
                   existsb (fun e : PackageEntry => matches filenameLower e.1) pe.2) sets
     then Some (Raise out_of_range) else None, []).
Proof.
  induction sets as [|[priority entries] sets IH]; intros Hshort; [reflexivity|].
  cbn [search_priorities existsb snd].
  rewrite search_entries_short.
  2:{ intros b p Hin. apply (Hshort priority entries b p); [left; reflexivity|].
      apply in_rev. exact Hin. }
  unfold PackageEntry in *.
  assert (E : existsb (fun e : string * PackageSet => matches filenameLower e.1)
                      (rev entries)
              = existsb (fun e : string * PackageSet => matches filenameLower e.1) entries).
  { apply eq_true_iff_eq. rewrite !existsb_exists. split; intros (x & Hin & Hx);
      exists x; (split; [|exact Hx]); [apply in_rev | apply in_rev in Hin]; exact Hin. }
  rewrite E.
  destruct (existsb (fun e : string * PackageSet => matches filenameLower e.1) entries);
    [reflexivity|].
  cbn [orb]. rewrite IH; [reflexivity|].
  intros pr es b p Hin Hin'. apply (Hshort pr es b p); [right; exact Hin | exact Hin'].
Qed.

(** C10: in the package search of [findAsset] the match is made on the
    lowercase, preferred, absolute form of the filename, but the key
    handed to a package is cut out of the caller's own string at the
    length of the matching base path.  Every lookup [findAsset] makes has
    as its key a literal suffix of the caller's string (so its case and
    its separators are the caller's) behind as many characters as a
    registered base path that the normalized form strictly extends.  When
    the search takes place and the caller's string is long enough for the
    base paths it matches, the lookups are exactly those of the candidates
    in search order up to the first hit, each with that key.  The cut is
    in range exactly when the caller's string is at least as long as the
    base path; when every matching base path is longer, [findAsset]
    leaves with [out_of_range].  It is in range for every matching path
    when the absolute form has the length of the caller's string. *)
Theorem findAsset_relative_path_cut_from_original (env : Env) (m : t)
    (filename : string) :
  let filenameLower := Str.lower (Str.make_preferred (fs_absolute env filename)) in
  let cands := candidates filenameLower (m_packageSets m) in
  (forall name rel,
     In (EvPackageFind name rel) (findAsset env m filename).2 ->
     exists priority entries base pkgs pre,
       In (priority, entries) (m_packageSets m) /\ In (base, pkgs) entries
       /\ matches filenameLower base = true
       /\ filename = (pre ++ rel)%string
       /\ String.length pre = String.length base)
  /\ (isDDS filename = true ->
      forall evs1, dds_falls_through env filename evs1 ->
        RtxIo_enabled env = true -> m_packageSets m <> [] ->
        substr_in_range filename filenameLower (m_packageSets m) ->
        (findAsset env m filename).2
        = evs1 ++ probes env filename cands
          ++ (if existsb (contains env filename) cands then []
              else (gli_fallback env filename).2)
        /\ (forall c cs, cands = c :: cs ->
              In (EvPackageFind (c_name c)
                    (string_drop (String.length (p_basePath (c_path c))) filename))
                 (findAsset env m filename).2))
  /\ (isDDS filename = true ->
      forall evs1, dds_falls_through env filename evs1 ->
        RtxIo_enabled env = true ->
        (forall priority entries base pkgs,
           In (priority, entries) (m_packageSets m) -> In (base, pkgs) entries ->
           matches filenameLower base = true ->
           (String.length filename < String.length base)%nat) ->
        (exists priority entries base pkgs,
           In (priority, entries) (m_packageSets m) /\ In (base, pkgs) entries
           /\ matches filenameLower base = true) ->
        findAsset env m filename = (Raise out_of_range, evs1))
  /\ (forall base : string,
        (String.length base <= String.length filename)%nat
        <-> exists rel, Str.substr filename (String.length base) = Ok rel)
  /\ (String.length (fs_absolute env filename) = String.length filename ->
      substr_in_range filename filenameLower (m_packageSets m)).
Proof.
  intros filenameLower cands. split; [|split; [|split; [|split]]].
  - intros name rel H. apply findAsset_lookups in H as [_ H].
    apply search_priorities_events in H as (pr & es & base & pkgs & Hin & Hin' & Hm & Hs).
    apply substr_suffix in Hs as (pre & E & Hlen).
    exists pr, es, base, pkgs, pre. rewrite <- in_rev in Hin.
    repeat split; assumption.
  - intros Hgate evs1 Hfall Hio Hne Hr.
    assert (Hev : (findAsset env m filename).2
                  = evs1 ++ probes env filename cands
                    ++ (if existsb (contains env filename) cands then []
                        else (gli_fallback env filename).2)).
    { unfold findAsset. rewrite Hgate, (dds_stage_falls _ _ _ Hfall). cbn [negb].
      rewrite (package_stage_spec env m filename Hio Hne Hr).
      fold filenameLower cands. unfold first_hit.
      destruct (List.find (contains env filename) cands) as [c|] eqn:Hfind.
      - assert (Hex : existsb (contains env filename) cands = true).
        { apply existsb_exists. apply find_some in Hfind. eauto. }
        rewrite Hex, app_nil_r. reflexivity.
      - assert (Hex : existsb (contains env filename) cands = false).
        { destruct (existsb (contains env filename) cands) eqn:Hex; [|reflexivity].
          apply existsb_exists in Hex as (x & Hin & Hx).
          rewrite (find_none _ _ Hfind x Hin) in Hx. discriminate. }
        rewrite Hex. destruct (gli_fallback env filename). reflexivity. }
    split; [exact Hev|].
    intros c cs Hc. rewrite Hev, Hc. apply in_or_app. right.
    apply in_or_app. left. left. reflexivity.
  - intros Hgate evs1 Hfall Hio Hshort (pr & es & base & pkgs & Hin & Hin' & Hm).
    unfold findAsset. rewrite Hgate, (dds_stage_falls _ _ _ Hfall). cbn [negb].
    unfold package_stage. rewrite Hio.
    assert (Hne : negb (length (m_packageSets m) =? 0)%nat = true).
    { destruct (m_packageSets m); [destruct Hin | reflexivity]. }
    rewrite Hne. cbn [andb]. fold filenameLower.
    rewrite search_priorities_short.
    2:{ intros pr0 es0 b p H1 H2. apply (Hshort pr0 es0 b p); [|exact H2].
        apply in_rev. exact H1. }
    assert (Hex : existsb (fun pe : Z * list PackageEntry =>
                             existsb (fun e : PackageEntry => matches filenameLower e.1)
                                     pe.2) (rev (m_packageSets m)) = true).
    { apply existsb_exists. exists (pr, es). split; [apply in_rev in Hin; exact Hin|].
      apply existsb_exists. exists (base, pkgs). split; [exact Hin' | exact Hm]. }
    rewrite Hex, app_nil_r. reflexivity.
  - intros base. split.
    + intros H. eexists. apply substr_in_range_ok, H.
    + intros [rel H].
      destruct (Nat.le_gt_cases (String.length base) (String.length filename)) as [Hle|Hgt];
        [exact Hle|].
      rewrite substr_out_of_range in H by exact Hgt. discriminate.
  - intros Hlen. apply same_length_in_range. exact Hlen.
Qed.

Lemma findAsset_relative_path_cut_from_original_witness :
  let m := (addSearchPath Examples.env_mods new 0 "C:\Mods").1 in
  Str.lower (Str.make_preferred (fs_absolute Examples.env_mods "C:/Mods/Tex\A.dds"))
  = "c:\mods\tex\a.dds"%string
  /\ (findAsset Examples.env_mods m "C:/Mods/Tex\A.dds").2
     = [EvPackageFind "c:\mods\a.pkg" "Tex\A.dds"; EvGliLoad "C:/Mods/Tex\A.dds"]
  /\ findAsset Examples.env_mods m "a.dds" = (Raise out_of_range, []).
Proof.
  cbv zeta. split; [reflexivity|].
  destruct (findAsset_relative_path_cut_from_original Examples.env_mods
              (addSearchPath Examples.env_mods new 0 "C:\Mods").1 "C:/Mods/Tex\A.dds")
    as (_ & H2 & _ & _ & H5).
  destruct (H2 eq_refl [] (or_introl (conj eq_refl eq_refl)) eq_refl
              ltac:(discriminate) (H5 eq_refl)) as (Hev & _).
  split; [rewrite Hev; reflexivity|].
  destruct (findAsset_relative_path_cut_from_original Examples.env_mods
              (addSearchPath Examples.env_mods new 0 "C:\Mods").1 "a.dds")
    as (_ & _ & H3 & _).
  apply (H3 eq_refl [] (or_introl (conj eq_refl eq_refl)) eq_refl).
  - intros pr es base pkgs [[= <- <-]|[]] [[= <- <-]|[]] _. simpl. lia.
  - exists 0, [("c:\mods\"%string, [("c:\mods\a.pkg"%string, Examples.package_one)])],
      "c:\mods\"%string, [("c:\mods\a.pkg"%string, Examples.package_one)].
    split; [left; reflexivity|]. split; [left; reflexivity | reflexivity].
Defined.

End RelativeKey.

(** ** DdsFileParser: the handle, and the other outcomes of parse *)

Section ParserExtras.
Import Int DdsFileParser DdsSpec.

Lemma set_file_none_id p : m_file p = None -> set_file p None = p.
Proof. destruct p. simpl. intros ->. reflexivity. Qed.

(** X1: the parser holds at most one handle.  From the closed state
    [openHandle] opens the file once; a second [openHandle] returns the
    handle it holds without touching the file system; [closeHandle] gives
    the closed state back and closing twice is closing once. *)
Theorem openHandle_closeHandle_cycle (fopen : string -> fopen_result) (p : t)
    (f : DdsFile) :
  m_filename p <> ""%string ->
  fopen (m_filename p) = Opened f ->
  let r1 := openHandle fopen (closeHandle p) in
  let r2 := openHandle fopen r1.1.2 in
  r1.1.1 = Ok (Some f) /\ r1.2 = [EvFopen (m_filename p)]
  /\ m_file r1.1.2 = Some f
  /\ r2 = (Ok (Some f), r1.1.2, [])
  /\ closeHandle r1.1.2 = closeHandle p
  /\ closeHandle (closeHandle p) = closeHandle p
  /\ m_file (closeHandle p) = None.
Proof.
  intros Hname Hopen.
  assert (Hclosed : m_file (closeHandle p) = None).
  { unfold closeHandle. destruct (m_file p) eqn:E; [reflexivity | exact E]. }
  assert (Hfn : m_filename (closeHandle p) = m_filename p).
  { unfold closeHandle. destruct (m_file p); reflexivity. }
  assert (E1 : openHandle fopen (closeHandle p)
               = (Ok (Some f), set_file (closeHandle p) (Some f),
                  [EvFopen (m_filename p)])).
  { unfold openHandle. rewrite Hfn, Hclosed, (eqb_empty_false _ Hname), Hopen.
    reflexivity. }
  cbv zeta. rewrite E1. simpl.
  split; [reflexivity|]. split; [reflexivity|]. split; [reflexivity|].
  split; [|split; [|split; [|exact Hclosed]]].
  - unfold openHandle. simpl. rewrite Hfn, (eqb_empty_false _ Hname). reflexivity.
  - unfold closeHandle at 1. simpl.
    rewrite <- (set_file_none_id (closeHandle p) Hclosed) at 2. reflexivity.
  - unfold closeHandle at 1. rewrite Hclosed. reflexivity.
Qed.

Lemma openHandle_closeHandle_cycle_witness :
  let p := (parse Examples.gli_dds (fun _ => Opened Examples.bad_magic_file) new "t.dds").1.2 in
  m_file p = Some Examples.bad_magic_file
  /\ (openHandle (fun _ => Opened Examples.bc1_file) (closeHandle p)).2 = [EvFopen "t.dds"]
  /\ m_file (closeHandle p) = None.
Proof.
  cbv zeta. split; [reflexivity|].
  destruct (openHandle_closeHandle_cycle (fun _ => Opened Examples.bc1_file)
              (parse Examples.gli_dds (fun _ => Opened Examples.bad_magic_file)
                 new "t.dds").1.2 Examples.bc1_file)
    as (_ & H2 & _ & _ & _ & _ & H7); [discriminate | reflexivity |].
  split; [exact H2 | exact H7].
Defined.

Lemma header_accepted_iff g f :
  header_accepted g f = true
  <-> too_short_for_header g f = false /\ magic_mismatch g f = false
      /\ too_short_for_header10 g f = false.
Proof.
  split; [apply header_accepted_true|].
  unfold header_accepted. intros (-> & -> & ->). reflexivity.
Qed.

Lemma parsed_slots g filename f :
  0 <= levels g f <= 16 ->
  length (m_levelSizes (parsed g filename f)) = 16%nat
  /\ (forall i, 0 <= i < levels g f ->
        m_levelSizes (parsed g filename f) !! Z.to_nat i
        = Some (levelSize g (file_header f) (format g f) i))
  /\ (forall i, levels g f <= i < 16 ->
        m_levelSizes (parsed g filename f) !! Z.to_nat i = Some 0).
Proof.
  intros Hl. pose proof (levelSizes_length g f ltac:(lia)) as Hlen.
  change (m_levelSizes (parsed g filename f))
    with (levelSizes g f ++ drop (length (levelSizes g f)) (replicate 16 0)).
  split; [|split].
  - rewrite length_app, length_drop, length_replicate. lia.
  - intros i Hi. rewrite lookup_app_l by lia.
    unfold levelSizes. rewrite list_lookup_fmap, lookup_seqZ_lt by lia.
    simpl. f_equal. f_equal. lia.
  - intros i Hi. rewrite lookup_app_r by lia. rewrite lookup_drop.
    apply lookup_replicate_2. lia.
Qed.

(** X2: [parse] returns true exactly when the file opens, is long
    enough for its headers, starts with the magic, declares at most 16
    levels and passes the payload guard.  It then leaves the handle
    closed, the data offset at the end of the headers that were read, the
    first [m_levels] slots of the size array filled with the level sizes,
    the remaining slots zero and their wrapped sum in
    [m_sizeOfAllLevels]; its only file-system call is the one [fopen]. *)
Theorem parse_true_iff (g : Gli.t) (fopen : string -> fopen_result)
    (filename : string) :
  ((parse g fopen new filename).1.1 = Ok true
   <-> filename <> ""%string
       /\ exists f, fopen filename = Opened f
            /\ header_accepted g f = true /\ levels_fit g f = true
            /\ payload_exceeds_file g f = false)
  /\ (forall f, fopen filename = Opened f ->
        (parse g fopen new filename).1.1 = Ok true ->
        let p := (parse g fopen new filename).1.2 in
        m_file p = None
        /\ (parse g fopen new filename).2 = [EvFopen filename]
        /\ m_filename p = filename /\ m_fileSize p = file_size f
        /\ m_dataOffset p = dataOffset g f
        /\ 0 <= m_levels p <= 16
        /\ length (m_levelSizes p) = 16%nat
        /\ (forall i, 0 <= i < m_levels p ->
              m_levelSizes p !! Z.to_nat i
              = Some (levelSize g (file_header f) (m_format p) i))
        /\ (forall i, m_levels p <= i < 16 -> m_levelSizes p !! Z.to_nat i = Some 0)
        /\ m_sizeOfAllLevels p = u64 (sum (levelSizes g f))).
Proof.
  split.
  - destruct (String.eqb_spec filename "") as [->|Hname].
    { rewrite parse_empty_filename. split; [discriminate|]. intros [H _]. congruence. }
    destruct (fopen filename) as [f|emfile] eqn:Hopen.
    + rewrite (parse_opened g fopen filename f Hname Hopen).
      split.
      * intros H. split; [exact Hname|]. exists f. split; [reflexivity|].
        rewrite header_accepted_iff.
        destruct (too_short_for_header g f); [discriminate|].
        destruct (magic_mismatch g f); [discriminate|].
        destruct (too_short_for_header10 g f); [discriminate|].
        destruct (levels_fit g f); [|discriminate]. simpl in H.
        destruct (payload_exceeds_file g f); [discriminate|]. auto.
      * intros (_ & f' & [= <-] & Hacc & Hfit & Hpay).
        apply header_accepted_iff in Hacc as (-> & -> & ->).
        rewrite Hfit, Hpay. reflexivity.
    + rewrite (parse_not_opened g fopen filename emfile Hname Hopen). split.
      * destruct emfile; discriminate.
      * intros (_ & f & H & _). discriminate.
  - intros f Hopen Htrue p.
    pose proof (parse_returns_nonempty _ _ _ _ Htrue) as Hname.
    destruct (parse_true_state g fopen filename f Hopen Htrue) as (E & Hfit & Hpay).
    pose proof (levels_fit_range g f Hfit) as Hl.
    destruct (parsed_slots g filename f Hl) as (H1 & H2 & H3).
    assert (Hev : (parse g fopen new filename).2 = [EvFopen filename]).
    { rewrite (parse_opened g fopen filename f Hname Hopen).
      destruct (too_short_for_header g f); [reflexivity|].
      destruct (magic_mismatch g f); [reflexivity|].
      destruct (too_short_for_header10 g f); [reflexivity|].
      destruct (negb (levels_fit g f)); [reflexivity|].
      destruct (payload_exceeds_file g f); reflexivity. }
    subst p. rewrite E. repeat split; try assumption; try reflexivity; apply Hl.
Qed.

Lemma parse_true_iff_witness :
  (parse Examples.gli_dds (fun _ => Opened Examples.bc1_file) new "t.dds").1.1 = Ok true
  /\ m_levelSizes (parse Examples.gli_dds (fun _ => Opened Examples.bc1_file)
                     new "t.dds").1.2 !! 9%nat = Some 0.
Proof.
  destruct (parse_true_iff Examples.gli_dds (fun _ => Opened Examples.bc1_file) "t.dds")
    as [H1 H2].
  assert (Htrue : (parse Examples.gli_dds (fun _ => Opened Examples.bc1_file)
                     new "t.dds").1.1 = Ok true).
  { apply H1. split; [discriminate|]. exists Examples.bc1_file.
    repeat split; reflexivity. }
  split; [exact Htrue|].
  destruct (H2 Examples.bc1_file eq_refl Htrue) as (_ & _ & _ & _ & _ & _ & _ & _ & H & _).
  apply (H 9). vm_compute. split; [discriminate | reflexivity].
Defined.

(** X3: [parse] leaves by an exception in three situations only: an
    empty filename (assertion of [openHandle]), a failed [fopen] with
    [EMFILE] (DxvkError), and an accepted header that declares more
    levels than the size array holds (assertion); in the last one the
    file handle is still held when the exception leaves. *)
Theorem parse_raise_iff (g : Gli.t) (fopen : string -> fopen_result)
    (filename : string) (e : exn) :
  ((parse g fopen new filename).1.1 = Raise e
   <-> (filename = ""%string /\ e = AssertionFailure "DDS filename cannot be empty")
       \/ (filename <> ""%string /\ fopen filename = OpenFailed true
           /\ e = DxvkError "Unable to open a DDS file: too many open files.")
       \/ (filename <> ""%string
           /\ exists f, fopen filename = Opened f
                /\ header_accepted g f = true /\ levels_fit g f = false
                /\ e = AssertionFailure assert_message))
  /\ (forall f, filename <> ""%string -> fopen filename = Opened f ->
        header_accepted g f = true -> levels_fit g f = false ->
        m_file (parse g fopen new filename).1.2 = Some f).
Proof.
  split.
  - destruct (String.eqb_spec filename "") as [->|Hname].
    { rewrite parse_empty_filename. split.
      - intros [= <-]. left. auto.
      - intros [[_ ->]|[(H & _)|(H & _)]]; congruence. }
    destruct (fopen filename) as [f|emfile] eqn:Hopen.
    + rewrite (parse_opened g fopen filename f Hname Hopen). split.
      * intros H. right. right. split; [exact Hname|]. exists f.
        split; [reflexivity|]. rewrite header_accepted_iff.
        destruct (too_short_for_header g f); [discriminate|].
        destruct (magic_mismatch g f); [discriminate|].
        destruct (too_short_for_header10 g f); [discriminate|].
        destruct (levels_fit g f); simpl in H.
        -- destruct (payload_exceeds_file g f); discriminate.
        -- injection H as <-. auto.
      * intros [[H _]|[(_ & H & _)|(_ & f' & [= <-] & Hacc & Hfit & ->)]];
          [contradiction | discriminate |].
        apply header_accepted_iff in Hacc as (-> & -> & ->).
        rewrite Hfit. reflexivity.
    + rewrite (parse_not_opened g fopen filename emfile Hname Hopen). split.
      * destruct emfile; [|discriminate]. intros [= <-]. right. left. auto.
      * intros [[H _]|[(_ & [= ->] & ->)|(_ & f & H & _)]];
          [contradiction | reflexivity | discriminate].
  - intros f Hname Hopen Hacc Hfit.
    rewrite (parse_opened g fopen filename f Hname Hopen).
    apply header_accepted_iff in Hacc as (-> & -> & ->).
    rewrite Hfit. reflexivity.
Qed.

Lemma parse_raise_iff_witness :
  (parse Examples.gli_dds (fun _ => OpenFailed true) new "t.dds").1.1
  = Raise (DxvkError "Unable to open a DDS file: too many open files.")
  /\ m_file (parse Examples.gli_dds (fun _ => Opened Examples.levels17_file)
               new "t.dds").1.2 = Some Examples.levels17_file.
Proof.
  destruct (parse_raise_iff Examples.gli_dds (fun _ => OpenFailed true) "t.dds"
              (DxvkError "Unable to open a DDS file: too many open files.")) as [H _].
  destruct (parse_raise_iff Examples.gli_dds (fun _ => Opened Examples.levels17_file)
              "t.dds" ArrayOverrun) as [_ H'].
  split.
  - apply H. right. left. repeat split. discriminate.
  - apply H'; [discriminate | reflexivity | reflexivity | reflexivity].
Defined.

End ParserExtras.

(** ** DdsTextureData: data, releaseSource, load *)

Section DdsExtras.
Import Int DdsFileParser DdsSpec.

Lemma closeHandle_placement p layer face level :
  getDataPlacement (closeHandle p) layer face level = getDataPlacement p layer face level.
Proof. unfold closeHandle. destruct p as [? ? ? ? ? ? ? ? ? ? ? ? [f|]]; reflexivity. Qed.

(** a call that returns a pointer leaves the file mapped *)
Lemma data_pointer_mapped (map_file : string -> map_result) (d : DdsTextureData.t)
    (layer level off : Z) :
  (DdsTextureData.data map_file d layer level).1.1 = Ok (Some off) ->
  DdsTextureData.m_mapped (DdsTextureData.data map_file d layer level).1.2 = true.
Proof.
  unfold DdsTextureData.data.
  destruct (getDataPlacement _ layer 0 level) as [[o s]|e]; [|discriminate].
  destruct (_ <? _); [discriminate|].
  destruct (DdsTextureData.m_mapped d) eqn:Hm; [intros _; exact Hm|].
  destruct (map_file _); try discriminate. reflexivity.
Qed.

(** a negative [long] converted to [size_t] *)
Lemma u64_negative z : - 2 ^ 64 <= z < 0 -> u64 z = z + 2 ^ 64.
Proof.
  intros H. unfold u64. rewrite <- (Z_mod_plus_full z 1 (2 ^ 64)).
  apply Z.mod_small. lia.
Qed.

(** X4: the size check of [data] as the code makes it, in [size_t].  A
    returned pointer designates the placement of (layer, 0, level), the
    one [placement] reports for face 0; the offset converted to [size_t]
    plus the size, modulo 2^64, is then at most the file size, and the
    file is mapped.  A placement that fails this check gives null and the
    corruption warning, without a mapping attempt and with the object
    unchanged.  [data] never changes the parser or the info.  The check
    bounds the region by the file only when the offset is not negative
    and the sum does not wrap: a negative offset whose size brings the
    sum back to at most the file size passes it without a warning, and
    the pointer returned lies before the mapping. *)
Theorem dds_data_size_check (map_file : string -> map_result)
    (d : DdsTextureData.t) (layer level : Z) :
  let r := DdsTextureData.data map_file d layer level in
  (forall off,
     r.1.1 = Ok (Some off) ->
     exists size,
       getDataPlacement (DdsTextureData.parser d) layer 0 level = Ok (off, size)
       /\ DdsTextureData.placement d layer 0 level = Ok (u64 off, size)
       /\ u64 (u64 off + size) <= u64 (m_fileSize (DdsTextureData.parser d))
       /\ (0 <= off -> 0 <= size -> off + size < 2 ^ 64 ->
           0 <= m_fileSize (DdsTextureData.parser d) < 2 ^ 64 ->
           off + size <= m_fileSize (DdsTextureData.parser d))
       /\ DdsTextureData.m_mapped r.1.2 = true)
  /\ (forall off size,
        getDataPlacement (DdsTextureData.parser d) layer 0 level = Ok (off, size) ->
        u64 (m_fileSize (DdsTextureData.parser d)) < u64 (u64 off + size) ->
        r = (Ok None, d,
             [LogWarn ("Corrupted DDS file discovered: "
                       ++ m_filename (DdsTextureData.parser d))]))
  /\ (forall off size,
        getDataPlacement (DdsTextureData.parser d) layer 0 level = Ok (off, size) ->
        - 2 ^ 31 <= off < 0 ->
        0 <= off + size <= m_fileSize (DdsTextureData.parser d) ->
        m_fileSize (DdsTextureData.parser d) < 2 ^ 64 ->
        r.2 = []
        /\ (DdsTextureData.m_mapped d = true
            \/ map_file (m_filename (DdsTextureData.parser d)) = Mapped ->
            r.1.1 = Ok (Some off)))
  /\ DdsTextureData.parser r.1.2 = DdsTextureData.parser d
  /\ DdsTextureData.m_info r.1.2 = DdsTextureData.m_info d.
Proof.
  cbv zeta. split; [|split; [|split; [|split]]].
  - intros off Hret.
    pose proof (data_pointer_mapped map_file d layer level off Hret) as Hm.
    revert Hret Hm. unfold DdsTextureData.data, DdsTextureData.placement.
    destruct (getDataPlacement (DdsTextureData.parser d) layer 0 level)
      as [[dataOffset dataSize]|e]; [|discriminate].
    destruct (Z.ltb_spec (u64 (m_fileSize (DdsTextureData.parser d)))
                         (u64 (u64 dataOffset + dataSize))) as [Hlt|Hge];
      [discriminate|].
    intros Hret Hm.
    assert (E : dataOffset = off).
    { destruct (DdsTextureData.m_mapped d); [simpl in Hret; congruence|].
      destruct (map_file _); simpl in Hret; try discriminate Hret. congruence. }
    subst dataOffset. exists dataSize.
    split; [reflexivity|]. split; [reflexivity|]. split; [exact Hge|].
    split; [|exact Hm].
    intros H0 H1 H2 H3.
    rewrite (u64_small (m_fileSize _)) in Hge by lia.
    rewrite (u64_small off) in Hge by lia.
    rewrite u64_small in Hge by lia. exact Hge.
  - intros off size Hpl Hlt. unfold DdsTextureData.data. rewrite Hpl.
    destruct (Z.ltb_spec (u64 (m_fileSize (DdsTextureData.parser d)))
                         (u64 (u64 off + size))); [reflexivity | lia].
  - intros off size Hpl Hoff Hsum Hfs. unfold DdsTextureData.data. rewrite Hpl.
    assert (Hcheck : u64 (u64 off + size) <= u64 (m_fileSize (DdsTextureData.parser d))).
    { rewrite (u64_negative off) by lia.
      replace (off + 2 ^ 64 + size) with (off + size + 1 * 2 ^ 64) by lia.
      unfold u64 at 1. rewrite Z_mod_plus_full, Z.mod_small by lia.
      rewrite u64_small by lia. lia. }
    destruct (Z.ltb_spec (u64 (m_fileSize (DdsTextureData.parser d)))
                         (u64 (u64 off + size))); [lia|].
    destruct (DdsTextureData.m_mapped d).
    + split; [reflexivity | intros _; reflexivity].
    + destruct (map_file _); (split; [reflexivity|]);
        intros [Hm|Hm]; try discriminate Hm; reflexivity.
  - unfold DdsTextureData.data.
    destruct (getDataPlacement _ layer 0 level) as [[o s0]|e]; [|reflexivity].
    destruct (_ <? _); [reflexivity|].
    destruct (DdsTextureData.m_mapped d); [reflexivity|].
    destruct (map_file _); reflexivity.
  - unfold DdsTextureData.data.
    destruct (getDataPlacement _ layer 0 level) as [[o s0]|e]; [|reflexivity].
    destruct (_ <? _); [reflexivity|].
    destruct (DdsTextureData.m_mapped d); [reflexivity|].
    destruct (map_file _); reflexivity.
Qed.

Lemma dds_data_size_check_witness :
  let d := (DdsTextureData.load Examples.gli_dds (fun _ => Opened NegativeOffset.file)
              DdsTextureData.new "n.dds").1.2 in
  (DdsTextureData.load Examples.gli_dds (fun _ => Opened NegativeOffset.file)
     DdsTextureData.new "n.dds").1.1 = Ok true
  /\ m_fileSize (DdsTextureData.parser d) = 148
  /\ getDataPlacement (DdsTextureData.parser d) 0 0 1 = Ok (-858993324, 858993456)
  /\ (DdsTextureData.data (fun _ => Mapped) d 0 1).2 = []
  /\ (DdsTextureData.data (fun _ => Mapped) d 0 1).1.1 = Ok (Some (-858993324)).
Proof.
  cbv zeta.
  assert (H1 : getDataPlacement
                 (DdsTextureData.parser
                    (DdsTextureData.load Examples.gli_dds
                       (fun _ => Opened NegativeOffset.file)
                       DdsTextureData.new "n.dds").1.2) 0 0 1
               = Ok (-858993324, 858993456))
    by (vm_compute; reflexivity).
  split; [vm_compute; reflexivity|]. split; [vm_compute; reflexivity|].
  split; [exact H1|].
  destruct (dds_data_size_check (fun _ => Mapped)
              (DdsTextureData.load Examples.gli_dds
                 (fun _ => Opened NegativeOffset.file)
                 DdsTextureData.new "n.dds").1.2 0 1) as (_ & _ & H & _).
  destruct (H (-858993324) 858993456 H1 ltac:(lia)
              ltac:(vm_compute; split; discriminate) ltac:(vm_compute; reflexivity))
    as (Hev & Hptr).
  split; [exact Hev|]. apply Hptr. right. reflexivity.
Defined.

(** X5: the file is mapped lazily and once ([map_file] stands for the
    three mapping calls of the operating system).  While the mapping is held
    [data] does not depend on the operating system and leaves the object
    as it is; a call that returns a pointer leaves the mapping held; a
    failed mapping gives null and leaves the object unmapped, so that the
    next call tries again. *)
Theorem dds_data_maps_once (map_file map_file' : string -> map_result)
    (d : DdsTextureData.t) (layer level : Z) :
  let r := DdsTextureData.data map_file d layer level in
  (DdsTextureData.m_mapped d = true ->
     DdsTextureData.data map_file d layer level
     = DdsTextureData.data map_file' d layer level
     /\ r.1.2 = d)
  /\ (forall off layer' level',
        r.1.1 = Ok (Some off) ->
        DdsTextureData.m_mapped r.1.2 = true
        /\ DdsTextureData.data map_file' r.1.2 layer' level'
           = DdsTextureData.data map_file r.1.2 layer' level')
  /\ (DdsTextureData.m_mapped d = false ->
      map_file (m_filename (DdsTextureData.parser d)) <> Mapped ->
      (forall off, r.1.1 <> Ok (Some off)) /\ r.1.2 = d)
  /\ (DdsTextureData.m_mapped r.1.2 = true ->
      DdsTextureData.m_mapped d = true
      \/ map_file (m_filename (DdsTextureData.parser d)) = Mapped).
Proof.
  assert (Hindep : forall d0 l v, DdsTextureData.m_mapped d0 = true ->
            DdsTextureData.data map_file d0 l v = DdsTextureData.data map_file' d0 l v
            /\ (DdsTextureData.data map_file d0 l v).1.2 = d0).
  { intros d0 l v Hm. unfold DdsTextureData.data.
    destruct (getDataPlacement _ l 0 v) as [[o s]|e]; [|split; reflexivity].
    destruct (_ <? _); [split; reflexivity|]. rewrite Hm. split; reflexivity. }
  cbv zeta. split; [apply Hindep|]. split; [|split].
  - intros off layer' level' Hret.
    assert (Hm : DdsTextureData.m_mapped
                   (DdsTextureData.data map_file d layer level).1.2 = true).
    { exact (data_pointer_mapped map_file d layer level off Hret). }
    split; [exact Hm|]. symmetry. apply Hindep. exact Hm.
  - intros Hm Hfail. unfold DdsTextureData.data.
    destruct (getDataPlacement _ layer 0 level) as [[o s]|e];
      [|split; [discriminate | reflexivity]].
    destruct (_ <? _); [split; [discriminate | reflexivity]|]. rewrite Hm.
    destruct (map_file _); try contradiction; split; try discriminate; reflexivity.
  - unfold DdsTextureData.data.
    destruct (getDataPlacement _ layer 0 level) as [[o s]|e]; simpl; [|auto].
    destruct (_ <? _); simpl; [auto|].
    destruct (DdsTextureData.m_mapped d) eqn:Hm; simpl; [auto|].
    destruct (map_file _); simpl; auto; rewrite Hm; discriminate.
Qed.

Lemma dds_data_maps_once_witness :
  let d := (DdsTextureData.load Examples.gli_dds (fun _ => Opened Examples.bc1_file)
              DdsTextureData.new "t.dds").1.2 in
  let d1 := (DdsTextureData.data (fun _ => Mapped) d 0 2).1.2 in
  (DdsTextureData.data (fun _ => Mapped) d 0 2).1.1 = Ok (Some (148 + 32768 + 8192))
  /\ DdsTextureData.m_mapped d1 = true
  /\ DdsTextureData.data (fun _ => CreateFile_failed) d1 0 0
     = DdsTextureData.data (fun _ => Mapped) d1 0 0.
Proof.
  cbv zeta.
  assert (H : (DdsTextureData.data (fun _ => Mapped)
                 (DdsTextureData.load Examples.gli_dds (fun _ => Opened Examples.bc1_file)
                    DdsTextureData.new "t.dds").1.2 0 2).1.1
              = Ok (Some (148 + 32768 + 8192))) by (vm_compute; reflexivity).
  split; [exact H|].
  destruct (dds_data_maps_once (fun _ => Mapped) (fun _ => CreateFile_failed)
              (DdsTextureData.load Examples.gli_dds (fun _ => Opened Examples.bc1_file)
                 DdsTextureData.new "t.dds").1.2 0 2) as (_ & H2 & _).
  exact (H2 _ 0 0 H).
Defined.

(** X6: [releaseSource] can be called any number of times: the second
    call changes nothing.  It leaves no mapping and no file handle, keeps
    the info and every placement, and the next [data] maps the file
    again: it returns the same pointer offset when the mapping succeeds
    and null when it does not. *)
Theorem dds_releaseSource_idempotent (map_file : string -> map_result)
    (d : DdsTextureData.t) (layer face level : Z) :
  let d' := DdsTextureData.releaseSource d in
  DdsTextureData.releaseSource d' = d'
  /\ DdsTextureData.m_mapped d' = false
  /\ m_file (DdsTextureData.parser d') = None
  /\ DdsTextureData.m_info d' = DdsTextureData.m_info d
  /\ DdsTextureData.placement d' layer face level
     = DdsTextureData.placement d layer face level
  /\ (forall off,
        (DdsTextureData.data (fun _ => Mapped) d layer level).1.1 = Ok (Some off) ->
        (DdsTextureData.data map_file d' layer level).1.1
        = match map_file (m_filename (DdsTextureData.parser d)) with
          | Mapped => Ok (Some off)
          | _ => Ok None
          end).
Proof.
  cbv zeta.
  assert (Hclosed : m_file (closeHandle (DdsTextureData.parser d)) = None).
  { unfold closeHandle. destruct (m_file (DdsTextureData.parser d)) eqn:E;
      [reflexivity | exact E]. }
  split; [|split; [reflexivity | split; [exact Hclosed | split; [reflexivity | split]]]].
  - unfold DdsTextureData.releaseSource. simpl. f_equal.
    unfold closeHandle at 1. rewrite Hclosed. reflexivity.
  - unfold DdsTextureData.placement, DdsTextureData.releaseSource. simpl.
    rewrite closeHandle_placement. reflexivity.
  - intros off. unfold DdsTextureData.data, DdsTextureData.releaseSource. simpl.
    rewrite closeHandle_placement.
    assert (Hsz : m_fileSize (closeHandle (DdsTextureData.parser d))
                  = m_fileSize (DdsTextureData.parser d)).
    { destruct (DdsTextureData.parser d) as [? ? ? ? ? ? ? ? ? ? ? ? [f|]]; reflexivity. }
    assert (Hfn : m_filename (closeHandle (DdsTextureData.parser d))
                  = m_filename (DdsTextureData.parser d)).
    { destruct (DdsTextureData.parser d) as [? ? ? ? ? ? ? ? ? ? ? ? [f|]]; reflexivity. }
    rewrite Hsz, Hfn.
    destruct (getDataPlacement _ layer 0 level) as [[o s]|e]; [|discriminate].
    destruct (_ <? _); [discriminate|].
    destruct (DdsTextureData.m_mapped d); simpl; intros [= <-];
      destruct (map_file _); reflexivity.
Qed.

Lemma dds_releaseSource_idempotent_witness :
  let d := (DdsTextureData.data (fun _ => Mapped)
              (DdsTextureData.load Examples.gli_dds (fun _ => Opened Examples.bc1_file)
                 DdsTextureData.new "t.dds").1.2 0 1).1.2 in
  DdsTextureData.m_mapped d = true
  /\ DdsTextureData.m_mapped (DdsTextureData.releaseSource d) = false
  /\ (DdsTextureData.data (fun _ => MapViewOfFile_failed)
        (DdsTextureData.releaseSource d) 0 1).1.1 = Ok None.
Proof.
  cbv zeta. split; [vm_compute; reflexivity|].
  destruct (dds_releaseSource_idempotent (fun _ => MapViewOfFile_failed)
              (DdsTextureData.data (fun _ => Mapped)
                 (DdsTextureData.load Examples.gli_dds (fun _ => Opened Examples.bc1_file)
                    DdsTextureData.new "t.dds").1.2 0 1).1.2 0 0 1)
    as (_ & Hm & _ & _ & _ & H).
  split; [exact Hm|].
  apply (H (148 + 32768)). vm_compute. reflexivity.
Defined.

Lemma load_true_state g fopen filename f :
  fopen filename = Opened f ->
  (DdsTextureData.load g fopen DdsTextureData.new filename).1.1 = Ok true ->
  (DdsTextureData.load g fopen DdsTextureData.new filename).1.2
  = DdsTextureData.mk (parsed g filename f) false
      (Some (mkInfo (DdsTextureData.type (parsed g filename f)) Compression_None
               (format g f)
               (mkExtent (Gli.Width (file_header f)) (Gli.Height (file_header f))
                         (depth g f))
               (levels g f) (Z.min kMipLevelsToCache (levels g f)) (layers g f)
               filename))
  /\ levels_fit g f = true /\ payload_exceeds_file g f = false.
Proof.
  intros Hopen Htrue.
  assert (Hp : (parse g fopen new filename).1.1 = Ok true).
  { revert Htrue. unfold DdsTextureData.load. simpl.
    destruct (parse g fopen new filename) as [[[[|]|e] p] evs]; simpl; congruence. }
  destruct (parse_true_state g fopen filename f Hopen Hp) as (E & Hfit & Hg).
  split; [|auto].
  unfold DdsTextureData.load. simpl.
  destruct (parse g fopen new filename) as [[r p] evs]. simpl in Hp, E. subst r p.
  reflexivity.
Qed.





End DdsExtras.

(** ** PackagedAssetData: constructor, placement, shared blobs *)

Section PackagedExtras.
Import Int PackagedAssetData.

Lemma type_ok_iff (d : AssetDesc.t) :
  (exists ty, type d = Ok ty) <-> AssetDesc.type d <> UNKNOWN.
Proof.
  unfold type. destruct (AssetDesc.type d); split; intros H; eauto;
    try discriminate; try (destruct H; discriminate); congruence.
Qed.

(** a successful [data] leaves the bytes it returned in the cache *)
Lemma data_returns_cached (a : t) (layer level : Z) (bytes : list Z) :
  (data a layer level).1.1 = Ok (Some bytes) ->
  m_data (data a layer level).1.2 !! getBlobIndex (m_assetDesc a) layer 0 level
  = Some bytes
  /\ m_assetDesc (data a layer level).1.2 = m_assetDesc a
  /\ m_package (data a layer level).1.2 = m_package a.
Proof.
  unfold data. set (i := getBlobIndex (m_assetDesc a) layer 0 level).
  destruct (m_data a !! i) as [c|] eqn:Hc; simpl.
  - intros [= <-]. auto.
  - destruct (AssetPackage.getDataBlobDesc (m_package a) i) as [bd|]; simpl;
      [|discriminate].
    destruct (BlobDesc.compression bd =? 0); simpl; [|discriminate].
    intros [= <-]. rewrite lookup_insert_eq. auto.
Qed.



(** X10: [placement] and [data] agree on the blob.  For an asset that
    is not a cube [placement] ignores its face argument; it fails its
    assertion exactly when the blob has no descriptor, which is when an
    uncached [data] for face 0 returns null; the bytes an uncached [data]
    returns are the blob read with the size [placement] reports; and
    neither [data] nor [evictCache] changes any placement. *)
Theorem packaged_placement_and_data (a : t) (layer face level : Z) :
  let blobIdx := getBlobIndex (m_assetDesc a) layer 0 level in
  (AssetDesc.type (m_assetDesc a) <> IMAGE_CUBE ->
   placement a layer face level = placement a layer 0 level)
  /\ (placement a layer 0 level = Raise (AssertionFailure "Data blob was not found!")
      <-> AssetPackage.getDataBlobDesc (m_package a) blobIdx = None)
  /\ (m_data a !! blobIdx = None ->
      ((data a layer level).1.1 = Ok None
       <-> placement a layer 0 level = Raise (AssertionFailure "Data blob was not found!"))
      /\ (forall bytes, (data a layer level).1.1 = Ok (Some bytes) ->
          exists offset size,
            placement a layer 0 level = Ok (offset, size)
            /\ bytes = AssetPackage.readDataBlob (m_package a) blobIdx size))
  /\ (forall l f v,
        placement (data a layer level).1.2 l f v = placement a l f v
        /\ placement (evictCache a layer level) l f v = placement a l f v).
Proof.
  cbv zeta. split; [|split; [|split]].
  - intros Hcube. unfold placement, getBlobIndex.
    destruct (AssetDescType_eqb (AssetDesc.type (m_assetDesc a)) IMAGE_CUBE) eqn:E;
      [|reflexivity].
    destruct (AssetDesc.type (m_assetDesc a)); try discriminate. congruence.
  - unfold placement.
    destruct (AssetPackage.getDataBlobDesc _ _); split; congruence.
  - intros Hmiss. unfold data, placement. rewrite Hmiss.
    destruct (AssetPackage.getDataBlobDesc _ _) as [bd|]; simpl.
    + destruct (BlobDesc.compression bd =? 0); simpl.
      * split; [split; discriminate|]. intros bytes [= <-]. eauto.
      * split; [split; discriminate|]. intros bytes [=].
    + split; [split; reflexivity|]. intros bytes [=].
  - intros l f v. split; [|reflexivity].
    unfold data.
    destruct (m_data a !! _); [reflexivity|].
    destruct (AssetPackage.getDataBlobDesc _ _) as [bd|]; [|reflexivity].
    destruct (negb _); reflexivity.
Qed.

Lemma packaged_placement_and_data_witness :
  exists a,
    new Examples.package_one 0 = Ok a
    /\ placement a 0 5 2 = placement a 0 0 2
    /\ (data a 0 2).1.1
       = Ok (Some (AssetPackage.readDataBlob Examples.package_one 102 4)).
Proof.
  eexists. split; [vm_compute; reflexivity|].
  match goal with
  | |- placement ?a _ _ _ = _ /\ _ =>
      destruct (packaged_placement_and_data a 0 5 2) as (H1 & _ & H2 & _)
  end.
  split; [apply H1; discriminate|].
  destruct H2 as (_ & H2); [vm_compute; reflexivity|].
  destruct (H2 _ ltac:(vm_compute; reflexivity)) as (offset & size & Hp & Hb).
  vm_compute. reflexivity.
Defined.

(** X11: requests that derive the same blob share one cache entry.  All
    levels at or beyond [numMips - numTailMips] of one layer derive the
    same blob index (and so does every request on a buffer); after [data]
    for one of them has returned bytes, [data] for the other returns the
    same bytes from the cache without a package call, and [evictCache]
    for either removes the entry of both. *)
Theorem packaged_tail_levels_share_blob (a : t) (layer level1 level2 : Z) :
  let d := m_assetDesc a in
  let numLooseMips := u32 (AssetDesc.numMips d - AssetDesc.numTailMips d) in
  numLooseMips <= u32 level1 ->
  numLooseMips <= u32 level2 ->
  (forall face, getBlobIndex d layer face level1 = getBlobIndex d layer face level2)
  /\ (forall face, placement a layer face level1 = placement a layer face level2)
  /\ (forall bytes,
        (data a layer level1).1.1 = Ok (Some bytes) ->
        data (data a layer level1).1.2 layer level2
        = (Ok (Some bytes), (data a layer level1).1.2, []))
  /\ m_data (evictCache (data a layer level1).1.2 layer level2)
       !! getBlobIndex d layer 0 level1 = None
  /\ evictCache a layer level1 = evictCache a layer level2.
Proof.
  cbv zeta. intros H1 H2.
  assert (Hidx : forall face, getBlobIndex (m_assetDesc a) layer face level1
                              = getBlobIndex (m_assetDesc a) layer face level2).
  { intros face. unfold getBlobIndex.
    destruct (AssetDescType_eqb _ BUFFER); [reflexivity|].
    destruct (Z.leb_spec (u32 (AssetDesc.numMips (m_assetDesc a)
                               - AssetDesc.numTailMips (m_assetDesc a))) (u32 level1));
      [|lia].
    destruct (Z.leb_spec (u32 (AssetDesc.numMips (m_assetDesc a)
                               - AssetDesc.numTailMips (m_assetDesc a))) (u32 level2));
      [|lia].
    reflexivity. }
  split; [exact Hidx|]. split; [|split; [|split]].
  - intros face. unfold placement. rewrite Hidx. reflexivity.
  - intros bytes Hret.
    destruct (data_returns_cached a layer level1 bytes Hret) as (Hc & Hd & _).
    unfold data at 1. rewrite Hd, <- Hidx, Hc. reflexivity.
  - unfold evictCache. cbn [m_data].
    assert (Hd : m_assetDesc (data a layer level1).1.2 = m_assetDesc a).
    { unfold data. destruct (m_data a !! _); [reflexivity|].
      destruct (AssetPackage.getDataBlobDesc _ _); [|reflexivity].
      destruct (negb _); reflexivity. }
    rewrite Hd, <- Hidx. apply lookup_delete_eq.
  - unfold evictCache. rewrite Hidx. reflexivity.
Qed.

Lemma packaged_tail_levels_share_blob_witness :
  exists a,
    new Examples.package_one 0 = Ok a
    /\ getBlobIndex (m_assetDesc a) 0 0 5 = getBlobIndex (m_assetDesc a) 0 0 7
    /\ (data (data a 0 5).1.2 0 7).2 = [].
Proof.
  eexists. split; [vm_compute; reflexivity|].
  match goal with
  | |- getBlobIndex (m_assetDesc ?a) _ _ _ = _ /\ _ =>
      destruct (packaged_tail_levels_share_blob a 0 5 7
                  ltac:(vm_compute; discriminate) ltac:(vm_compute; discriminate))
        as (H1 & _ & H2 & _)
  end.
  split; [apply H1|].
  rewrite (H2 _ ltac:(vm_compute; reflexivity)). reflexivity.
Defined.

End PackagedExtras.

(** ** AssetDataManager: normalization, the directory scan, the gate *)

Section ManagerExtras.
Import AssetDataManager ManagerSpec.

Lemma map_app (f : ascii -> ascii) (s t : string) :
  Str.map f (s ++ t) = (Str.map f s ++ Str.map f t)%string.
Proof. induction s as [|c s IH]; simpl; [|rewrite IH]; reflexivity. Qed.

Lemma map_fixed (f : ascii -> ascii) (g : ascii -> bool) (s : string) :
  (forall c, g c = true -> f c = c) -> chars_all g s = true -> Str.map f s = s.
Proof.
  intros Hf. induction s as [|c s IH]; simpl; [reflexivity|].
  intros H. apply andb_prop in H as [Hc Hs]. rewrite (Hf c Hc), (IH Hs). reflexivity.
Qed.

Lemma chars_all_app (g : ascii -> bool) (s t : string) :
  chars_all g (s ++ t) = (chars_all g s && chars_all g t)%bool.
Proof.
  induction s as [|c s IH]; simpl; [reflexivity|]. rewrite IH, andb_assoc. reflexivity.
Qed.

Lemma chars_all_map (g : ascii -> bool) (f : ascii -> ascii) (s : string) :
  (forall c, g (f c) = true) -> chars_all g (Str.map f s) = true.
Proof.
  intros Hf. induction s as [|c s IH]; simpl; [reflexivity|]. rewrite Hf, IH. reflexivity.
Qed.

Lemma back_snoc (s : string) (c : ascii) : Str.back (s ++ String c "") = Some c.
Proof.
  induction s as [|a s IH]; simpl; [reflexivity|].
  rewrite IH. destruct (s ++ String c "")%string eqn:E; [|reflexivity].
  destruct s; discriminate.
Qed.

Lemma back_none (s : string) : Str.back s = None <-> s = ""%string.
Proof.
  split; [|intros ->; reflexivity].
  induction s as [|a s IH]; simpl; [reflexivity|].
  destruct s; [discriminate|]. intros H. specialize (IH H). discriminate.
Qed.

Lemma back_chars_all (g : ascii -> bool) (s : string) (c : ascii) :
  chars_all g s = true -> Str.back s = Some c -> g c = true.
Proof.
  induction s as [|a s IH]; simpl; [discriminate|].
  intros H. apply andb_prop in H as [Ha Hs].
  destruct s; [intros [= <-]; exact Ha | apply IH, Hs].
Qed.

(** lower-casing after the separator replacement leaves no upper-case
    letter and no forward slash *)
Lemma lower_preferred_char (c : ascii) :
  normalized_char (Str.tolower (if Ascii.eqb c "/" then "\"%char else c)) = true.
Proof. destruct c as [[] [] [] [] [] [] [] []]; reflexivity. Qed.

Lemma normalized_char_fixed (c : ascii) :
  normalized_char c = true ->
  Str.tolower (if Ascii.eqb c "/" then "\"%char else c) = c.
Proof. destruct c as [[] [] [] [] [] [] [] []]; intros H; try reflexivity; discriminate H. Qed.

Lemma map_map (f g : ascii -> ascii) (s : string) :
  Str.map f (Str.map g s) = Str.map (fun c => f (g c)) s.
Proof. induction s as [|c s IH]; simpl; [|rewrite IH]; reflexivity. Qed.

Lemma lower_preferred_normalized (s : string) :
  chars_all normalized_char (Str.lower (Str.make_preferred s)) = true.
Proof.
  unfold Str.lower, Str.make_preferred. rewrite map_map.
  apply chars_all_map. exact lower_preferred_char.
Qed.

Lemma lower_preferred_fixed (s : string) :
  chars_all normalized_char s = true -> Str.lower (Str.make_preferred s) = s.
Proof.
  intros H. unfold Str.lower, Str.make_preferred. rewrite map_map.
  apply (map_fixed _ normalized_char); [exact normalized_char_fixed | exact H].
Qed.

(** the normal form of [normalize_base] *)
Lemma normalize_base_cases env path :
  let a := Str.lower (Str.make_preferred (fs_absolute env path)) in
  (a = ""%string /\ normalize_base env path = ""%string)
  \/ (Str.back a = Some "\"%char /\ normalize_base env path = a)
  \/ (a <> ""%string /\ Str.back a <> Some "\"%char
      /\ normalize_base env path = (a ++ "\")%string).
Proof.
  cbv zeta. unfold normalize_base.
  pose proof (lower_preferred_normalized (fs_absolute env path)) as Hn.
  destruct (Str.back _) as [c|] eqn:Hb.
  - pose proof (back_chars_all _ _ _ Hn Hb) as Hc.
    destruct (Ascii.eqb_spec c "\") as [->|Hne]; simpl.
    + right. left. auto.
    + destruct (Ascii.eqb_spec c "/") as [->|Hne2]; [discriminate Hc|].
      right. right. split; [intros E; rewrite E in Hb; discriminate|].
      split; [congruence | reflexivity].
  - left. apply back_none in Hb. auto.
Qed.

(** X12: the shape of a normalized base path.  It holds no upper-case
    letter and no forward slash (so the test of the last character against
    '/' never decides anything); it is empty exactly when the absolute
    path is; otherwise it ends in one backslash, appended only when the
    lower-cased path did not end in one; it starts with the lower-cased
    path; and normalizing is idempotent wherever [absolute] returns its
    argument. *)
Theorem normalize_base_shape (env : Env) (path : string) :
  let n := normalize_base env path in
  let a := Str.lower (Str.make_preferred (fs_absolute env path)) in
  chars_all normalized_char n = true
  /\ (n = ""%string <-> fs_absolute env path = ""%string)
  /\ (n <> ""%string -> Str.back n = Some "\"%char)
  /\ (n = a \/ (n = (a ++ "\")%string /\ Str.back a <> Some "\"%char))
  /\ (Str.back a = Some "\"%char -> n = a)
  /\ (fs_absolute env n = n -> normalize_base env n = n).
Proof.
  cbv zeta.
  pose proof (lower_preferred_normalized (fs_absolute env path)) as Hn.
  assert (Hempty : Str.lower (Str.make_preferred (fs_absolute env path)) = ""%string
                   <-> fs_absolute env path = ""%string).
  { destruct (fs_absolute env path); simpl; split; intros H;
      try reflexivity; discriminate H. }
  assert (Hall : chars_all normalized_char (normalize_base env path) = true).
  { destruct (normalize_base_cases env path) as [(Ha & ->)|[(Hb & ->)|(Ha & Hb & ->)]];
      [reflexivity | exact Hn |].
    rewrite chars_all_app, Hn. reflexivity. }
  assert (Hback : normalize_base env path <> ""%string ->
                  Str.back (normalize_base env path) = Some "\"%char).
  { destruct (normalize_base_cases env path) as [(Ha & ->)|[(Hb & ->)|(Ha & Hb & ->)]];
      [congruence | auto |]. intros _. apply back_snoc. }
  split; [exact Hall|]. split; [|split; [exact Hback|split; [|split]]].
  - destruct (normalize_base_cases env path) as [(Ha & ->)|[(Hb & E)|(Ha & Hb & E)]].
    + split; [intros _; apply Hempty, Ha | reflexivity].
    + rewrite E. split; [apply Hempty|]. intros H. apply Hempty in H. exact H.
    + rewrite E. split.
      * intros H. destruct (Str.lower _); discriminate.
      * intros H. apply Hempty in H. contradiction.
  - destruct (normalize_base_cases env path) as [(Ha & ->)|[(Hb & E)|(Ha & Hb & E)]];
      [left; congruence | left; exact E | right; auto].
  - intros Hb.
    destruct (normalize_base_cases env path) as [(Ha & E)|[(_ & E)|(Ha & Hb' & E)]];
      [rewrite Ha in Hb; discriminate | exact E | contradiction].
  - intros Hfix. unfold normalize_base at 1. rewrite Hfix.
    rewrite (lower_preferred_fixed _ Hall).
    destruct (string_dec (normalize_base env path) "") as [E|E];
      [rewrite E; reflexivity|].
    rewrite (Hback E). reflexivity.
Qed.

Lemma normalize_base_shape_witness :
  normalize_base Examples.env_mods "C:/Mods/Textures" = "c:\mods\textures\"%string
  /\ normalize_base Examples.env_mods (normalize_base Examples.env_mods "C:/Mods/Textures")
     = normalize_base Examples.env_mods "C:/Mods/Textures".
Proof.
  split; [vm_compute; reflexivity|].
  destruct (normalize_base_shape Examples.env_mods "C:/Mods/Textures")
    as (_ & _ & _ & _ & _ & H).
  apply H. vm_compute. reflexivity.
Defined.

(** X13: the dedupe does not depend on how a directory is spelled.  Two
    paths whose absolute forms differ in the case of letters, in the kind
    of separators, or in one trailing separator have the same normalized
    base path, so whichever is added second, under whatever priority, is
    ignored. *)
Theorem addSearchPath_spelling_insensitive (env : Env) (m : t)
    (priority1 priority2 : Z) (path1 path2 : string) :
  let a1 := Str.lower (Str.make_preferred (fs_absolute env path1)) in
  let a2 := Str.lower (Str.make_preferred (fs_absolute env path2)) in
  a1 = a2 \/ (a1 <> ""%string /\ Str.back a1 <> Some "\"%char /\ a2 = (a1 ++ "\")%string) ->
  normalize_base env path1 = normalize_base env path2
  /\ addSearchPath env (addSearchPath env m priority1 path1).1 priority2 path2
     = ((addSearchPath env m priority1 path1).1, [])
  /\ addSearchPath env (addSearchPath env m priority2 path2).1 priority1 path1
     = ((addSearchPath env m priority2 path2).1, []).
Proof.
  cbv zeta. intros Hsame.
  assert (E : normalize_base env path1 = normalize_base env path2).
  { destruct Hsame as [Heq|(Hne & Hb & Heq)].
    - unfold normalize_base. rewrite Heq. reflexivity.
    - destruct (normalize_base_cases env path1) as [(Ha & _)|[(Hb' & _)|(_ & _ & E1)]];
        [contradiction | contradiction |].
      destruct (normalize_base_cases env path2) as [(Ha & _)|[(_ & E2)|(_ & Hb2 & _)]].
      + rewrite Heq in Ha. destruct (Str.lower _); discriminate.
      + rewrite E1, E2, Heq. reflexivity.
      + rewrite Heq, back_snoc in Hb2. contradiction. }
  split; [exact E|]. split.
  - apply addSearchPath_duplicate, already_registered_iff. rewrite <- E.
    apply addSearchPath_registers.
  - apply addSearchPath_duplicate, already_registered_iff. rewrite E.
    apply addSearchPath_registers.
Qed.

Lemma addSearchPath_spelling_insensitive_witness :
  addSearchPath Examples.env_mods
    (addSearchPath Examples.env_mods new 0 "c:\mods\textures").1 7 "C:/Mods/Textures/"
  = ((addSearchPath Examples.env_mods new 0 "c:\mods\textures").1, []).
Proof.
  apply (addSearchPath_spelling_insensitive Examples.env_mods new 0 7
           "c:\mods\textures" "C:/Mods/Textures/").
  right. split; [discriminate|]. split; [discriminate|]. vm_compute. reflexivity.
Defined.

Lemma update_append_map {V W : Type} (g : V -> W) (k : Z) (e : V) (m : list (Z * list V)) :
  List.map (fun pe : Z * list V => (pe.1, List.map g pe.2))
           (StdMap.update Z.ltb k [] (fun v => v ++ [e]) m)
  = StdMap.update Z.ltb k [] (fun v => v ++ [g e])
      (List.map (fun pe : Z * list V => (pe.1, List.map g pe.2)) m).
Proof.
  induction m as [|[k' v] m IH]; simpl; [reflexivity|].
  destruct (Z.ltb k k'); [reflexivity|].
  destruct (Z.ltb k' k); simpl; [rewrite IH; reflexivity|].
  rewrite List.map_app. reflexivity.
Qed.

(** X14: the two registries stay side by side.  With package I/O
    enabled, after any sequence of [addSearchPath] calls the package sets
    list, priority by priority and in the same order, exactly the base
    paths of the search-path registry; with package I/O disabled no
    package set is ever created. *)
Theorem packageSets_mirror_searchPaths (env : Env) (calls : list (Z * string)) :
  let m := run_adds env calls in
  (RtxIo_enabled env = true -> packageSet_paths m = m_searchPaths m)
  /\ (RtxIo_enabled env = false -> m_packageSets m = []).
Proof.
  cbv zeta. induction calls as [|[priority path] calls IH] using rev_ind.
  - split; reflexivity.
  - rewrite run_adds_snoc. cbn [fst snd]. set (m := run_adds env calls) in *.
    unfold addSearchPath.
    destruct (already_registered m (normalize_base env path)); [exact IH|].
    destruct (RtxIo_enabled env) eqn:Hio.
    + destruct (scan_directory env path) as [packageSet evs]. cbn [fst].
      split; [|discriminate]. intros _. unfold packageSet_paths. cbn [m_packageSets m_searchPaths].
      etransitivity;
        [exact (update_append_map (@fst string PackageSet) priority
                  (normalize_base env path, packageSet) (m_packageSets m))|].
      cbn [fst]. f_equal. apply IH. reflexivity.
    + cbn [fst m_packageSets]. split; [discriminate|]. apply IH.
Qed.

Lemma packageSets_mirror_searchPaths_witness :
  packageSet_paths (run_adds Examples.env_mods [(3, "b"); (0, "a"); (3, "c"); (0, "A/")])
  = [(0, ["c:\mods\a\"%string]); (3, ["c:\mods\b\"%string; "c:\mods\c\"%string])].
Proof.
  destruct (packageSets_mirror_searchPaths Examples.env_mods
              [(3, "b"%string); (0, "a"%string); (3, "c"%string); (0, "A/"%string)])
    as (H & _).
  rewrite (H eq_refl). vm_compute. reflexivity.
Defined.

Lemma string_ltb_trichotomy (a b : string) :
  String.ltb a b = false -> String.ltb b a = false -> a = b.
Proof.
  unfold String.ltb. rewrite (String.compare_antisym a b).
  destruct (String.compare b a) eqn:E; simpl; try discriminate.
  intros _ _. symmetry. apply String.compare_eq_iff, E.
Qed.

Lemma emplace_keeps {V} (k : string) (v : V) (m : list (string * V)) x :
  In x m -> In x (StdMap.emplace String.ltb k v m).
Proof.
  induction m as [|[k' v'] m IH]; simpl; [tauto|].
  destruct (String.ltb k k'); simpl; [tauto|].
  destruct (String.ltb k' k); simpl; tauto.
Qed.

Lemma emplace_adds {V} (k : string) (v : V) (m : list (string * V)) :
  (forall v0, In (k, v0) m -> v0 = v) ->
  In (k, v) (StdMap.emplace String.ltb k v m).
Proof.
  induction m as [|[k' v'] m IH]; simpl; [auto|]. intros Hfun.
  destruct (String.ltb k k') eqn:E1; simpl; [auto|].
  destruct (String.ltb k' k) eqn:E2; simpl.
  - right. apply IH. intros v0 H. apply Hfun. auto.
  - left. pose proof (string_ltb_trichotomy k k' E1 E2) as <-.
    f_equal. apply Hfun. left. reflexivity.
Qed.

Lemma opened_packages_app evs1 evs2 :
  opened_packages (evs1 ++ evs2) = opened_packages evs1 ++ opened_packages evs2.
Proof. unfold opened_packages. apply flat_map_app. Qed.

(** the directory loop, from any accumulator whose packages are the ones
    [initialize] gives for their paths *)
Lemma mount_entries_spec env entries acc :
  (forall k v, In (k, v) acc.1 -> package_initialize env k = Some v) ->
  let r := foldl (mount_entry env) acc entries in
  (forall name package,
     In (name, package) r.1
     <-> In (name, package) acc.1
         \/ (In name entries /\ is_package_ext name = true
             /\ package_initialize env name = Some package))
  /\ opened_packages r.2 = opened_packages acc.2 ++ List.filter is_package_ext entries.
Proof.
  revert acc. induction entries as [|entry entries IH]; intros acc Hinv; cbn zeta.
  - simpl. split; [intros; tauto|]. rewrite app_nil_r. reflexivity.
  - cbn [foldl].
    assert (Hstep :
      (forall name package,
         In (name, package) (mount_entry env acc entry).1
         <-> In (name, package) acc.1
             \/ (name = entry /\ is_package_ext name = true
                 /\ package_initialize env name = Some package))
      /\ opened_packages (mount_entry env acc entry).2
         = opened_packages acc.2 ++ (if is_package_ext entry then [entry] else [])).
    { destruct acc as [packageSet evs]. unfold mount_entry, is_package_ext in *.
      cbn [fst snd] in *.
      destruct (_ || _)%bool eqn:Hext.
      - destruct (package_initialize env entry) as [pkg|] eqn:Hinit; cbn [fst snd].
        + split; [|rewrite opened_packages_app; reflexivity].
          intros name package. split.
          * intros H. apply in_emplace in H as [[= -> ->]|H]; [|auto].
            right. auto.
          * intros [H|(-> & _ & H)]; [apply emplace_keeps, H|].
            rewrite Hinit in H. injection H as <-.
            apply emplace_adds. intros v0 H0. apply Hinv in H0. congruence.
        + split; [|rewrite opened_packages_app; reflexivity].
          intros name package. split; [auto|].
          intros [H|(-> & _ & H)]; [exact H | congruence].
      - split; [|rewrite app_nil_r; reflexivity].
        intros name package. split; [auto|].
        intros [H|(-> & H & _)]; [exact H | congruence]. }
    destruct Hstep as (Hin & Hev).
    destruct (IH (mount_entry env acc entry)) as (IH1 & IH2).
    { intros k v H. apply Hin in H as [H|(_ & _ & H)]; [apply Hinv, H | exact H]. }
    split.
    + intros name package. rewrite IH1, Hin. simpl. split.
      * intros [[H|(-> & H)]|(H & H')]; tauto.
      * intros [H|([<-|H] & H')]; tauto.
    + rewrite IH2. unfold PackageSet in *. rewrite Hev, <- app_assoc. f_equal. simpl.
      destruct (is_package_ext entry); reflexivity.
Qed.

(** X15: what the directory scan mounts.  A directory that does not
    exist is not scanned.  Otherwise the package set holds exactly the
    entries of the directory whose extension is [.pkg] or [.rtxio] (as
    written: the comparison is case-sensitive) and whose package
    initializes, each with the package [initialize] gave; every entry
    with such an extension is opened once, in directory order, whether it
    initializes or not; and the set is in ascending order of the paths. *)
Theorem scan_directory_mounts (env : Env) (path : string) :
  let r := scan_directory env path in
  (fs_exists env path = false -> r = ([], []))
  /\ (fs_exists env path = true ->
      (forall name package,
         In (name, package) r.1
         <-> In name (fs_directory_iterator env path)
             /\ is_package_ext name = true
             /\ package_initialize env name = Some package)
      /\ opened_packages r.2
         = List.filter is_package_ext (fs_directory_iterator env path)
      /\ count_scans r.2 = 1%nat)
  /\ StronglySorted (fun a b => String.ltb a.1 b.1 = true) r.1.
Proof.
  cbv zeta. split; [|split; [|apply scan_directory_sorted]].
  - intros H. unfold scan_directory. rewrite H. reflexivity.
  - intros H. pose proof (scan_directory_scans env path) as Hs.
    unfold scan_directory in *. rewrite H in *.
    destruct (mount_entries_spec env (fs_directory_iterator env path)
                ([], [EvDirectoryScan path])) as (H1 & H2); [intros k v []|].
    split; [|split; [exact H2 | exact Hs]].
    intros name package. rewrite H1. simpl. tauto.
Qed.

Lemma scan_directory_mounts_witness :
  List.map fst (scan_directory Examples.env_mods "c:\mods").1 = ["c:\mods\a.pkg"%string]
  /\ opened_packages (scan_directory Examples.env_mods "c:\mods").2
     = List.filter is_package_ext ["c:\mods\a.pkg"%string; "c:\mods\readme.txt"%string].
Proof.
  split; [vm_compute; reflexivity|].
  destruct (scan_directory_mounts Examples.env_mods "c:\mods") as (_ & H & _).
  destruct (H eq_refl) as (_ & H2 & _). exact H2.
Defined.

Lemma strrchr_split (s : string) (c : ascii) (r : string) :
  Str.strrchr s c = Some r -> exists stem, s = (stem ++ r)%string.
Proof.
  revert r. induction s as [|a s IH]; simpl; [discriminate|]. intros r.
  destruct (Str.strrchr s c) as [r'|].
  - intros [= <-]. destruct (IH r' eq_refl) as (stem & ->).
    exists (String a stem). reflexivity.
  - destruct (Ascii.eqb a c); [|discriminate]. intros [= <-].
    exists ""%string. reflexivity.
Qed.

Lemma strrchr_app (s t : string) (c : ascii) (r : string) :
  Str.strrchr t c = Some r -> Str.strrchr (s ++ t) c = Some r.
Proof.
  intros H. induction s as [|a s IH]; simpl; [exact H|]. rewrite IH. reflexivity.
Qed.

(** only the dot lower-cases to the dot *)
Lemma tolower_dot (c : ascii) : Str.tolower c = "."%char <-> c = "."%char.
Proof.
  split; [|intros ->; reflexivity].
  destruct c as [[] [] [] [] [] [] [] []]; intros H; try reflexivity; discriminate H.
Qed.

(** X16: which file names pass the gate of [findAsset].  [isDDS] holds
    exactly when the name ends in a suffix that lower-cases to [.dds]: the
    extension is compared without regard to case, must start at the last
    dot of the whole string (of the path, not of its last component), and
    nothing may follow it. *)
Theorem isDDS_iff (filename : string) :
  isDDS filename = true
  <-> exists stem ext,
        filename = (stem ++ ext)%string /\ Str.lower ext = ".dds"%string.
Proof.
  unfold isDDS. split.
  - destruct (Str.strrchr filename ".") as [ext|] eqn:E; [|discriminate].
    intros H. destruct (strrchr_split _ _ _ E) as (stem & ->).
    exists stem, ext. split; [reflexivity|].
    unfold Str.stricmp_eq in H. apply String.eqb_eq in H. exact H.
  - intros (stem & ext & -> & Hlow).
    assert (Hext : Str.strrchr ext "." = Some ext).
    { destruct ext as [|c0 [|c1 [|c2 [|c3 [|c4 ext]]]]]; try discriminate Hlow.
      injection Hlow as H0 H1 H2 H3.
      apply (proj1 (tolower_dot c0)) in H0. subst c0.
      assert (N1 : Ascii.eqb c1 "." = false).
      { apply Ascii.eqb_neq. intros ->. discriminate H1. }
      assert (N2 : Ascii.eqb c2 "." = false).
      { apply Ascii.eqb_neq. intros ->. discriminate H2. }
      assert (N3 : Ascii.eqb c3 "." = false).
      { apply Ascii.eqb_neq. intros ->. discriminate H3. }
      cbn [Str.strrchr]. rewrite N1, N2, N3. reflexivity. }
    rewrite (strrchr_app stem ext "." ext Hext).
    unfold Str.stricmp_eq. rewrite Hlow. reflexivity.
Qed.

Lemma isDDS_iff_witness :
  isDDS "c:\mods\Tex.a\Wall.DdS" = true
  /\ isDDS "c:\mods\wall.dds.bak" = false
  /\ isDDS "c:\mods.dds\wall" = false.
Proof.
  split; [|split; vm_compute; reflexivity].
  apply (proj2 (isDDS_iff "c:\mods\Tex.a\Wall.DdS")).
  exists "c:\mods\Tex.a\Wall"%string, ".DdS"%string. split; reflexivity.
Defined.

End ManagerExtras.

(** ** findAsset: what a returned asset carries *)

Section FindAssetExtras.
Import AssetDataManager.

Lemma new_ok_fields package assetIdx a :
  PackagedAssetData.new package assetIdx = Ok a ->
  PackagedAssetData.m_package a = package
  /\ PackagedAssetData.m_assetIdx a = assetIdx
  /\ PackagedAssetData.m_data a = ∅
  /\ info_filename (PackagedAssetData.m_info a) = AssetPackage.getFilename package.
Proof.
  unfold PackagedAssetData.new.
  destruct (AssetPackage.getAssetDesc package assetIdx) as [d|]; [|discriminate].
  destruct (PackagedAssetData.type d); [|discriminate].
  destruct (PackagedAssetData.compression package d); [|discriminate].
  destruct (PackagedAssetData.extent d 0); [|discriminate].
  intros [= <-]. auto.
Qed.

Lemma search_packages_found env rel pkgs r evs :
  search_packages env rel pkgs = (Some r, evs) ->
  exists name package,
    In (name, package) pkgs
    /\ AssetPackage.findAsset package rel <> kNoAssetIdx env
    /\ r = PackagedAssetData.new package (AssetPackage.findAsset package rel).
Proof.
  revert evs. induction pkgs as [|[name package] pkgs IH]; simpl; [discriminate|].
  intros evs. destruct (Z.eqb_spec (AssetPackage.findAsset package rel) (kNoAssetIdx env)).
  - destruct (search_packages env rel pkgs) as [r' evs'] eqn:E. intros [= -> <-].
    destruct (IH _ eq_refl) as (n & p & Hin & H). exists n, p. split; [auto | exact H].
  - intros [= <- <-]. exists name, package. auto.
Qed.

Lemma search_entries_found env filename filenameLower entries p evs :
  search_entries env filename filenameLower entries = (Some (Ok p), evs) ->
  exists basePath packages name package rel,
    In (basePath, packages) entries /\ In (name, package) packages
    /\ Str.substr filename (String.length basePath) = Ok rel
    /\ AssetPackage.findAsset package rel <> kNoAssetIdx env
    /\ PackagedAssetData.new package (AssetPackage.findAsset package rel) = Ok p.
Proof.
  revert evs. induction entries as [|[basePath packages] entries IH]; simpl;
    [discriminate|]. intros evs.
  assert (Hrest : forall evs0,
            search_entries env filename filenameLower entries = (Some (Ok p), evs0) ->
            exists basePath0 packages0 name package rel,
              ((basePath, packages) = (basePath0, packages0)
               \/ In (basePath0, packages0) entries)
              /\ In (name, package) packages0
              /\ Str.substr filename (String.length basePath0) = Ok rel
              /\ AssetPackage.findAsset package rel <> kNoAssetIdx env
              /\ PackagedAssetData.new package (AssetPackage.findAsset package rel) = Ok p).
  { intros evs0 H. destruct (IH _ H) as (b & ps & n & pk & rel & Hin & H').
    exists b, ps, n, pk, rel. split; [auto | exact H']. }
  destruct (_ && _)%bool; [|apply Hrest].
  destruct (Str.substr filename (String.length basePath)) as [rel|e] eqn:Hsub;
    [|discriminate].
  destruct (search_packages env rel (rev packages)) as [[r|] evs1] eqn:Hs.
  - intros [= -> <-].
    destruct (search_packages_found _ _ _ _ _ Hs) as (n & pk & Hin & Hne & Hr).
    exists basePath, packages, n, pk, rel.
    split; [auto|]. split; [apply in_rev, Hin|]. auto.
  - destruct (search_entries env filename filenameLower entries) as [r' evs'] eqn:E.
    intros [= -> <-]. apply (Hrest evs'). reflexivity.
Qed.

Lemma search_priorities_found env filename filenameLower sets p evs :
  search_priorities env filename filenameLower sets = (Some (Ok p), evs) ->
  exists priority entries basePath packages name package rel,
    In (priority, entries) sets
    /\ In (basePath, packages) entries /\ In (name, package) packages
    /\ Str.substr filename (String.length basePath) = Ok rel
    /\ AssetPackage.findAsset package rel <> kNoAssetIdx env
    /\ PackagedAssetData.new package (AssetPackage.findAsset package rel) = Ok p.
Proof.
  revert evs. induction sets as [|[priority entries] sets IH]; simpl; [discriminate|].
  intros evs.
  destruct (search_entries env filename filenameLower (rev entries))
    as [[r|] evs1] eqn:Hs.
  - intros [= -> <-].
    destruct (search_entries_found _ _ _ _ _ _ Hs)
      as (b & ps & n & pk & rel & Hin & H').
    exists priority, entries, b, ps, n, pk, rel.
    split; [auto|]. split; [apply in_rev, Hin | exact H'].
  - destruct (search_priorities env filename filenameLower sets) as [r' evs'] eqn:E.
    intros [= -> <-].
    destruct (IH _ eq_refl) as (pr & es & b & ps & n & pk & rel & Hin & H').
    exists pr, es, b, ps, n, pk, rel. split; [auto | exact H'].
Qed.

Lemma load_true_opened g fopen filename :
  (DdsTextureData.load g fopen DdsTextureData.new filename).1.1 = Ok true ->
  exists f, fopen filename = Opened f.
Proof.
  intros Htrue.
  assert (Hp : (DdsFileParser.parse g fopen DdsFileParser.new filename).1.1 = Ok true).
  { revert Htrue. unfold DdsTextureData.load. simpl.
    destruct (DdsFileParser.parse g fopen DdsFileParser.new filename)
      as [[[[|]|e] p] evs]; simpl; congruence. }
  pose proof (parse_returns_nonempty _ _ _ _ Hp) as Hname.
  destruct (fopen filename) as [f|em] eqn:Hopen; [eauto|].
  exfalso. revert Hp. rewrite (parse_not_opened g fopen filename em Hname Hopen).
  destruct em; discriminate.
Qed.

(** X17: what an asset returned by [findAsset] carries.  The file name
    passed the extension gate and the asset has an info.  A DDS asset
    comes from the partial loader, names the caller's file, is
    uncompressed, uploads the smaller of 5 and its number of levels
    first, and holds neither a mapping nor an open file handle.  A
    packaged asset was built by the constructor for the index that a
    mounted package gave for the relative path, which is not the no-asset
    sentinel; it names the package file and starts with an empty cache.
    A GLI asset holds the non-empty texture GLI loaded for the caller's
    file name and is uncompressed. *)
Theorem findAsset_result_info (env : Env) (m : t) (filename : string) (a : AssetData) :
  (findAsset env m filename).1 = Ok (Some a) ->
  isDDS filename = true
  /\ exists i,
       AssetData_info a = Some i
       /\ match a with
          | AssetData_Dds dds =>
              usePartialDdsLoader env = true
              /\ info_filename i = filename
              /\ info_compression i = Compression_None
              /\ info_mininumLevelsToUpload i = Z.min 5 (info_mipLevels i)
              /\ DdsTextureData.m_mapped dds = false
              /\ DdsFileParser.m_file (DdsTextureData.parser dds) = None
          | AssetData_Packaged packaged =>
              RtxIo_enabled env = true
              /\ (exists priority entries basePath packages name relativePath,
                    In (priority, entries) (m_packageSets m)
                    /\ In (basePath, packages) entries
                    /\ In (name, PackagedAssetData.m_package packaged) packages
                    /\ Str.substr filename (String.length basePath) = Ok relativePath
                    /\ AssetPackage.findAsset (PackagedAssetData.m_package packaged)
                         relativePath
                       = PackagedAssetData.m_assetIdx packaged)
              /\ PackagedAssetData.m_assetIdx packaged <> kNoAssetIdx env
              /\ PackagedAssetData.new (PackagedAssetData.m_package packaged)
                   (PackagedAssetData.m_assetIdx packaged) = Ok packaged
              /\ info_filename i
                 = AssetPackage.getFilename (PackagedAssetData.m_package packaged)
          | AssetData_Gli gli =>
              GliTextureData.m_texture gli = gli_load env filename
              /\ Gli.empty (GliTextureData.m_texture gli) = false
              /\ info_filename i = filename
              /\ info_compression i = Compression_None
              /\ info_mininumLevelsToUpload i = Z.min 5 (info_mipLevels i)
          end.
Proof.
  unfold findAsset. destruct (isDDS filename); [|discriminate]. cbn [negb].
  intros H. split; [reflexivity|]. revert H.
  assert (Hdds : forall r evs, dds_stage env filename = (Some r, evs) ->
            r = Ok (Some a) ->
            exists i, AssetData_info a = Some i
              /\ match a with
                 | AssetData_Dds dds =>
                     usePartialDdsLoader env = true
                     /\ info_filename i = filename
                     /\ info_compression i = Compression_None
                     /\ info_mininumLevelsToUpload i = Z.min 5 (info_mipLevels i)
                     /\ DdsTextureData.m_mapped dds = false
                     /\ DdsFileParser.m_file (DdsTextureData.parser dds) = None
                 | _ => False
                 end).
  { intros r evs. unfold dds_stage.
    destruct (usePartialDdsLoader env) eqn:Hopt; [|discriminate].
    destruct (DdsTextureData.load (gli env) (fs_fopen env) DdsTextureData.new filename)
      as [[[[|]|e] dds] evs0] eqn:Hload; [|discriminate|].
    - intros [= <- <-] [= <-].
      assert (Htrue : (DdsTextureData.load (gli env) (fs_fopen env)
                         DdsTextureData.new filename).1.1 = Ok true)
        by (rewrite Hload; reflexivity).
      destruct (load_true_opened _ _ _ Htrue) as (f & Hopen).
      destruct (load_true_state _ _ _ f Hopen Htrue) as (E & _).
      rewrite Hload in E. cbn [fst snd] in E. subst dds.
      eexists. split; [reflexivity|]. repeat split.
    - intros [= <- <-] [=]. }
  assert (Hpkg : forall r evs, package_stage env m filename = (Some r, evs) ->
            r = Ok (Some a) ->
            exists packaged, a = AssetData_Packaged packaged
              /\ RtxIo_enabled env = true
              /\ (exists priority entries basePath packages name relativePath,
                    In (priority, entries) (m_packageSets m)
                    /\ In (basePath, packages) entries
                    /\ In (name, PackagedAssetData.m_package packaged) packages
                    /\ Str.substr filename (String.length basePath) = Ok relativePath
                    /\ AssetPackage.findAsset (PackagedAssetData.m_package packaged)
                         relativePath
                       = PackagedAssetData.m_assetIdx packaged)
              /\ PackagedAssetData.m_assetIdx packaged <> kNoAssetIdx env
              /\ PackagedAssetData.new (PackagedAssetData.m_package packaged)
                   (PackagedAssetData.m_assetIdx packaged) = Ok packaged
              /\ info_filename (PackagedAssetData.m_info packaged)
                 = AssetPackage.getFilename (PackagedAssetData.m_package packaged)).
  { intros r evs. unfold package_stage.
    destruct (RtxIo_enabled env) eqn:Hio; [|discriminate]. cbn [andb].
    destruct (negb _); [|discriminate].
    destruct (search_priorities _ _ _ _) as [[[p|e]|] evs0] eqn:Hs; [| |discriminate].
    - intros [= <- <-] [= <-].
      destruct (search_priorities_found _ _ _ _ _ _ Hs)
        as (pr & es & b & ps & n & pk & rel & Hin1 & Hin2 & Hin3 & Hsub & Hne & Hnew).
      destruct (new_ok_fields _ _ _ Hnew) as (Hp & Hi & _ & Hf).
      exists p. split; [reflexivity|]. split; [reflexivity|].
      rewrite Hp, Hi. split; [|auto].
      exists pr, es, b, ps, n, rel. rewrite <- in_rev in Hin1. auto.
    - intros [= <- <-] [=]. }
  assert (Hgli : forall r evs, gli_fallback env filename = (r, evs) ->
            r = Ok (Some a) ->
            exists gli, a = AssetData_Gli gli
              /\ GliTextureData.m_texture gli = gli_load env filename
              /\ Gli.empty (GliTextureData.m_texture gli) = false
              /\ info_filename (GliTextureData.m_info gli) = filename
              /\ info_compression (GliTextureData.m_info gli) = Compression_None
              /\ info_mininumLevelsToUpload (GliTextureData.m_info gli)
                 = Z.min 5 (info_mipLevels (GliTextureData.m_info gli))).
  { intros r evs. unfold gli_fallback, GliTextureData.load.
    destruct (Gli.empty (gli_load env filename)) eqn:Hempty.
    - intros [= <- <-] [=].
    - destruct (GliTextureData.type (gli_load env filename)).
      + intros [= <- <-] [= <-]. eexists. split; [reflexivity|].
        cbn [GliTextureData.m_texture GliTextureData.m_info info_filename
             info_compression info_mininumLevelsToUpload info_mipLevels].
        auto.
      + intros [= <- <-] [=]. }
  destruct (dds_stage env filename) as [[r1|] evs1] eqn:E1.
  - cbn [fst]. intros H. destruct (Hdds _ _ eq_refl H) as (i & Hi & Ha).
    exists i. split; [exact Hi|]. destruct a; [exact Ha | contradiction | contradiction].
  - destruct (package_stage env m filename) as [[r2|] evs2] eqn:E2.
    + cbn [fst]. intros H. destruct (Hpkg _ _ eq_refl H) as (p & -> & Hp).
      eexists. split; [reflexivity|]. exact Hp.
    + destruct (gli_fallback env filename) as [r3 evs3] eqn:E3. cbn [fst].
      intros H. destruct (Hgli _ _ eq_refl H) as (g & -> & Hg).
      eexists. split; [reflexivity|]. exact Hg.
Qed.

Lemma findAsset_result_info_witness :
  exists packaged,
    (findAsset Examples.env_mods
       (ManagerSpec.run_adds Examples.env_mods [(0, "c:\mods"%string)])
       "c:\mods\tex\a.dds").1 = Ok (Some (AssetData_Packaged packaged))
    /\ PackagedAssetData.m_assetIdx packaged <> kNoAssetIdx Examples.env_mods
    /\ info_filename (PackagedAssetData.m_info packaged) = "c:\mods\a.pkg"%string.
Proof.
  eexists. split; [vm_compute; reflexivity|].
  match goal with
  | |- PackagedAssetData.m_assetIdx ?p <> _ /\ _ =>
      destruct (findAsset_result_info Examples.env_mods
                  (ManagerSpec.run_adds Examples.env_mods [(0, "c:\mods"%string)])
                  "c:\mods\tex\a.dds" (AssetData_Packaged p)
                  ltac:(vm_compute; reflexivity))
        as (_ & i & Hi & _ & _ & Hne & _ & Hf)
  end.
  split; [exact Hne|]. injection Hi as <-. etransitivity; [exact Hf|]. reflexivity.
Defined.

Lemma new_raise_cases package assetIdx e :
  PackagedAssetData.new package assetIdx = Raise e ->
  e = DxvkError "Asset description was not found in the package!"
  \/ e = AssertionFailure "Unknown asset type"
  \/ e = NullDereference.
Proof.
  unfold PackagedAssetData.new.
  destruct (AssetPackage.getAssetDesc package assetIdx) as [d|];
    [|intros [= <-]; auto].
  unfold PackagedAssetData.extent, PackagedAssetData.compression, PackagedAssetData.type.
  destruct (AssetDesc.type d);
    destruct (AssetPackage.getDataBlobDesc package (AssetDesc.baseBlobIdx d));
    intros [= <-]; auto.
Qed.

Lemma search_entries_raise env filename filenameLower entries e evs :
  search_entries env filename filenameLower entries = (Some (Raise e), evs) ->
  e = out_of_range
  \/ exists package assetIdx, PackagedAssetData.new package assetIdx = Raise e.
Proof.
  revert evs. induction entries as [|[basePath packages] entries IH]; simpl;
    [discriminate|]. intros evs.
  destruct (_ && _)%bool; [|apply IH].
  destruct (Str.substr filename (String.length basePath)) as [rel|e0] eqn:Hsub.
  - destruct (search_packages env rel (rev packages)) as [[r|] evs1] eqn:Hs.
    + intros [= -> <-].
      destruct (search_packages_found _ _ _ _ _ Hs) as (n & pk & _ & _ & Hr).
      right. eauto.
    + destruct (search_entries env filename filenameLower entries) as [r' evs'] eqn:E.
      intros [= -> <-]. apply (IH evs'). reflexivity.
  - intros [= <- <-]. left.
    destruct (le_lt_dec (String.length basePath) (String.length filename)) as [Hle|Hlt].
    + rewrite substr_in_range_ok in Hsub by exact Hle. discriminate.
    + rewrite substr_out_of_range in Hsub by exact Hlt. congruence.
Qed.

Lemma search_priorities_raise env filename filenameLower sets e evs :
  search_priorities env filename filenameLower sets = (Some (Raise e), evs) ->
  e = out_of_range
  \/ exists package assetIdx, PackagedAssetData.new package assetIdx = Raise e.
Proof.
  revert evs. induction sets as [|[priority entries] sets IH]; simpl; [discriminate|].
  intros evs.
  destruct (search_entries env filename filenameLower (rev entries))
    as [[r|] evs1] eqn:Hs.
  - intros [= -> <-]. exact (search_entries_raise _ _ _ _ _ _ Hs).
  - destruct (search_priorities env filename filenameLower sets) as [r' evs'] eqn:E.
    intros [= -> <-]. apply (IH evs'). reflexivity.
Qed.

(** X18: the exceptions that can leave [findAsset].  From the partial
    loader: too many open files, or a header that declares more levels
    than the size array holds.  From the package search: a base path
    longer than the caller's string ([substr]), or a failure of the
    packaged asset's constructor.  From the fallback: a texture target GLI
    loaded that this unit does not support.  None of them is an array
    overrun, and the assertion on an empty file name cannot fail because
    such a name does not pass the extension gate. *)
Theorem findAsset_exceptions (env : Env) (m : t) (filename : string) (e : exn) :
  (findAsset env m filename).1 = Raise e ->
  ((usePartialDdsLoader env = true
    /\ (e = DxvkError "Unable to open a DDS file: too many open files."
        \/ e = AssertionFailure DdsSpec.assert_message))
   \/ (RtxIo_enabled env = true /\ m_packageSets m <> []
       /\ (e = out_of_range
           \/ e = DxvkError "Asset description was not found in the package!"
           \/ e = AssertionFailure "Unknown asset type"
           \/ e = NullDereference))
   \/ e = AssertionFailure "Unsupported gli image target type!")
  /\ e <> ArrayOverrun
  /\ e <> AssertionFailure "DDS filename cannot be empty"
  /\ isDDS filename = true.
Proof.
  intros H.
  assert (Hgate : isDDS filename = true).
  { revert H. unfold findAsset. destruct (isDDS filename); [reflexivity | discriminate]. }
  assert (Hname : filename <> ""%string) by (intros ->; discriminate Hgate).
  assert (Hcases :
    (usePartialDdsLoader env = true
     /\ (e = DxvkError "Unable to open a DDS file: too many open files."
         \/ e = AssertionFailure DdsSpec.assert_message))
    \/ (RtxIo_enabled env = true /\ m_packageSets m <> []
        /\ (e = out_of_range
            \/ e = DxvkError "Asset description was not found in the package!"
            \/ e = AssertionFailure "Unknown asset type"
            \/ e = NullDereference))
    \/ e = AssertionFailure "Unsupported gli image target type!").
  { revert H. unfold findAsset. rewrite Hgate. cbn [negb].
    destruct (dds_stage env filename) as [[r1|] evs1] eqn:E1.
    - cbn [fst]. intros ->. left. revert E1. unfold dds_stage.
      destruct (usePartialDdsLoader env); [|discriminate]. split; [reflexivity|].
      assert (Hp : (DdsTextureData.load (gli env) (fs_fopen env) DdsTextureData.new
                      filename).1.1
                   = (DdsFileParser.parse (gli env) (fs_fopen env) DdsFileParser.new
                        filename).1.1).
      { unfold DdsTextureData.load. simpl.
        destruct (DdsFileParser.parse _ _ _ _) as [[[[|]|e0] p] evs]; reflexivity. }
      destruct (DdsTextureData.load (gli env) (fs_fopen env) DdsTextureData.new filename)
        as [[[[|]|e0] dds] evs0]; try discriminate.
      injection E1 as <- _. cbn [fst] in Hp. symmetry in Hp. revert Hp.
      destruct (fs_fopen env filename) as [f|em] eqn:Hopen.
      + rewrite (parse_opened (gli env) (fs_fopen env) filename f Hname Hopen).
        destruct (DdsSpec.too_short_for_header _ f); [discriminate|].
        destruct (DdsSpec.magic_mismatch _ f); [discriminate|].
        destruct (DdsSpec.too_short_for_header10 _ f); [discriminate|].
        destruct (negb (DdsSpec.levels_fit _ f)); [intros [= <-]; auto|].
        destruct (DdsSpec.payload_exceeds_file _ f); discriminate.
      + rewrite (parse_not_opened (gli env) (fs_fopen env) filename em Hname Hopen).
        destruct em; [intros [= <-]; auto | discriminate].
    - destruct (package_stage env m filename) as [[r2|] evs2] eqn:E2.
      + cbn [fst]. intros ->. right. left. revert E2. unfold package_stage.
        destruct (RtxIo_enabled env); [|discriminate]. cbn [andb].
        destruct (m_packageSets m) as [|s sets] eqn:Hsets; [discriminate|].
        cbn [length Nat.eqb negb]. rewrite <- Hsets.
        split; [reflexivity|]. split; [congruence|].
        destruct (search_priorities _ _ _ _) as [[[p|e0]|] evs0] eqn:Hs; try discriminate.
        injection E2 as <- _.
        destruct (search_priorities_raise _ _ _ _ _ _ Hs) as [->|(pk & idx & Hnew)];
          [auto|].
        destruct (new_raise_cases _ _ _ Hnew) as [->|[->| ->]]; auto.
      + destruct (gli_fallback env filename) as [r3 evs3] eqn:E3. cbn [fst].
        intros ->. right. right. revert E3. unfold gli_fallback, GliTextureData.load.
        destruct (Gli.empty (gli_load env filename)); [discriminate|].
        unfold GliTextureData.type.
        destruct (Gli.tex_target (gli_load env filename)); try discriminate;
          intros [= <- _]; reflexivity. }
  split; [exact Hcases|]. split; [|split; [|exact Hgate]].
  - destruct Hcases as [(_ & [->| ->])|[(_ & _ & [->|[->|[->| ->]]])| ->]]; discriminate.
  - destruct Hcases as [(_ & [->| ->])|[(_ & _ & [->|[->|[->| ->]]])| ->]]; discriminate.
Qed.

Lemma findAsset_exceptions_witness :
  (findAsset Examples.env_mods
     (ManagerSpec.run_adds Examples.env_mods [(0, "c:\mods"%string)]) "x.dds").1
  = Raise out_of_range
  /\ out_of_range <> ArrayOverrun.
Proof.
  split; [vm_compute; reflexivity|].
  destruct (findAsset_exceptions Examples.env_mods
              (ManagerSpec.run_adds Examples.env_mods [(0, "c:\mods"%string)]) "x.dds"
              out_of_range ltac:(vm_compute; reflexivity)) as (_ & H & _).
  exact H.
Defined.

End FindAssetExtras.

(** ** DdsFileParser::getDataPlacement outside the declared levels *)

Section PlacementExtras.
Import Int DdsFileParser DdsSpec.

Lemma closeHandle_levelSizes p : m_levelSizes (closeHandle p) = m_levelSizes p.
Proof. unfold closeHandle. destruct (m_file p); reflexivity. Qed.

Lemma openHandle_levelSizes fopen p :
  m_levelSizes (openHandle fopen p).1.2 = m_levelSizes p.
Proof.
  unfold openHandle. destruct (String.eqb _ _); [reflexivity|].
  destruct (m_file p); [reflexivity|].
  destruct (fopen _) as [f|[|]]; reflexivity.
Qed.

Lemma store_levelSize_length p level n q :
  store_levelSize p level n = Ok q ->
  length (m_levelSizes q) = length (m_levelSizes p).
Proof.
  unfold store_levelSize. destruct (_ && _); [|discriminate].
  intros [= <-]. simpl. apply length_insert.
Qed.

Lemma level_fold_length g header format (l : list Z) (p q : t) :
  foldl (fun acc level =>
           match acc with
           | Ok q => store_levelSize q level (levelSize g header format level)
           | Raise e => Raise e
           end) (Ok p) l = Ok q ->
  length (m_levelSizes q) = length (m_levelSizes p).
Proof.
  revert q. induction l as [|x l IH] using rev_ind; intros q.
  - simpl. intros [= <-]. reflexivity.
  - rewrite foldl_app. simpl.
    destruct (foldl _ (Ok p) l) as [q0|e]; [|discriminate].
    intros H. rewrite (store_levelSize_length _ _ _ _ H). apply IH. reflexivity.
Qed.

(** [parse] never changes the number of slots of the size array *)
Lemma parse_keeps_slots g fopen p0 filename :
  length (m_levelSizes (parse g fopen p0 filename).1.2) = length (m_levelSizes p0).
Proof.
  unfold parse.
  pose proof (openHandle_levelSizes fopen (set_filename p0 filename)) as Ho.
  destruct (openHandle fopen (set_filename p0 filename)) as [[[[f|]|e] p1] evs];
    cbn [fst snd] in Ho |- *; try (rewrite Ho; reflexivity).
  destruct (_ <? _); [cbn; rewrite Ho; reflexivity|].
  destruct (negb (String.eqb _ _)); [cbn; rewrite Ho; reflexivity|].
  destruct (_ && _); [cbn; rewrite Ho; reflexivity|].
  destruct (negb (_ <=? _)); [cbn; rewrite Ho; reflexivity|].
  match goal with
  | |- context [level_loop g ?h ?fm ?p] =>
      pose proof (level_fold_length g h fm (seqZ 0 (m_levels p)) p) as Hl;
      fold (level_loop g h fm p) in Hl;
      destruct (level_loop g h fm p) as [q|e0]
  end.
  - specialize (Hl q eq_refl). cbn [m_levelSizes set_geometry set_fileSize] in Hl.
    destruct (_ >? _); cbn [fst snd];
      rewrite ?closeHandle_levelSizes, Hl, Ho; reflexivity.
  - cbn. rewrite Ho. reflexivity.
Qed.

(** the offset loop on 16 slots: it completes for up to 16 rounds *)
Lemma offset_fold_ok (p : t) (off : Z) (k : nat) :
  length (m_levelSizes p) = 16%nat -> (k <= 16)%nat ->
  exists off',
    foldl (fun acc i =>
             match acc with
             | Ok off =>
                 match load_levelSize p i with
                 | Ok n => Ok (s32 (u64 (u64 off + n)))
                 | Raise e => Raise e
                 end
             | Raise e => Raise e
             end)
          (Ok off) (seqZ 0 (Z.of_nat k)) = Ok off'.
Proof.
  intros Hlen. induction k as [|k IH]; intros Hk; [simpl; eauto|].
  destruct IH as (off1 & IH); [lia|].
  rewrite seqZ_S, foldl_app, IH. rewrite Z.add_0_l. simpl.
  unfold load_levelSize, levelSizes_capacity.
  destruct (Z.leb_spec 0 (Z.of_nat k)); [|lia].
  destruct (Z.ltb_spec (Z.of_nat k) 16); [|lia]. simpl.
  destruct (lookup_lt_is_Some_2 (m_levelSizes p) (Z.to_nat (Z.of_nat k))) as [x Hx];
    [lia|].
  rewrite Hx. eauto.
Qed.

Lemma offset_fold_raise (p : t) (e : exn) (l : list Z) :
  foldl (fun acc i =>
           match acc with
           | Ok off =>
               match load_levelSize p i with
               | Ok n => Ok (s32 (u64 (u64 off + n)))
               | Raise e => Raise e
               end
           | Raise e => Raise e
           end)
        (Raise e) l = Raise e.
Proof. induction l as [|x l IH]; simpl; [reflexivity | exact IH]. Qed.

(** X19: [getDataPlacement] and the capacity of the size array.  The
    array of any parser that [parse] has worked on has its 16 slots.  A
    request fails, by reading outside the array, exactly when its level
    is negative or at least 16, whatever the layer and the face; a level
    from 0 to 15 is answered with the content of its slot as the size,
    also when the file declares fewer levels: after a successful [parse]
    such a level has size 0. *)
Theorem getDataPlacement_capacity (g : Gli.t) (fopen : string -> fopen_result)
    (filename : string) (layer face level : Z) :
  let p := (parse g fopen new filename).1.2 in
  length (m_levelSizes p) = 16%nat
  /\ (getDataPlacement p layer face level = Raise ArrayOverrun
      <-> level < 0 \/ 16 <= level)
  /\ (forall e, getDataPlacement p layer face level = Raise e -> e = ArrayOverrun)
  /\ (0 <= level < 16 ->
      exists offset size,
        getDataPlacement p layer face level = Ok (offset, size)
        /\ m_levelSizes p !! Z.to_nat level = Some size)
  /\ ((parse g fopen new filename).1.1 = Ok true ->
      m_levels p <= level < 16 ->
      exists offset, getDataPlacement p layer face level = Ok (offset, 0)).
Proof.
  cbv zeta.
  pose proof (parse_keeps_slots g fopen new filename) as Hlen.
  change (length (m_levelSizes new)) with 16%nat in Hlen.
  set (p := (parse g fopen new filename).1.2) in *.
  assert (Hin : 0 <= level < 16 ->
            exists offset size,
              getDataPlacement p layer face level = Ok (offset, size)
              /\ m_levelSizes p !! Z.to_nat level = Some size).
  { intros Hl. unfold getDataPlacement.
    destruct (offset_fold_ok p
                (s32 (u64 (u64 (m_dataOffset p)
                           + u64 (u64 (s32 (layer * m_faces p + face))
                                  * m_sizeOfAllLevels p))))
                (Z.to_nat level) Hlen ltac:(lia)) as (off & Hoff).
    rewrite Z2Nat.id in Hoff by lia. rewrite Hoff.
    unfold load_levelSize, levelSizes_capacity.
    destruct (Z.leb_spec 0 level); [|lia]. destruct (Z.ltb_spec level 16); [|lia].
    simpl.
    destruct (lookup_lt_is_Some_2 (m_levelSizes p) (Z.to_nat level)) as [x Hx]; [lia|].
    rewrite Hx. eauto. }
  assert (Hout : level < 0 \/ 16 <= level ->
                 getDataPlacement p layer face level = Raise ArrayOverrun).
  { intros [Hneg|Hbig]; unfold getDataPlacement.
    - rewrite seqZ_nil by lia. simpl.
      unfold load_levelSize. destruct (Z.leb_spec 0 level); [lia|]. reflexivity.
    - replace level with (16 + (level - 16)) at 1 by lia.
      rewrite seqZ_app by lia. rewrite foldl_app.
      destruct (offset_fold_ok p
                  (s32 (u64 (u64 (m_dataOffset p)
                             + u64 (u64 (s32 (layer * m_faces p + face))
                                    * m_sizeOfAllLevels p))))
                  16 Hlen ltac:(lia)) as (off & Hoff).
      change (Z.of_nat 16) with 16 in Hoff. rewrite Hoff.
      destruct (Z.eq_dec level 16) as [->|Hne].
      + simpl. reflexivity.
      + replace (level - 16) with (Z.succ (level - 17)) by lia.
        rewrite seqZ_cons by lia.
        generalize (seqZ (Z.succ (0 + 16)) (Z.pred (Z.succ (level - 17)))).
        intros rest. cbn [foldl].
        change (load_levelSize p (0 + 16)) with (@Raise Z ArrayOverrun).
        cbv beta iota. rewrite offset_fold_raise. reflexivity. }
  split; [exact Hlen|]. split; [|split; [|split; [exact Hin|]]].
  - split; [|exact Hout]. intros H.
    destruct (Z_lt_le_dec level 0); [auto|]. destruct (Z_lt_le_dec level 16); [|auto].
    destruct Hin as (o & s & E & _); [lia|]. congruence.
  - intros e H.
    destruct (Z_lt_le_dec level 0) as [Hn|Hn]; [rewrite Hout in H by auto; congruence|].
    destruct (Z_lt_le_dec level 16) as [Hb|Hb]; [|rewrite Hout in H by auto; congruence].
    destruct Hin as (o & s & E & _); [lia|]. congruence.
  - intros Htrue Hl.
    assert (Hname : filename <> ""%string) by exact (parse_returns_nonempty _ _ _ _ Htrue).
    destruct (fopen filename) as [f|em] eqn:Hopen.
    2:{ exfalso. revert Htrue. rewrite (parse_not_opened g fopen filename em Hname Hopen).
        destruct em; discriminate. }
    destruct (parse_true_state g fopen filename f Hopen Htrue) as (E & Hfit & _).
    pose proof (levels_fit_range g f Hfit) as Hlv.
    fold p in E.
    assert (Hlv' : m_levels p = levels g f) by (rewrite E; reflexivity).
    destruct Hin as (o & s & Hp & Hs); [lia|].
    destruct (parsed_slots g filename f Hlv) as (_ & _ & Hz).
    rewrite E in Hs. rewrite Hz in Hs by lia. injection Hs as <-. eauto.
Qed.

Lemma getDataPlacement_capacity_witness :
  let p := (parse Examples.gli_dds (fun _ => Opened Examples.bc1_file) new "t.dds").1.2 in
  getDataPlacement p 0 0 16 = Raise ArrayOverrun
  /\ exists offset, getDataPlacement p 0 0 12 = Ok (offset, 0).
Proof.
  cbv zeta. split.
  - apply (getDataPlacement_capacity Examples.gli_dds (fun _ => Opened Examples.bc1_file)
             "t.dds" 0 0 16). right. lia.
  - destruct (getDataPlacement_capacity Examples.gli_dds
                (fun _ => Opened Examples.bc1_file) "t.dds" 0 0 12)
      as (_ & _ & _ & _ & H).
    apply H; [vm_compute; reflexivity|]. vm_compute. split; [discriminate | reflexivity].
Defined.

End PlacementExtras.

(** ** GliTextureData: the fallback loader *)

Section GliExtras.
Import Int GliTextureData.

(** X20: the outcomes of [GliTextureData::load].  An empty texture
    gives false whatever its target; a non-empty texture of a rectangle
    target fails the assertion of [type]; every other texture is loaded,
    under the caller's file name, with an image type (a cube as a 2D
    image), no compression, the extent of level 0 converted to 32 bits and
    the smaller of 5 and its number of levels to upload first.  A loaded
    object reads its data from the texture at face 0, is not changed by
    [evictCache] or [releaseSource], and refuses every [placement]. *)
Theorem gli_load_outcomes (gli_load : string -> Gli.texture) (filename : string) :
  let tex := gli_load filename in
  let r := load gli_load filename in
  (r = Ok None <-> Gli.empty tex = true)
  /\ (forall e, r = Raise e
      <-> Gli.empty tex = false
          /\ (Gli.tex_target tex = Gli.TARGET_RECT
              \/ Gli.tex_target tex = Gli.TARGET_RECT_ARRAY)
          /\ e = AssertionFailure "Unsupported gli image target type!")
  /\ (forall a, r = Ok (Some a) ->
      let i := m_info a in
      Gli.empty tex = false
      /\ m_texture a = tex /\ m_filename a = filename /\ info_filename i = filename
      /\ info_type i <> AssetType_Unknown /\ info_type i <> AssetType_Buffer
      /\ (info_type i = AssetType_Image3D <-> Gli.tex_target tex = Gli.TARGET_3D)
      /\ (info_type i = AssetType_Image1D
          <-> Gli.tex_target tex = Gli.TARGET_1D
              \/ Gli.tex_target tex = Gli.TARGET_1D_ARRAY)
      /\ info_compression i = Compression_None
      /\ info_format i = Gli.tex_format tex
      /\ info_extent i = mkExtent (u32 (Gli.tex_extent tex 0).1.1)
                                  (u32 (Gli.tex_extent tex 0).1.2)
                                  (u32 (Gli.tex_extent tex 0).2)
      /\ (0 <= Gli.levels tex < 2 ^ 32 -> info_mipLevels i = Gli.levels tex)
      /\ (0 <= Gli.layers tex < 2 ^ 32 -> info_numLayers i = Gli.layers tex)
      /\ info_mininumLevelsToUpload i = Z.min 5 (info_mipLevels i)
      /\ (forall layer face level,
            data a layer level = Gli.data tex layer 0 level
            /\ evictCache a layer level = a
            /\ releaseSource a = a
            /\ placement a layer face level
               = Raise (AssertionFailure
                          "Data placement interface is not supported by GliTextureData"))).
Proof.
  cbv zeta. unfold load.
  destruct (Gli.empty (gli_load filename)) eqn:Hempty.
  - split; [split; reflexivity|]. split.
    + intros e. split; [discriminate | intros (H & _); discriminate].
    + intros a H. discriminate.
  - unfold type.
    destruct (Gli.tex_target (gli_load filename)) eqn:Htarget;
      (split; [split; discriminate|]);
      (split;
       [intros e; split;
        [intros H; try discriminate H; injection H as <-; auto
        |intros (_ & [H|H] & He); try discriminate H; subst e; reflexivity]
       |]);
      intros a H; try discriminate H; injection H as <-;
      cbn [m_info m_texture m_filename info_type info_compression info_format
           info_extent info_mipLevels info_numLayers info_filename
           info_mininumLevelsToUpload];
      rewrite ?Htarget;
      (split; [reflexivity|]); (split; [reflexivity|]); (split; [reflexivity|]);
      (split; [reflexivity|]); (split; [discriminate|]); (split; [discriminate|]);
      (split; [split; intros H; try discriminate H; reflexivity|]);
      (split; [split; [intros H; try discriminate H; auto
                      | intros [H|H]; try discriminate H; reflexivity]|]);
      (split; [reflexivity|]); (split; [reflexivity|]);
      (split; [unfold extent; destruct (Gli.tex_extent (gli_load filename) 0) as [[x y] z];
               reflexivity|]);
      (split; [reflexivity|]); (split; [reflexivity|]); (split; [reflexivity|]);
      intros layer face level; unfold data; cbn [m_texture]; auto.
Qed.

Lemma gli_load_outcomes_witness :
  load (fun _ => Gli.mkTexture false Gli.TARGET_RECT 0 (fun _ => (4, 4, 1)) 1 1
                   (fun _ _ _ => 0)) "r.dds"
  = Raise (AssertionFailure "Unsupported gli image target type!")
  /\ load (fun _ => Gli.mkTexture true Gli.TARGET_RECT 0 (fun _ => (4, 4, 1)) 1 1
                      (fun _ _ _ => 0)) "r.dds"
     = Ok None.
Proof.
  split.
  - apply (gli_load_outcomes
             (fun _ => Gli.mkTexture false Gli.TARGET_RECT 0 (fun _ => (4, 4, 1)) 1 1
                         (fun _ _ _ => 0)) "r.dds").
    split; [reflexivity|]. split; [left; reflexivity | reflexivity].
  - apply (gli_load_outcomes
             (fun _ => Gli.mkTexture true Gli.TARGET_RECT 0 (fun _ => (4, 4, 1)) 1 1
                         (fun _ _ _ => 0)) "r.dds").
    reflexivity.
Defined.

End GliExtras.
